(** * Energy Analyzer: a shallow embedding of [energy_analyzer.py]

    The program prompts for billing parameters and a list of devices,
    computes per-device and aggregate energy use, prints a table, a
    summary and a few tips, and writes a plain-text report.

    Python values are modelled as the interpreter has them:
    - [int] is [Z];
    - [float] is an IEEE 754 binary64 number, Rocq's primitive [float];
    - [str] is a sequence of Unicode code points, [list N];
    - the device dictionaries are mutable objects: they live in a heap
      and the program passes references to them;
    - console input and output, the heap and the report file form the
      [world] that every effectful function threads. *)

From Stdlib Require Import ZArith NArith List Bool String Ascii Lia Floats.
Import ListNotations.

Local Open Scope Z_scope.

(** ** Strings *)

Module Str.

Definition char := N.
Definition str := list char.

(** Python source files are UTF-8; a literal denotes the code points its
    bytes decode to. *)
Fixpoint utf8_go (bs : list N) (acc : N) (need : nat) : str :=
  match bs with
  | [] => []
  | b :: bs' =>
      match need with
      | S k =>
          let acc' := (acc * 64 + b mod 64)%N in
          match k with
          | O => acc' :: utf8_go bs' 0%N O
          | S _ => utf8_go bs' acc' k
          end
      | O =>
          if (b <? 128)%N then b :: utf8_go bs' 0%N O
          else if (b <? 224)%N then utf8_go bs' (b mod 32)%N 1%nat
          else if (b <? 240)%N then utf8_go bs' (b mod 16)%N 2%nat
          else utf8_go bs' (b mod 8)%N 3%nat
      end
  end.

Definition lit (s : string) : str :=
  utf8_go (map N_of_ascii (list_ascii_of_string s)) 0%N O.

Definition len (t : str) : Z := Z.of_nat (List.length t).

Definition spaces (n : Z) : str := repeat 32%N (Z.to_nat n).

(** [t.ljust(width)] and [t.rjust(width)]: unchanged when already wide
    enough. *)
Definition ljust (t : str) (width : Z) : str := t ++ spaces (width - len t).
Definition rjust (t : str) (width : Z) : str := spaces (width - len t) ++ t.

(** [t[:k]]: a negative [k] counts from the end. *)
Definition slice_to (t : str) (k : Z) : str :=
  if k <? 0 then firstn (Z.to_nat (len t + k)) t else firstn (Z.to_nat k) t.

(** The characters for which [str.isspace] holds; [strip] removes them
    from both ends. *)
Definition isspace (c : char) : bool :=
  ((9 <=? c) && (c <=? 13) || (28 <=? c) && (c <=? 32) || (c =? 133)
   || (c =? 160) || (c =? 5760) || (8192 <=? c) && (c <=? 8202)
   || (c =? 8232) || (c =? 8233) || (c =? 8239) || (c =? 8287)
   || (c =? 12288))%N.

Fixpoint lstrip (t : str) : str :=
  match t with
  | c :: t' => if isspace c then lstrip t' else t
  | [] => []
  end.

Definition strip (t : str) : str := rev (lstrip (rev (lstrip t))).

(** [sep.join(parts)] *)
Fixpoint join (sep : str) (parts : list str) : str :=
  match parts with
  | [] => []
  | [p] => p
  | p :: ps => p ++ sep ++ join sep ps
  end.

Definition nl : char := 10%N.

End Str.
Export Str.

(** ** Numbers *)

Module Num.

(** A Python [float] is a C double. [Prim2SF] exposes sign, mantissa and
    exponent of a primitive float; the value of [S754_finite s m e] is
    [(-1)^s * m * 2^e]. *)

Definition isnan (x : float) : bool :=
  match Prim2SF x with S754_nan => true | _ => false end.

Definition isfinite (x : float) : bool :=
  match Prim2SF x with
  | S754_nan | S754_infinity _ => false
  | _ => true
  end.

(** Comparison of a float with an int is exact in Python: the int is not
    rounded to a double first. [None] when the float is NaN. *)
Definition float_cmp_int (x : float) (z : Z) : option comparison :=
  match Prim2SF x with
  | S754_nan => None
  | S754_infinity s => Some (if s then Lt else Gt)
  | S754_zero _ => Some (0 ?= z)
  | S754_finite s m e =>
      let v := cond_Zopp s (Zpos m) in
      Some (if 0 <=? e then v * 2 ^ e ?= z else v ?= z * 2 ^ (- e))
  end.

(** [x < z], [x > z] for a float [x] and an int [z]: false on NaN. *)
Definition float_lt_int (x : float) (z : Z) : bool :=
  match float_cmp_int x z with Some Lt => true | _ => false end.

Definition float_gt_int (x : float) (z : Z) : bool :=
  match float_cmp_int x z with Some Gt => true | _ => false end.

(** [z <= x] and [x <= z] as the mathematical order (false on NaN). *)
Definition int_le_float (z : Z) (x : float) : bool :=
  match float_cmp_int x z with Some Gt | Some Eq => true | _ => false end.

Definition float_le_int (x : float) (z : Z) : bool :=
  match float_cmp_int x z with Some Lt | Some Eq => true | _ => false end.

(** The double nearest to an int (ties to even), as the implicit
    conversion of [float * int] computes it. *)
Definition of_int (z : Z) : float :=
  SF2Prim (binary_normalize prec emax z 0 false).

(** [int(x)] for a float [x] truncates toward zero; it raises
    [ValueError] on NaN and [OverflowError] on an infinity. *)
Inductive int_of_float_result :=
| IntOk (z : Z)
| IntNaN
| IntInf.

Definition int_of_float (x : float) : int_of_float_result :=
  match Prim2SF x with
  | S754_nan => IntNaN
  | S754_infinity _ => IntInf
  | S754_zero _ => IntOk 0
  | S754_finite s m e =>
      IntOk (cond_Zopp s (if 0 <=? e then Zpos m * 2 ^ e
                          else Zpos m / 2 ^ (- e)))
  end.

(** *** Decimal rendering *)

Definition digit (d : Z) : char := Z.to_N (48 + d).

(** The last [p] decimal digits of [n], zero-padded. *)
Fixpoint low_digits (p : nat) (n : Z) : str :=
  match p with
  | O => []
  | S p' => low_digits p' (n / 10) ++ [digit (n mod 10)]
  end.

(** All decimal digits of a non-negative [n]; [fuel] bounds their number. *)
Fixpoint digits_upto (fuel : nat) (n : Z) : str :=
  match fuel with
  | O => []
  | S k =>
      if n <? 10 then [digit n]
      else digits_upto k (n / 10) ++ [digit (n mod 10)]
  end.

Definition str_of_nonneg (n : Z) : str :=
  digits_upto (S (Z.to_nat (Z.log2 n))) n.

Definition minus_sign (s : bool) : str := if s then [45%N] else [].

(** [str(z)] for an int [z]. *)
Definition str_of_int (z : Z) : str :=
  minus_sign (z <? 0) ++ str_of_nonneg (Z.abs z).

(** [a / b] rounded to the nearest integer, ties to even ([0 <= a],
    [0 < b]). *)
Definition div_half_even (a b : Z) : Z :=
  let q := a / b in
  match 2 * (a mod b) ?= b with
  | Lt => q
  | Gt => q + 1
  | Eq => if Z.even q then q else q + 1
  end.

(** [m * 2^e * 10^p] rounded to the nearest integer: the digits that
    the format [.{p}f] prints. *)
Definition scaled (p : nat) (m : positive) (e : Z) : Z :=
  let n := Zpos m * 10 ^ Z.of_nat p in
  if 0 <=? e then n * 2 ^ e else div_half_even n (2 ^ (- e)).

(** Thousands grouping of a digit string, as the [,] option does. *)
Fixpoint group3_rev (ds : str) : str :=
  match ds with
  | a :: b :: c :: (_ :: _) as rest => a :: b :: c :: 44%N :: group3_rev rest
  | _ => ds
  end.

Definition group3 (ds : str) : str := rev (group3_rev (rev ds)).

Definition fraction (p : nat) (n : Z) : str :=
  match p with
  | O => []
  | S _ => 46%N :: low_digits p n
  end.

(** The digits of the scaled integer [n] with the decimal point put
    [p] places from the right. *)
Definition fixed (grouped : bool) (p : nat) (n : Z) : str :=
  let ip := str_of_nonneg (n / 10 ^ Z.of_nat p) in
  (if grouped then group3 ip else ip) ++ fraction p n.

(** [format(x, ".{p}f")], and [",.{p}f"] when [grouped]. *)
Definition format_f (grouped : bool) (p : nat) (x : float) : str :=
  match Prim2SF x with
  | S754_nan => lit "nan"
  | S754_infinity s => minus_sign s ++ lit "inf"
  | S754_zero s => minus_sign s ++ fixed grouped p 0
  | S754_finite s m e => minus_sign s ++ fixed grouped p (scaled p m e)
  end.

End Num.
Export Num.

(** ** The world and the effect monad *)

(** A device dictionary [{"name", "watts", "hours", "qty", "kwh_day"}]:
    every key is always present, so a record. *)
Record device := mkDevice {
  name : str;
  watts : float;
  hours : float;
  qty : Z;
  kwh_day : float
}.

(** A reference to a device dictionary in the heap. *)
Definition ref := nat.

(** What the program reads and writes. [stdout] holds the chunks written
    so far, oldest first; [report_file] is the content of
    [energy_report.txt] ([None] while it does not exist); [clock] is the
    local time as [strftime("%Y-%m-%d %H:%M:%S")] renders it. *)
Record world := mkWorld {
  stdin : list str;
  stdout : list str;
  heap : list device;
  report_file : option str;
  clock : str
}.

(** The exceptions the program can meet. [DanglingRef] is no Python
    exception: it marks a reference outside the heap, which a Python
    program cannot hold. *)
Inductive exn := EOFError | ValueError | OverflowError | DanglingRef.

Inductive result (A : Type) :=
| Ok (a : A)
| Raise (e : exn).
Arguments Ok {A} a.
Arguments Raise {A} e.

(** An effectful computation: effects made before an exception stay. *)
Definition M (A : Type) := world -> result A * world.

Definition ret {A} (a : A) : M A := fun w => (Ok a, w).

Definition raise {A} (e : exn) : M A := fun w => (Raise e, w).

Definition bind {A B} (c : M A) (k : A -> M B) : M B :=
  fun w =>
    match c w with
    | (Ok a, w') => k a w'
    | (Raise e, w') => (Raise e, w')
    end.

Notation "x <- c ;; k" := (bind c (fun x => k))
  (at level 61, c at next level, right associativity).
Notation "c ;; k" := (bind c (fun _ => k))
  (at level 61, right associativity).

Fixpoint mapM {A B} (f : A -> M B) (xs : list A) : M (list B) :=
  match xs with
  | [] => ret []
  | x :: xs' => y <- f x ;; ys <- mapM f xs' ;; ret (y :: ys)
  end.

Fixpoint forM_ {A} (xs : list A) (f : A -> M unit) : M unit :=
  match xs with
  | [] => ret tt
  | x :: xs' => f x ;; forM_ xs' f
  end.

(** [sys.stdout.write(s)] *)
Definition write (s : str) : M unit :=
  fun w => (Ok tt, mkWorld (stdin w) (stdout w ++ [s]) (heap w)
                           (report_file w) (clock w)).

(** [print(a, b, ...)]: the arguments joined by a space, then a newline. *)
Definition print (args : list str) : M unit :=
  write (join [32%N] args ++ [nl]).

(** [input(prompt)]: writes the prompt, then reads one line without its
    newline; [EOFError] at the end of the input. *)
Definition input (prompt : str) : M str :=
  write prompt ;;
  fun w =>
    match stdin w with
    | [] => (Raise EOFError, w)
    | line :: rest =>
        (Ok line, mkWorld rest (stdout w) (heap w) (report_file w) (clock w))
    end.

(** Reading the dictionary a reference points to. *)
Definition deref (r : ref) : M device :=
  fun w =>
    match nth_error (heap w) r with
    | Some d => (Ok d, w)
    | None => (Raise DanglingRef, w)
    end.

(** A new dictionary. *)
Definition alloc (d : device) : M ref :=
  fun w => (Ok (List.length (heap w)),
            mkWorld (stdin w) (stdout w) (heap w ++ [d])
                    (report_file w) (clock w)).

(** [datetime.now().strftime("%Y-%m-%d %H:%M:%S")] *)
Definition now_stamp : M str := fun w => (Ok (clock w), w).

(** [open("energy_report.txt", "w").write(text)]: the file is replaced. *)
Definition write_report_file (text : str) : M unit :=
  fun w => (Ok tt, mkWorld (stdin w) (stdout w) (heap w) (Some text)
                           (clock w)).

(** [int(x)] on a float, with its exceptions. *)
Definition int_of_floatM (x : float) : M Z :=
  match int_of_float x with
  | IntOk z => ret z
  | IntNaN => raise ValueError
  | IntInf => raise OverflowError
  end.

(** The implicit conversion of an int operand of a float operation:
    [OverflowError] when the int is too large for a double. *)
Definition float_of_intM (z : Z) : M float :=
  if isfinite (of_int z) then ret (of_int z) else raise OverflowError.

(** ** The program *)

(** ANSI colour codes for terminal rendering *)
Definition esc (code : string) : str := 27%N :: lit code.
Definition CYN := esc "[96m".
Definition GRN := esc "[92m".
Definition YEL := esc "[93m".
Definition RST := esc "[0m".
Definition BOLD := esc "[1m".

(** [pad(text, width)]: short helper to align table columns; truncates
    with an ellipsis if too long. *)
Definition pad (t : str) (width : Z) : str :=
  if len t >? width then slice_to t (width - 1) ++ lit "…"
  else ljust t width.

(** [low is not None and v < low], [high is not None and v > high] *)
Definition below {V} (lt : V -> Z -> bool) (low : option Z) (v : V) : bool :=
  match low with Some l => lt v l | None => false end.

Definition above {V} (gt : V -> Z -> bool) (high : option Z) (v : V) : bool :=
  match high with Some h => gt v h | None => false end.

(** [f"{bound}"] for a bound given as an int (or [None]). *)
Definition bound_text (b : option Z) : str :=
  match b with Some z => str_of_int z | None => lit "None" end.

(** An int that may still be the start value of [sum]: the sum of no
    floats is the int [0], the sum of some floats is a float. *)
Inductive num :=
| I (z : Z)
| F (x : float).

(** [sum(xs)] over floats: the int [0] when there is none, otherwise the
    float the interpreter's summation [float_sum] gives for them.  Which
    additions that summation makes depends on the interpreter (module
    [Sum] has the two that CPython has used), so it is taken as the
    builtin it is. *)
Definition py_sum (float_sum : list float -> float) (xs : list float)
    : num :=
  match xs with
  | [] => I 0
  | _ :: _ => F (float_sum xs)
  end.

(** [a * z] for an int [z], and [a * t] for a float [t]. *)
Definition mul_int (a : num) (z : Z) : M num :=
  match a with
  | I x => ret (I (x * z))
  | F x => q <- float_of_intM z ;; ret (F (x * q)%float)
  end.

Definition mul_float (a : num) (t : float) : M float :=
  match a with
  | I x => q <- float_of_intM x ;; ret (q * t)%float
  | F x => ret (x * t)%float
  end.

Definition as_float (a : num) : float :=
  match a with I z => of_int z | F x => x end.

(** [max(xs, key=key)]: the first item is kept until a later one has a
    key that is greater ([>]); [ValueError] on an empty list. *)
Fixpoint max_loop {A} (key : A -> M float) (best : A) (best_key : float)
    (rest : list A) : M A :=
  match rest with
  | [] => ret best
  | x :: rest' =>
      k <- key x ;;
      if (best_key <? k)%float then max_loop key x k rest'
      else max_loop key best best_key rest'
  end.

Definition py_max {A} (key : A -> M float) (xs : list A) : M A :=
  match xs with
  | [] => raise ValueError
  | x :: rest => k <- key x ;; max_loop key x k rest
  end.

(** [any(p(x) for x in xs)]: stops at the first hit. *)
Fixpoint py_any {A} (p : A -> M bool) (xs : list A) : M bool :=
  match xs with
  | [] => ret false
  | x :: xs' => b <- p x ;; if b then ret true else py_any p xs'
  end.

Definition when (b : bool) (c : M unit) : M unit := if b then c else ret tt.

(** What [summary_and_report] computes before it prints (its first four
    assignments). [top] is a reference to the dictionary [max] chose. *)
Record metrics := mkMetrics {
  total_kwh_day : float;
  total_kwh_month : float;
  est_bill : float;
  top : ref
}.

(** Which of its two ends [main] reached. *)
Inductive main_exit := NoDevices | Reported.

(** Table and report layout *)
Definition h1 := lit "Device".
Definition h2 := lit "Watts".
Definition h3 := lit "Hours".
Definition h4 := lit "Qty".
Definition h5 := lit "kWh/day".
Definition w1 := 20.
Definition w2 := 7.
Definition w3 := 7.
Definition w4 := 5.
Definition w5 := 10.
Definition total_width := w1 + w2 + w3 + w4 + w5 + 8.
Definition bar := lit "|".

(** ["-" * total_width] *)
Definition rule : str := repeat 45%N (Z.to_nat total_width).

(** The arguments of the [print] of a table row, for a device [d] whose
    [int(d["watts"])] is [wi]. *)
Definition row_cells (d : device) (wi : Z) : list str :=
  [pad (name d) w1; bar; pad (str_of_int wi) w2; bar;
   pad (format_f false 1 (hours d)) w3; bar;
   pad (str_of_int (qty d)) w4; bar;
   pad (format_f false 3 (kwh_day d)) w5].

(** The f-string of a row of the report file:
    [{name:20} {int(watts):7d} {hours:7.1f} {qty:5d} {kwh_day:10.3f}]. *)
Definition file_row_text (d : device) (wi : Z) : str :=
  ljust (name d) 20 ++ lit " " ++ rjust (str_of_int wi) 7 ++ lit " "
  ++ rjust (format_f false 1 (hours d)) 7 ++ lit " "
  ++ rjust (str_of_int (qty d)) 5 ++ lit " "
  ++ rjust (format_f false 3 (kwh_day d)) 10.

(** ** Decimal literals

    [int(s)] and [float(s)] on the plain ASCII literals: an optional
    sign, then digits (for a float also a fraction, an exponent, or one
    of [nan], [inf], [infinity] in any case). The two builtins accept
    more (underscores, other scripts' digits); on these literals they
    return what is computed here, correctly rounded for a float. *)

Module Literal.

Definition is_digit (c : char) : bool := ((48 <=? c) && (c <=? 57))%N.

(** The leading digits of [cs] and what follows them. *)
Fixpoint span_digits (cs : str) : str * str :=
  match cs with
  | c :: cs' =>
      if is_digit c then let (ds, rest) := span_digits cs' in (c :: ds, rest)
      else ([], cs)
  | [] => ([], [])
  end.

Definition digits_value (ds : str) : Z :=
  fold_left (fun acc c => acc * 10 + (Z.of_N c - 48)) ds 0.

Definition split_sign (cs : str) : bool * str :=
  match cs with
  | 45%N :: rest => (true, rest)
  | 43%N :: rest => (false, rest)
  | _ => (false, cs)
  end.

Definition signed (neg : bool) (n : Z) : Z := if neg then - n else n.

Definition dec_int (s : str) : option Z :=
  let (neg, body) := split_sign s in
  match span_digits body with
  | ((_ :: _) as ds, []) => Some (signed neg (digits_value ds))
  | _ => None
  end.

Definition lower (c : char) : char :=
  if ((65 <=? c) && (c <=? 90))%N then (c + 32)%N else c.

Definition str_eqb (a b : str) : bool :=
  if list_eq_dec N.eq_dec a b then true else false.

(** The double nearest to [n * 10^e10] for [0 < n], with sign [neg]. *)
Definition decimal_to_float (neg : bool) (n e10 : Z) : float :=
  if 0 <=? e10 then
    SF2Prim (binary_normalize prec emax (signed neg (n * 10 ^ e10)) 0 false)
  else
    let d := 10 ^ (- e10) in
    let s := Z.max 0 (66 + Z.log2 d - Z.log2 n) in
    let (q, r) := Z.div_eucl (n * 2 ^ s) d in
    SF2Prim (binary_round_aux prec emax neg q (- s) (new_location d r)).

Definition signed_zero (neg : bool) : float :=
  if neg then (-0)%float else 0%float.

Definition signed_inf (neg : bool) : float :=
  if neg then neg_infinity else infinity.

Definition dec_float (s : str) : option float :=
  let (neg, body) := split_sign s in
  let word := map lower body in
  if str_eqb word (lit "nan") then Some nan
  else if str_eqb word (lit "inf") || str_eqb word (lit "infinity")
  then Some (signed_inf neg)
  else
    let (ip, rest) := span_digits body in
    let (fp, rest) :=
      match rest with
      | 46%N :: rest' => span_digits rest'
      | _ => ([], rest)
      end in
    let e10 :=
      match rest with
      | [] => Some 0
      | c :: rest' => if (lower c =? 101)%N then dec_int rest' else None
      end in
    match ip ++ fp, e10 with
    | (_ :: _) as ds, Some e =>
        let n := digits_value ds in
        Some (if n =? 0 then signed_zero neg
              else decimal_to_float neg n (e - len fp))
    | _, _ => None
    end.

(** [str(x)] for the floats that print with one decimal. *)
Definition repr1 (x : float) : str := format_f false 1 x.

End Literal.

(** ** Sample households *)

(** ** The summation of [sum]

    [sum] over floats as CPython computes it.  Both start from the int
    [0], to which the first item is added. *)
Module Sum.

(** Up to CPython 3.11: one addition per item, from left to right. *)
Definition plain (xs : list float) : float :=
  fold_left PrimFloat.add xs 0%float.

(** From CPython 3.12 on: the additions of [plain], and beside them the
    rounding error of each one collected in [c] (Neumaier's variant of
    compensated summation). *)
Fixpoint neumaier (f c : float) (xs : list float) : float * float :=
  match xs with
  | [] => (f, c)
  | x :: xs' =>
      let t := (f + x)%float in
      let c' :=
        if (abs x <=? abs f)%float then (c + ((f - t) + x))%float
        else (c + ((x - t) + f))%float in
      neumaier t c' xs'
  end.

(** The collected error is added at the end, unless it is zero or not
    finite. *)
Definition compensated (xs : list float) : float :=
  match xs with
  | [] => 0%float
  | x :: xs' =>
      let (f, c) := neumaier (0 + x)%float 0%float xs' in
      if negb (c =? 0)%float && isfinite c then (f + c)%float else f
  end.

End Sum.

Module Scenario.

(** A device with its daily kWh computed as [collect_devices] does. *)
Definition appliance (label : string) (watts hours : float) (qty : Z)
    : device :=
  mkDevice (lit label) watts hours qty
           (watts * hours * of_int qty / 1000)%float.

Definition fan := appliance "Fan" 75 11 2.
Definition ac := appliance "AC" 2000 8 1.
Definition heater := appliance "Heater" 2000 8 1.
Definition fridge := appliance "Fridge" 150 24 1.
Definition generator := appliance "Generator" 12345678.5 1 1.
Definition plant := appliance "Plant" 50000 24 1000.

(** A world with the given devices in its heap and lines on its input. *)
Definition home (devices : list device) (typed : list string) : world :=
  mkWorld (map lit typed) [] devices None (lit "2026-01-01 09:00:00").

(** Somebody about to enter one fan; a household with a tie for the top
    consumer; scenario B of the specification. *)
Definition fan_typed : world :=
  home [] ["Fan"%string; "75"%string; "11"%string; "2"%string].
Definition tie : world := home [fridge; ac; heater] [].
Definition scenario_b : world := home [ac; fridge] [].

(** Households of one device whose figures are wider than the columns
    of the console table. *)
Definition generator_alone : world := home [generator] [].
Definition plant_alone : world := home [plant] [].

End Scenario.

Section Program.

(** The builtins [int(s)] and [float(s)] on a string ([None] where they
    raise [ValueError]) and [str(x)] on a float. *)
Variable py_int : str -> option Z.
Variable py_float : str -> option float.
Variable repr_float : float -> str.

(** The summation of the builtin [sum] over floats. *)
Variable float_sum : list float -> float.

(** Prompt for integer input with simple validation and helpful
    messages. Every round of the [while True] loop reads one line, so
    [ask_int] allows one round per line of input and one more, which
    meets the end of the input: the rounds never run out before
    [input] raises. *)
Fixpoint ask_int_loop (rounds : nat) (prompt : str) (low high : option Z)
    : M Z :=
  match rounds with
  | O => raise EOFError
  | S rounds' =>
      line <- input prompt ;;
      let s := strip line in
      match s with
      | [] =>
          print [lit "  enter a value"] ;;
          ask_int_loop rounds' prompt low high
      | _ :: _ =>
          match py_int s with
          | Some v =>
              if below Z.ltb low v then
                print [lit "  must be ≥ " ++ bound_text low] ;;
                ask_int_loop rounds' prompt low high
              else if above Z.gtb high v then
                print [lit "  must be ≤ " ++ bound_text high] ;;
                ask_int_loop rounds' prompt low high
              else ret v
          | None =>
              print [lit "  integers only"] ;;
              ask_int_loop rounds' prompt low high
          end
      end
  end.

Definition ask_int (prompt : str) (low high : option Z) : M Z :=
  fun w => ask_int_loop (S (List.length (stdin w))) prompt low high w.

(** Prompt for float input with validation. Accepts integers too. *)
Fixpoint ask_float_loop (rounds : nat) (prompt : str) (low high : option Z)
    : M float :=
  match rounds with
  | O => raise EOFError
  | S rounds' =>
      line <- input prompt ;;
      let s := strip line in
      match s with
      | [] =>
          print [lit "  enter a value"] ;;
          ask_float_loop rounds' prompt low high
      | _ :: _ =>
          match py_float s with
          | Some v =>
              if below float_lt_int low v then
                print [lit "  must be ≥ " ++ bound_text low] ;;
                ask_float_loop rounds' prompt low high
              else if above float_gt_int high v then
                print [lit "  must be ≤ " ++ bound_text high] ;;
                ask_float_loop rounds' prompt low high
              else ret v
          | None =>
              print [lit "  numbers only"] ;;
              ask_float_loop rounds' prompt low high
          end
      end
  end.

Definition ask_float (prompt : str) (low high : option Z) : M float :=
  fun w => ask_float_loop (S (List.length (stdin w))) prompt low high w.

(** Print the small ANSI-coloured header. *)
Definition human_header : M unit :=
  print [CYN ++ BOLD ++ lit "Energy Analyzer — CLI" ++ RST
         ++ lit "  |  simple usage"] ;;
  print [].

(** Collect device information from user and compute per-device daily
    kWh. [i] runs over [range(1, n + 1)]. *)
Fixpoint collect_loop (count : nat) (i : Z) (devices : list ref)
    : M (list ref) :=
  match count with
  | O => ret devices
  | S count' =>
      line <- input (lit "  " ++ str_of_int i ++ lit ". Device name: ") ;;
      let name :=
        match strip line with
        | [] => lit "Device" ++ str_of_int i
        | s => s
        end in
      watts <- ask_float (lit "     Watts (W): ") (Some 1) None ;;
      hours <- ask_float (lit "     Hours per day: ") (Some 0) (Some 24) ;;
      qty <- ask_int (lit "     Quantity: ") (Some 1) (Some 1000) ;;
      q <- float_of_intM qty ;;
      let kwh_day := (watts * hours * q / 1000)%float in
      d <- alloc (mkDevice name watts hours qty kwh_day) ;;
      collect_loop count' (i + 1) (devices ++ [d])
  end.

Definition collect_devices (n : Z) : M (list ref) :=
  print [nl :: lit "Enter device details (example names: Air Conditioner, Fridge, Fan)."] ;;
  collect_loop (Z.to_nat n) 1 [].

(** [d["kwh_day"]] *)
Definition kwh_of (d : ref) : M float := x <- deref d ;; ret (kwh_day x).

(** Totals and the top consumer. *)
Definition compute_metrics (devices : list ref) (days : Z) (tariff : float)
    : M metrics :=
  ks <- mapM kwh_of devices ;;
  let total_kwh_day := py_sum float_sum ks in
  total_kwh_month <- mul_int total_kwh_day days ;;
  est_bill <- mul_float total_kwh_month tariff ;;
  top <- py_max kwh_of devices ;;
  ret (mkMetrics (as_float total_kwh_day) (as_float total_kwh_month)
                 est_bill top).

(** One row of the console table. *)
Definition print_row (r : ref) : M unit :=
  d <- deref r ;;
  wi <- int_of_floatM (watts d) ;;
  print (row_cells d wi).

(** Table header and rows *)
Definition print_table (devices : list ref) : M unit :=
  print [] ;;
  print [BOLD ++ lit "Per-Device Daily Usage" ++ RST] ;;
  print [rule] ;;
  print [pad h1 w1; bar; pad h2 w2; bar; pad h3 w3; bar; pad h4 w4; bar;
         pad h5 w5] ;;
  print [rule] ;;
  forM_ devices print_row ;;
  print [rule].

(** Summary (minimal color) *)
Definition print_summary (m : metrics) (days : Z) (tariff : float) : M unit :=
  print [] ;;
  print [GRN ++ BOLD ++ lit "Summary" ++ RST] ;;
  print [lit "  Total daily consumption      : "
         ++ format_f false 3 (total_kwh_day m) ++ lit " kWh"] ;;
  print [lit "  Billing cycle consumption    : "
         ++ format_f false 3 (total_kwh_month m) ++ lit " kWh (days="
         ++ str_of_int days ++ lit ")"] ;;
  print [lit "  Estimated bill @ ₹" ++ format_f false 2 tariff
         ++ lit "/kWh : " ++ YEL ++ lit "₹"
         ++ format_f true 2 (est_bill m) ++ RST] ;;
  t <- deref (top m) ;;
  print [lit "  Highest daily consumer       : " ++ name t ++ lit " ("
         ++ format_f false 3 (kwh_day t) ++ lit " kWh/day)"] ;;
  print [].

Definition tip1 := lit "  • Consider staggering heavy loads to reduce peak usage.".
Definition tip2 (top_name : str) :=
  lit "  • Try reducing " ++ top_name
  ++ lit " hours or enable energy-saver settings.".
Definition tip3 := lit "  • Tariff is relatively high—small savings on daily kWh translate to meaningful ₹ reductions.".
Definition tip4 := lit "  • Long-running low-watt devices add up—audit always-on equipment.".

(** [d["watts"] < 80 and d["hours"] > 10] *)
Definition low_watt_long_running (d : device) : bool :=
  float_lt_int (watts d) 80 && float_gt_int (hours d) 10.

(** Practical tips (simple heuristics) *)
Definition print_tips (m : metrics) (devices : list ref) (tariff : float)
    : M unit :=
  print [lit "Tips:"] ;;
  when (float_gt_int (total_kwh_day m) 15) (print [tip1]) ;;
  t <- deref (top m) ;;
  when (float_gt_int (hours t) 8 && float_gt_int (watts t) 200)
       (print [tip2 (name t)]) ;;
  when (float_gt_int tariff 9) (print [tip3]) ;;
  hit <- py_any (fun r => d <- deref r ;; ret (low_watt_long_running d))
                devices ;;
  when hit (print [tip4]).

(** One row of the report file. *)
Definition file_row (r : ref) : M str :=
  d <- deref r ;;
  wi <- int_of_floatM (watts d) ;;
  ret (file_row_text d wi).

(** Write report *)
Definition write_report (m : metrics) (devices : list ref) (days : Z)
    (tariff : float) : M unit :=
  stamp <- now_stamp ;;
  let lines :=
    [lit "Energy Analyzer Report";
     lit "Generated: " ++ stamp;
     [];
     lit "Billing days: " ++ str_of_int days;
     lit "Tariff (₹/kWh): " ++ repr_float tariff;
     [];
     lit "Per-Device Daily Usage:";
     ljust h1 20 ++ lit " " ++ rjust h2 7 ++ lit " " ++ rjust h3 7
       ++ lit " " ++ rjust h4 5 ++ lit " " ++ rjust h5 10] in
  rows <- mapM file_row devices ;;
  t <- deref (top m) ;;
  let totals :=
    [[];
     lit "Total daily kWh: " ++ format_f false 3 (total_kwh_day m);
     lit "Monthly kWh   : " ++ format_f false 3 (total_kwh_month m);
     lit "Est. bill (₹) : " ++ format_f false 2 (est_bill m);
     lit "Top device    : " ++ name t ++ lit " ("
       ++ format_f false 3 (kwh_day t) ++ lit " kWh/day)"] in
  write_report_file (join [nl] (lines ++ rows ++ totals)) ;;
  print [nl :: lit "Report saved to: energy_report.txt"].

(** Compute totals, print summary, and write a plain-text report file. *)
Definition summary_and_report (devices : list ref) (days : Z)
    (tariff : float) : M unit :=
  m <- compute_metrics devices days tariff ;;
  print_table devices ;;
  print_summary m days tariff ;;
  print_tips m devices tariff ;;
  write_report m devices days tariff.

Definition main : M main_exit :=
  human_header ;;
  days <- ask_int (lit "Billing days (typical 30): ") (Some 1) (Some 365) ;;
  tariff <- ask_float (lit "Tariff ₹/kWh (e.g., 8): ") (Some 0) None ;;
  n <- ask_int (lit "Number of devices: ") (Some 1) (Some 100) ;;
  devices <- collect_devices n ;;
  match devices with
  | [] => print [lit "No devices entered; exiting."] ;; ret NoDevices
  | _ :: _ => summary_and_report devices days tariff ;; ret Reported
  end.

(** * Properties *)

(** ** Reasoning about runs *)

Lemma bind_ok {A B} (c : M A) (k : A -> M B) w b w' :
  bind c k w = (Ok b, w') ->
  exists a w1, c w = (Ok a, w1) /\ k a w1 = (Ok b, w').
Proof.
  unfold bind. destruct (c w) as [[a | e] w1]; intros H.
  - exists a, w1. split; [reflexivity | exact H].
  - discriminate H.
Qed.

(** A computation that leaves a component of the world as it found it,
    whatever its outcome. *)
Definition keeps {A X} (proj : world -> X) (c : M A) : Prop :=
  forall w, proj (snd (c w)) = proj w.

Lemma keeps_ret {A X} (proj : world -> X) (a : A) : keeps proj (ret a).
Proof. intro w. reflexivity. Qed.

Lemma keeps_raise {A X} (proj : world -> X) e : keeps proj (@raise A e).
Proof. intro w. reflexivity. Qed.

Lemma keeps_bind {A B X} (proj : world -> X) (c : M A) (k : A -> M B) :
  keeps proj c -> (forall a, keeps proj (k a)) -> keeps proj (bind c k).
Proof.
  intros Hc Hk w. unfold bind. specialize (Hc w).
  destruct (c w) as [[a | e] w1]; simpl in *.
  - rewrite Hk. exact Hc.
  - exact Hc.
Qed.

Lemma keeps_when {X} (proj : world -> X) b c :
  keeps proj c -> keeps proj (when b c).
Proof. destruct b; simpl; [trivial | intros _; apply keeps_ret]. Qed.

Lemma keeps_mapM {A B X} (proj : world -> X) (f : A -> M B) xs :
  (forall x, keeps proj (f x)) -> keeps proj (mapM f xs).
Proof.
  intros Hf. induction xs as [| x xs IH]; simpl.
  - apply keeps_ret.
  - apply keeps_bind; [apply Hf | intros y].
    apply keeps_bind; [exact IH | intros ys; apply keeps_ret].
Qed.

Lemma keeps_forM_ {A X} (proj : world -> X) (f : A -> M unit) xs :
  (forall x, keeps proj (f x)) -> keeps proj (forM_ xs f).
Proof.
  intros Hf. induction xs as [| x xs IH]; simpl.
  - apply keeps_ret.
  - apply keeps_bind; [apply Hf | intros _; exact IH].
Qed.

Lemma keeps_py_any {A X} (proj : world -> X) (p : A -> M bool) xs :
  (forall x, keeps proj (p x)) -> keeps proj (py_any p xs).
Proof.
  intros Hp. induction xs as [| x xs IH]; simpl.
  - apply keeps_ret.
  - apply keeps_bind; [apply Hp | intros [|]; [apply keeps_ret | exact IH]].
Qed.

Lemma keeps_max_loop {A X} (proj : world -> X) (key : A -> M float) rest :
  (forall x, keeps proj (key x)) ->
  forall best best_key, keeps proj (max_loop key best best_key rest).
Proof.
  intros Hk. induction rest as [| x rest IH]; intros best best_key; simpl.
  - apply keeps_ret.
  - apply keeps_bind; [apply Hk | intros k].
    destruct (best_key <? k)%float; apply IH.
Qed.

Lemma keeps_py_max {A X} (proj : world -> X) (key : A -> M float) xs :
  (forall x, keeps proj (key x)) -> keeps proj (py_max key xs).
Proof.
  intros Hk. destruct xs as [| x rest]; simpl.
  - apply keeps_raise.
  - apply keeps_bind; [apply Hk | intros k; apply keeps_max_loop, Hk].
Qed.

(** The heap is only ever touched by [alloc]. *)
Lemma keeps_heap_write s : keeps heap (write s).
Proof. intro w. reflexivity. Qed.

Lemma keeps_heap_print args : keeps heap (print args).
Proof. apply keeps_heap_write. Qed.

Lemma keeps_heap_input prompt : keeps heap (input prompt).
Proof.
  apply keeps_bind; [apply keeps_heap_write | intros _ w].
  destruct (stdin w); reflexivity.
Qed.

Lemma keeps_heap_deref r : keeps heap (deref r).
Proof. intro w. unfold deref. destruct (nth_error (heap w) r); reflexivity. Qed.

Lemma keeps_heap_now : keeps heap now_stamp.
Proof. intro w. reflexivity. Qed.

Lemma keeps_heap_write_file text : keeps heap (write_report_file text).
Proof. intro w. reflexivity. Qed.

Lemma keeps_int_of_floatM {X} (proj : world -> X) x :
  keeps proj (int_of_floatM x).
Proof.
  unfold int_of_floatM.
  destruct (int_of_float x); [apply keeps_ret | apply keeps_raise ..].
Qed.

Lemma keeps_float_of_intM {X} (proj : world -> X) z :
  keeps proj (float_of_intM z).
Proof.
  unfold float_of_intM.
  destruct (isfinite (of_int z)); [apply keeps_ret | apply keeps_raise].
Qed.

Create HintDb frame.
#[local] Hint Resolve keeps_ret keeps_raise keeps_when keeps_mapM
  keeps_forM_ keeps_py_any keeps_max_loop keeps_py_max keeps_heap_write
  keeps_heap_print keeps_heap_input keeps_heap_deref keeps_heap_now
  keeps_heap_write_file keeps_int_of_floatM keeps_float_of_intM : frame.

(** Splits a sequence of binds into its steps. *)
Ltac frame_steps :=
  repeat first [ solve [auto with frame] | apply keeps_bind; [| intros ? ] ].

(** ** The validators *)

(** A line of input that [ask_int] returns the value [v] for: not blank,
    an integer literal, and inside the closed interval of the bounds. *)
Definition accepted_int (low high : option Z) (line : str) (v : Z) : Prop :=
  strip line <> [] /\ py_int (strip line) = Some v /\
  (forall l, low = Some l -> l <= v) /\ (forall h, high = Some h -> v <= h).

(** The same for [ask_float], with the two tests the code makes: the
    value is not below the lower bound and not above the upper one. *)
Definition accepted_float (low high : option Z) (line : str) (v : float)
    : Prop :=
  strip line <> [] /\ py_float (strip line) = Some v /\
  (forall l, low = Some l -> float_lt_int v l = false) /\
  (forall h, high = Some h -> float_gt_int v h = false).

(** A run of a validator: the lines it skipped, the outcome, and the
    input it left. *)
Inductive asked {V} (accepted : str -> V -> Prop) (lines : list str)
    : result V -> list str -> Prop :=
| asked_value skipped line rest v :
    lines = skipped ++ line :: rest ->
    Forall (fun l => forall v', ~ accepted l v') skipped ->
    accepted line v ->
    asked accepted lines (Ok v) rest
| asked_eof :
    Forall (fun l => forall v', ~ accepted l v') lines ->
    asked accepted lines (Raise EOFError) [].

Lemma asked_skip {V} (accepted : str -> V -> Prop) line lines r rest :
  (forall v, ~ accepted line v) ->
  asked accepted lines r rest ->
  asked accepted (line :: lines) r rest.
Proof.
  intros Hrej H. destruct H as [skipped l rest v -> Hs Ha | Hall].
  - apply (asked_value _ _ (line :: skipped) l rest v);
      [reflexivity | constructor; assumption | assumption].
  - apply asked_eof. constructor; assumption.
Qed.

Lemma below_false {V} (lt : V -> Z -> bool) low v :
  below lt low v = false <-> forall l, low = Some l -> lt v l = false.
Proof.
  destruct low as [l |]; simpl; split; intros H.
  - intros ? [= <-]. exact H.
  - apply H. reflexivity.
  - intros ? [=].
  - reflexivity.
Qed.

Lemma above_false {V} (gt : V -> Z -> bool) high v :
  above gt high v = false <-> forall h, high = Some h -> gt v h = false.
Proof. exact (below_false gt high v). Qed.

Lemma print_seq {B} args (k : M B) w :
  (print args ;; k) w = k (snd (print args w)).
Proof. reflexivity. Qed.

(** Closes a round that rejected its line: the loop goes on with the
    rest of the input. *)
Ltac next_round IH Hlen :=
  rewrite print_seq;
  match goal with
  | |- asked _ _ (fst (_ _ _ _ _ ?W)) _ => apply (IH W); exact Hlen
  end.

Lemma ask_int_loop_asked prompt low high :
  forall rounds w,
    (List.length (stdin w) < rounds)%nat ->
    asked (accepted_int low high) (stdin w)
          (fst (ask_int_loop rounds prompt low high w))
          (stdin (snd (ask_int_loop rounds prompt low high w))).
Proof.
  induction rounds as [| rounds IH]; intros w Hlen; [inversion Hlen |].
  destruct w as [lines out hp file clk]. simpl in Hlen.
  destruct lines as [| line rest].
  - simpl. apply asked_eof. constructor.
  - simpl in Hlen. apply PeanoNat.lt_S_n in Hlen.
    cbn [ask_int_loop]. unfold bind at 1.
    cbn [input write print bind stdin stdout heap report_file clock fst snd].
    destruct (strip line) as [| c s] eqn:Es.
    + apply asked_skip.
      * intros v (Hne & _). apply Hne. exact Es.
      * next_round IH Hlen.
    + destruct (py_int (c :: s)) as [v |] eqn:Ep.
      * destruct (below Z.ltb low v) eqn:Elo.
        { apply asked_skip; [| next_round IH Hlen].
          intros v' (_ & Hp & Hl & _). rewrite Es, Ep in Hp.
          injection Hp as <-.
          destruct low as [l |]; [| discriminate Elo]. simpl in Elo.
          specialize (Hl l eq_refl). apply Z.ltb_lt in Elo. lia. }
        destruct (above Z.gtb high v) eqn:Ehi.
        { apply asked_skip; [| next_round IH Hlen].
          intros v' (_ & Hp & _ & Hh). rewrite Es, Ep in Hp.
          injection Hp as <-.
          destruct high as [h |]; [| discriminate Ehi]. simpl in Ehi.
          specialize (Hh h eq_refl). rewrite Z.gtb_ltb in Ehi.
          apply Z.ltb_lt in Ehi. lia. }
        simpl. apply (asked_value _ _ [] line rest v);
          [reflexivity | constructor |].
        split; [rewrite Es; discriminate |].
        split; [rewrite Es; exact Ep |].
        split.
        { intros l ->. simpl in Elo. apply Z.ltb_ge in Elo. exact Elo. }
        { intros h ->. simpl in Ehi. rewrite Z.gtb_ltb in Ehi.
          apply Z.ltb_ge in Ehi. exact Ehi. }
      * apply asked_skip; [| next_round IH Hlen].
        intros v (_ & Hp & _). rewrite Es, Ep in Hp. discriminate Hp.
Qed.

Lemma ask_float_loop_asked prompt low high :
  forall rounds w,
    (List.length (stdin w) < rounds)%nat ->
    asked (accepted_float low high) (stdin w)
          (fst (ask_float_loop rounds prompt low high w))
          (stdin (snd (ask_float_loop rounds prompt low high w))).
Proof.
  induction rounds as [| rounds IH]; intros w Hlen; [inversion Hlen |].
  destruct w as [lines out hp file clk]. simpl in Hlen.
  destruct lines as [| line rest].
  - simpl. apply asked_eof. constructor.
  - simpl in Hlen. apply PeanoNat.lt_S_n in Hlen.
    cbn [ask_float_loop]. unfold bind at 1.
    cbn [input write print bind stdin stdout heap report_file clock fst snd].
    destruct (strip line) as [| c s] eqn:Es.
    + apply asked_skip.
      * intros v (Hne & _). apply Hne. exact Es.
      * next_round IH Hlen.
    + destruct (py_float (c :: s)) as [v |] eqn:Ep.
      * destruct (below float_lt_int low v) eqn:Elo.
        { apply asked_skip; [| next_round IH Hlen].
          intros v' (_ & Hp & Hl & _). rewrite Es, Ep in Hp.
          injection Hp as <-.
          apply below_false in Hl. congruence. }
        destruct (above float_gt_int high v) eqn:Ehi.
        { apply asked_skip; [| next_round IH Hlen].
          intros v' (_ & Hp & _ & Hh). rewrite Es, Ep in Hp.
          injection Hp as <-.
          apply above_false in Hh. congruence. }
        simpl. apply (asked_value _ _ [] line rest v);
          [reflexivity | constructor |].
        split; [rewrite Es; discriminate |].
        split; [rewrite Es; exact Ep |].
        split; [apply below_false, Elo | apply above_false, Ehi].
      * apply asked_skip; [| next_round IH Hlen].
        intros v (_ & Hp & _). rewrite Es, Ep in Hp. discriminate Hp.
Qed.

Lemma ask_int_asked prompt low high w :
  asked (accepted_int low high) (stdin w)
        (fst (ask_int prompt low high w))
        (stdin (snd (ask_int prompt low high w))).
Proof. apply ask_int_loop_asked. apply PeanoNat.Nat.lt_succ_diag_r. Qed.

Lemma ask_float_asked prompt low high w :
  asked (accepted_float low high) (stdin w)
        (fst (ask_float prompt low high w))
        (stdin (snd (ask_float prompt low high w))).
Proof. apply ask_float_loop_asked. apply PeanoNat.Nat.lt_succ_diag_r. Qed.

Lemma keeps_run {A X} (proj : world -> X) (c : M A) w r w' :
  keeps proj c -> c w = (r, w') -> proj w' = proj w.
Proof. intros H E. specialize (H w). rewrite E in H. exact H. Qed.

Lemma keeps_heap_ask_int_loop prompt low high rounds :
  keeps heap (ask_int_loop rounds prompt low high).
Proof.
  induction rounds as [| rounds IH]; simpl; [apply keeps_raise |].
  apply keeps_bind; [apply keeps_heap_input | intros line].
  destruct (strip line); [frame_steps |].
  destruct (py_int _); [| frame_steps].
  destruct (below _ _ _); [frame_steps |].
  destruct (above _ _ _); frame_steps.
Qed.

Lemma keeps_heap_ask_float_loop prompt low high rounds :
  keeps heap (ask_float_loop rounds prompt low high).
Proof.
  induction rounds as [| rounds IH]; simpl; [apply keeps_raise |].
  apply keeps_bind; [apply keeps_heap_input | intros line].
  destruct (strip line); [frame_steps |].
  destruct (py_float _); [| frame_steps].
  destruct (below _ _ _); [frame_steps |].
  destruct (above _ _ _); frame_steps.
Qed.

Lemma keeps_heap_ask_int prompt low high :
  keeps heap (ask_int prompt low high).
Proof. intro w. apply keeps_heap_ask_int_loop. Qed.

Lemma keeps_heap_ask_float prompt low high :
  keeps heap (ask_float prompt low high).
Proof. intro w. apply keeps_heap_ask_float_loop. Qed.

#[local] Hint Resolve keeps_heap_ask_int keeps_heap_ask_float : frame.

(** ** Device collection *)

(** The daily energy of a device as its own fields give it. *)
Definition kwh_from_fields (d : device) : float :=
  (watts d * hours d * of_int (qty d) / 1000)%float.

Definition collected_ok (h : list device) (r : ref) : Prop :=
  exists d, nth_error h r = Some d /\ kwh_day d = kwh_from_fields d.

Lemma collected_ok_grows h d r :
  collected_ok h r -> collected_ok (h ++ [d]) r.
Proof.
  intros (x & Hx & Hk). exists x. split; [| exact Hk].
  rewrite nth_error_app1; [exact Hx |].
  apply nth_error_Some. rewrite Hx. discriminate.
Qed.

Lemma float_of_intM_ok z q w w' :
  float_of_intM z w = (Ok q, w') -> q = of_int z /\ w' = w.
Proof.
  unfold float_of_intM. destruct (isfinite (of_int z)); intros [= <- <-].
  split; reflexivity.
Qed.

Lemma alloc_ok d r w w' :
  alloc d w = (Ok r, w') ->
  r = List.length (heap w) /\ heap w' = heap w ++ [d].
Proof. intros [= <- <-]. split; reflexivity. Qed.

Lemma collect_loop_kwh count :
  forall i devices w refs w',
    collect_loop count i devices w = (Ok refs, w') ->
    (forall r, In r devices -> collected_ok (heap w) r) ->
    forall r, In r refs -> collected_ok (heap w') r.
Proof.
  induction count as [| count IH]; intros i devices w refs w' Hrun Hdev.
  - injection Hrun as <- <-. exact Hdev.
  - simpl in Hrun.
    apply bind_ok in Hrun as (line & w1 & H1 & Hrun).
    apply bind_ok in Hrun as (wt & w2 & H2 & Hrun).
    apply bind_ok in Hrun as (hr & w3 & H3 & Hrun).
    apply bind_ok in Hrun as (q & w4 & H4 & Hrun).
    apply bind_ok in Hrun as (qf & w5 & H5 & Hrun).
    apply bind_ok in Hrun as (d & w6 & H6 & Hrun).
    apply (keeps_run heap) in H1; [| apply keeps_heap_input].
    apply (keeps_run heap) in H2; [| apply keeps_heap_ask_float].
    apply (keeps_run heap) in H3; [| apply keeps_heap_ask_float].
    apply (keeps_run heap) in H4; [| apply keeps_heap_ask_int].
    apply float_of_intM_ok in H5 as [-> ->].
    apply alloc_ok in H6 as [-> H6].
    assert (Hh : heap w4 = heap w) by congruence.
    rewrite Hh in H6.
    apply (IH _ _ _ _ _ Hrun). intros r Hin.
    apply in_app_or in Hin as [Hin | [<- | []]].
    + rewrite H6. apply collected_ok_grows, Hdev, Hin.
    + rewrite H6, Hh. eexists. split.
      * rewrite nth_error_app2, PeanoNat.Nat.sub_diag; [reflexivity | lia].
      * reflexivity.
Qed.

Lemma collect_loop_length count :
  forall i devices w refs w',
    collect_loop count i devices w = (Ok refs, w') ->
    List.length refs = (List.length devices + count)%nat.
Proof.
  induction count as [| count IH]; intros i devices w refs w' Hrun.
  - injection Hrun as <- <-. lia.
  - simpl in Hrun.
    apply bind_ok in Hrun as (line & w1 & H1 & Hrun).
    apply bind_ok in Hrun as (wt & w2 & H2 & Hrun).
    apply bind_ok in Hrun as (hr & w3 & H3 & Hrun).
    apply bind_ok in Hrun as (q & w4 & H4 & Hrun).
    apply bind_ok in Hrun as (qf & w5 & H5 & Hrun).
    apply bind_ok in Hrun as (d & w6 & H6 & Hrun).
    apply IH in Hrun. rewrite Hrun, length_app. simpl. lia.
Qed.

(** The derived field agrees with the fields stored beside it. *)
Lemma collect_devices_fields_agree n w refs w' :
  collect_devices n w = (Ok refs, w') ->
  forall r, In r refs ->
    exists d, nth_error (heap w') r = Some d /\
              kwh_day d = (watts d * hours d * of_int (qty d) / 1000)%float.
Proof.
  intros Hrun. unfold collect_devices in Hrun.
  apply bind_ok in Hrun as ([] & w1 & _ & Hrun).
  apply (collect_loop_kwh _ _ _ _ _ _ Hrun). intros r [].
Qed.

Lemma ask_int_range prompt low high w v w' :
  ask_int prompt low high w = (Ok v, w') ->
  (forall l, low = Some l -> l <= v) /\ (forall h, high = Some h -> v <= h).
Proof.
  intros Hrun. pose proof (ask_int_asked prompt low high w) as H.
  rewrite Hrun in H. simpl in H. inversion H as [? ? ? ? _ _ Ha |].
  destruct Ha as (_ & _ & Hl & Hh). split; assumption.
Qed.

Lemma ask_float_range prompt low high w v w' :
  ask_float prompt low high w = (Ok v, w') ->
  (forall l, low = Some l -> float_lt_int v l = false) /\
  (forall h, high = Some h -> float_gt_int v h = false).
Proof.
  intros Hrun. pose proof (ask_float_asked prompt low high w) as H.
  rewrite Hrun in H. simpl in H. inversion H as [? ? ? ? _ _ Ha |].
  destruct Ha as (_ & _ & Hl & Hh). split; assumption.
Qed.

(** On a float that is not NaN the two tests of [ask_float] are the
    closed interval. *)
Lemma not_lt_is_ge v z :
  isnan v = false -> float_lt_int v z = false -> int_le_float z v = true.
Proof.
  unfold isnan, float_lt_int, int_le_float, float_cmp_int.
  destruct (Prim2SF v) as [s | s | | s m e]; try discriminate; intros _.
  - destruct (0 ?= z); [reflexivity | discriminate | reflexivity].
  - destruct s; [discriminate | reflexivity].
  - destruct (if 0 <=? e then _ else _);
      [reflexivity | discriminate | reflexivity].
Qed.

Lemma not_gt_is_le v z :
  isnan v = false -> float_gt_int v z = false -> float_le_int v z = true.
Proof.
  unfold isnan, float_gt_int, float_le_int, float_cmp_int.
  destruct (Prim2SF v) as [s | s | | s m e]; try discriminate; intros _.
  - destruct (0 ?= z); [reflexivity | reflexivity | discriminate].
  - destruct s; [reflexivity | discriminate].
  - destruct (if 0 <=? e then _ else _);
      [reflexivity | reflexivity | discriminate].
Qed.

(** C5, as the code has it: each validator returns the value of the
    first line of input it accepts and retries on every line before it;
    [ask_int] accepts exactly the integer literals inside the closed
    interval of its bounds, [ask_float] the float literals that are not
    below the lower and not above the upper bound, which for every value
    but NaN is the closed interval; the one exception that leaves them
    is [EOFError], when the input ends before an accepted line. *)
Theorem validators_accept_closed_interval prompt low high w :
  asked (accepted_int low high) (stdin w)
        (fst (ask_int prompt low high w))
        (stdin (snd (ask_int prompt low high w))) /\
  asked (accepted_float low high) (stdin w)
        (fst (ask_float prompt low high w))
        (stdin (snd (ask_float prompt low high w))) /\
  (forall v w', ask_int prompt low high w = (Ok v, w') ->
     (forall l, low = Some l -> l <= v) /\
     (forall h, high = Some h -> v <= h)) /\
  (forall v w', ask_float prompt low high w = (Ok v, w') ->
     isnan v = false ->
     (forall l, low = Some l -> int_le_float l v = true) /\
     (forall h, high = Some h -> float_le_int v h = true)) /\
  (forall e w', ask_int prompt low high w = (Raise e, w') -> e = EOFError) /\
  (forall e w', ask_float prompt low high w = (Raise e, w') -> e = EOFError).
Proof.
  split; [apply ask_int_asked |].
  split; [apply ask_float_asked |].
  split; [intros v w'; apply ask_int_range |].
  split.
  { intros v w' Hrun Hnan.
    destruct (ask_float_range _ _ _ _ _ _ Hrun) as [Hl Hh].
    split; intros b Hb.
    - apply not_lt_is_ge; [exact Hnan | apply Hl, Hb].
    - apply not_gt_is_le; [exact Hnan | apply Hh, Hb]. }
  split; intros e w' Hrun.
  - pose proof (ask_int_asked prompt low high w) as H.
    rewrite Hrun in H. inversion H. reflexivity.
  - pose proof (ask_float_asked prompt low high w) as H.
    rewrite Hrun in H. inversion H. reflexivity.
Qed.

(** ** The report is never made of no device *)

Lemma collect_devices_length n w refs w' :
  collect_devices n w = (Ok refs, w') -> List.length refs = Z.to_nat n.
Proof.
  intros Hrun. unfold collect_devices in Hrun.
  apply bind_ok in Hrun as ([] & w1 & _ & Hrun).
  apply collect_loop_length in Hrun. exact Hrun.
Qed.

Lemma bind_fst_ok {A B} (c : M A) (k : A -> M B) w b :
  fst (bind c k w) = Ok b ->
  exists a w1, c w = (Ok a, w1) /\ fst (k a w1) = Ok b.
Proof.
  unfold bind. destruct (c w) as [[a | e] w1]; intros H.
  - exists a, w1. split; [reflexivity | exact H].
  - discriminate H.
Qed.

Lemma summary_and_report_empty days tariff w :
  summary_and_report [] days tariff w = (Raise ValueError, w).
Proof. reflexivity. Qed.

(** C9: the device count comes from a validator with lower bound 1, so
    [collect_devices] returns as many devices as asked for, at least
    one, and [main] never takes its early return; and
    [summary_and_report] called on an empty list raises [ValueError]
    with nothing printed and no file written. *)
Theorem report_never_without_devices w :
  (forall n refs w', collect_devices n w = (Ok refs, w') ->
     List.length refs = Z.to_nat n) /\
  fst (main w) <> Ok NoDevices /\
  (forall days tariff,
     summary_and_report [] days tariff w = (Raise ValueError, w)).
Proof.
  split; [intros n refs w'; apply collect_devices_length |].
  split; [| intros; apply summary_and_report_empty].
  intros H. unfold main in H.
  apply bind_fst_ok in H as ([] & w1 & _ & H).
  apply bind_fst_ok in H as (days & w2 & _ & H).
  apply bind_fst_ok in H as (tariff & w3 & _ & H).
  apply bind_fst_ok in H as (n & w4 & Hn & H).
  apply bind_fst_ok in H as (devices & w5 & Hd & H).
  apply ask_int_range in Hn as [Hn _]. specialize (Hn 1 eq_refl).
  apply collect_devices_length in Hd.
  destruct devices as [| d devices]; [simpl in Hd; lia |].
  apply bind_fst_ok in H as ([] & w6 & _ & H). discriminate H.
Qed.

(** ** The report stage reads the devices and writes none *)

Lemma keeps_heap_kwh_of r : keeps heap (kwh_of r).
Proof. unfold kwh_of. frame_steps. Qed.

#[local] Hint Resolve keeps_heap_kwh_of : frame.

Lemma keeps_heap_compute_metrics devices days tariff :
  keeps heap (compute_metrics devices days tariff).
Proof.
  unfold compute_metrics.
  apply keeps_bind; [frame_steps | intros ks].
  apply keeps_bind; [| intros month].
  { unfold mul_int. destruct (py_sum float_sum ks); frame_steps. }
  apply keeps_bind; [| intros bill].
  { unfold mul_float. destruct month; frame_steps. }
  frame_steps.
Qed.

Lemma keeps_heap_print_row r : keeps heap (print_row r).
Proof. unfold print_row. frame_steps. Qed.

Lemma keeps_heap_file_row r : keeps heap (file_row r).
Proof. unfold file_row. frame_steps. Qed.

#[local] Hint Resolve keeps_heap_print_row keeps_heap_file_row : frame.

Lemma keeps_heap_print_table devices : keeps heap (print_table devices).
Proof. unfold print_table. frame_steps. Qed.

Lemma keeps_heap_print_summary m days tariff :
  keeps heap (print_summary m days tariff).
Proof. unfold print_summary. frame_steps. Qed.

Lemma keeps_heap_print_tips m devices tariff :
  keeps heap (print_tips m devices tariff).
Proof.
  unfold print_tips. frame_steps.
  apply keeps_py_any. intros r. frame_steps.
Qed.

Lemma keeps_heap_write_report m devices days tariff :
  keeps heap (write_report m devices days tariff).
Proof. unfold write_report. frame_steps. Qed.

#[local] Hint Resolve keeps_heap_compute_metrics keeps_heap_print_table
  keeps_heap_print_summary keeps_heap_print_tips keeps_heap_write_report
  : frame.

Lemma keeps_heap_summary_and_report devices days tariff :
  keeps heap (summary_and_report devices days tariff).
Proof. unfold summary_and_report. frame_steps. Qed.

(** C7: [summary_and_report] leaves every device dictionary as it found
    it: after the call, whatever its outcome, the heap holds the same
    records, so every field ([name], [watts], [hours], [qty],
    [kwh_day]) of every device is unchanged. *)
Theorem summary_and_report_keeps_devices devices days tariff w :
  heap (snd (summary_and_report devices days tariff w)) = heap w /\
  forall r,
    nth_error (heap (snd (summary_and_report devices days tariff w))) r =
    nth_error (heap w) r.
Proof.
  pose proof (keeps_heap_summary_and_report devices days tariff w) as H.
  split; [exact H | intros r; rewrite H; reflexivity].
Qed.

(** ** The order of floats *)

(** An integer that orders the binary64 values other than NaN as [<]
    does: the mantissa counted from the smallest exponent, signed. *)
Definition rank (x : spec_float) : Z :=
  match x with
  | S754_zero _ => 0
  | S754_infinity s => cond_Zopp s 9223372036854775808
  | S754_nan => 0
  | S754_finite s m e =>
      cond_Zopp s ((e + 1074) * 4503599627370496 + Zpos m)
  end.

Lemma digits2_pos_bounds m :
  2 ^ (Zpos (digits2_pos m) - 1) <= Zpos m < 2 ^ Zpos (digits2_pos m).
Proof.
  induction m as [m IH | m IH |]; simpl digits2_pos.
  - rewrite Pos2Z.inj_succ.
    replace (Z.succ (Zpos (digits2_pos m)) - 1) with
      (Z.succ (Zpos (digits2_pos m) - 1)) by lia.
    rewrite !Z.pow_succ_r by lia. lia.
  - rewrite Pos2Z.inj_succ.
    replace (Z.succ (Zpos (digits2_pos m)) - 1) with
      (Z.succ (Zpos (digits2_pos m) - 1)) by lia.
    rewrite !Z.pow_succ_r by lia. lia.
  - simpl. lia.
Qed.

Lemma bounded_range m e :
  bounded prec emax m e = true ->
  -1074 <= e <= 971 /\ Zpos m < 9007199254740992 /\
  (-1074 < e -> 4503599627370496 <= Zpos m).
Proof.
  unfold bounded, canonical_mantissa, fexp, emin, prec, emax.
  intros H. apply andb_true_iff in H as [Hc He].
  apply Z.eqb_eq in Hc. apply Z.leb_le in He.
  pose proof (digits2_pos_bounds m) as [Hlo Hhi].
  set (d := Zpos (digits2_pos m)) in *.
  assert (Hd : 0 < d) by (unfold d; lia).
  destruct (Z.max_spec (d + e - 53) (3 - 1024 - 53)) as [[Hlt Hm] | [Hge Hm]];
    rewrite Hm in Hc.
  - (* subnormal: e = emin and fewer than 53 digits *)
    assert (Hd53 : d <= 53) by lia.
    assert (Hp : 2 ^ d <= 2 ^ 53) by (apply Z.pow_le_mono_r; lia).
    change (2 ^ 53) with 9007199254740992 in Hp.
    split; [lia |]. split; [lia |]. intros Hcontra. lia.
  - assert (Hd53 : d = 53) by lia.
    rewrite Hd53 in Hlo, Hhi.
    change (2 ^ (53 - 1)) with 4503599627370496 in Hlo.
    change (2 ^ 53) with 9007199254740992 in Hhi.
    split; [lia |]. split; [lia |]. intros _. exact Hlo.
Qed.

Definition ordered (x : spec_float) : Prop :=
  valid_binary x = true /\ x <> S754_nan.

Lemma compare_cont_Eq m1 m2 :
  Pos.compare_cont Eq m1 m2 = (Zpos m1 ?= Zpos m2).
Proof. reflexivity. Qed.

(** Settles [c = (a ?= b)] for a known [c] by linear arithmetic. *)
Ltac settle_compare :=
  symmetry;
  first [ apply Z.compare_eq_iff; lia
        | apply Z.compare_lt_iff; lia
        | apply Z.compare_gt_iff; lia ].

Lemma SFcompare_rank x y :
  ordered x -> ordered y -> SFcompare x y = Some (rank x ?= rank y).
Proof.
  intros [Vx Nx] [Vy Ny].
  destruct x as [sx | sx | | sx mx ex]; [| | contradiction |];
    destruct y as [sy | sy | | sy my ey]; try contradiction;
    unfold SpecFloat.valid_binary in Vx, Vy;
    try apply bounded_range in Vx as (Hex & Hmx & Hnx);
    try apply bounded_range in Vy as (Hey & Hmy & Hny);
    unfold SFcompare, rank, cond_Zopp.
  all: try solve [ destruct sx; destruct sy; try reflexivity;
                   f_equal; settle_compare ].
  rewrite compare_cont_Eq.
  destruct sx, sy; f_equal; try settle_compare.
  - destruct (Z.compare_spec ex ey) as [He | He | He];
      [subst ey | settle_compare ..].
    destruct (Z.compare_spec (Zpos mx) (Zpos my)) as [Hm | Hm | Hm];
      simpl; settle_compare.
  - destruct (Z.compare_spec ex ey) as [He | He | He];
      [subst ey | settle_compare ..].
    destruct (Z.compare_spec (Zpos mx) (Zpos my)) as [Hm | Hm | Hm];
      settle_compare.
Qed.

Definition frank (x : float) : Z := rank (Prim2SF x).

Lemma ordered_Prim2SF x : isnan x = false -> ordered (Prim2SF x).
Proof.
  unfold isnan. intros H. split; [apply Prim2SF_valid |].
  intros E. rewrite E in H. discriminate H.
Qed.

Lemma ltb_frank x y :
  isnan x = false -> isnan y = false ->
  (x <? y)%float = (frank x <? frank y).
Proof.
  intros Hx Hy. rewrite ltb_spec. unfold SFltb.
  rewrite SFcompare_rank by (apply ordered_Prim2SF; assumption).
  reflexivity.
Qed.

Lemma leb_frank x y :
  isnan x = false -> isnan y = false ->
  (x <=? y)%float = (frank x <=? frank y).
Proof.
  intros Hx Hy. rewrite leb_spec. unfold SFleb.
  rewrite SFcompare_rank by (apply ordered_Prim2SF; assumption).
  unfold Z.leb, frank.
  destruct (rank (Prim2SF x) ?= rank (Prim2SF y)); reflexivity.
Qed.

(** ** Totals and the top consumer *)

(** The dictionary a reference points to. *)
Definition points_to (w : world) (r : ref) (d : device) : Prop :=
  nth_error (heap w) r = Some d.

(** The scan of [max] over devices paired with their references. *)
Fixpoint max_scan (best : ref * device) (rest : list (ref * device))
    : ref * device :=
  match rest with
  | [] => best
  | x :: rest' =>
      if (kwh_day (snd best) <? kwh_day (snd x))%float
      then max_scan x rest'
      else max_scan best rest'
  end.

Lemma deref_run w r d : points_to w r d -> deref r w = (Ok d, w).
Proof. unfold points_to, deref. intros ->. reflexivity. Qed.

Lemma kwh_of_run w r d : points_to w r d -> kwh_of r w = (Ok (kwh_day d), w).
Proof. intros H. unfold kwh_of, bind. rewrite (deref_run _ _ _ H). reflexivity. Qed.

Lemma mapM_kwh_of_run w devices ds :
  Forall2 (points_to w) devices ds ->
  mapM kwh_of devices w = (Ok (map kwh_day ds), w).
Proof.
  induction 1 as [| r d devices ds Hr _ IH]; [reflexivity |].
  simpl. unfold bind at 1. rewrite (kwh_of_run _ _ _ Hr).
  unfold bind at 1. rewrite IH. reflexivity.
Qed.

Lemma max_loop_run w rest rest_ds :
  Forall2 (points_to w) rest rest_ds ->
  forall best best_d,
    points_to w best best_d ->
    max_loop kwh_of best (kwh_day best_d) rest w =
    (Ok (fst (max_scan (best, best_d) (combine rest rest_ds))), w) /\
    points_to w (fst (max_scan (best, best_d) (combine rest rest_ds)))
              (snd (max_scan (best, best_d) (combine rest rest_ds))).
Proof.
  induction 1 as [| r d rest rest_ds Hr _ IH]; intros best best_d Hb.
  - split; [reflexivity | exact Hb].
  - simpl. unfold bind at 1. rewrite (kwh_of_run _ _ _ Hr).
    destruct (kwh_day best_d <? kwh_day d)%float; apply IH; assumption.
Qed.

Lemma compute_metrics_run w r d devices ds days tariff :
  Forall2 (points_to w) (r :: devices) (d :: ds) ->
  isfinite (of_int days) = true ->
  let total := float_sum (map kwh_day (d :: ds)) in
  let best := max_scan (r, d) (combine devices ds) in
  compute_metrics (r :: devices) days tariff w =
  (Ok (mkMetrics total (total * of_int days)
                 (total * of_int days * tariff) (fst best)), w) /\
  points_to w (fst best) (snd best).
Proof.
  intros Hall Hdays total best.
  pose proof (mapM_kwh_of_run _ _ _ Hall) as Hks.
  inversion Hall as [| ? ? ? ? Hr Hrest]; subst.
  destruct (max_loop_run _ _ _ Hrest _ _ Hr) as [Hmax Htop].
  split; [| exact Htop].
  unfold compute_metrics, bind at 1. rewrite Hks.
  cbn [map py_sum mul_int]. unfold bind at 1, bind at 1, float_of_intM.
  rewrite Hdays. cbn [ret mul_float]. unfold bind at 1. cbn [ret].
  unfold bind at 1. cbn [py_max]. unfold bind at 1.
  rewrite (kwh_of_run _ _ _ Hr), Hmax. reflexivity.
Qed.

(** C2: for a non-empty device list the report's daily total is the sum
    of the devices' [kwh_day], in input order, as the builtin [sum] of
    the interpreter computes it ([float_sum]: whichever summation the
    interpreter has, see [Sum]); the cycle total is the daily total
    times the billing days, and the bill is the cycle total times the
    tariff. *)
Theorem report_totals w devices ds days tariff :
  devices <> [] ->
  Forall2 (points_to w) devices ds ->
  isfinite (of_int days) = true ->
  exists m,
    compute_metrics devices days tariff w = (Ok m, w) /\
    total_kwh_day m = float_sum (map kwh_day ds) /\
    total_kwh_month m = (total_kwh_day m * of_int days)%float /\
    est_bill m = (total_kwh_month m * tariff)%float.
Proof.
  intros Hne Hall Hdays.
  destruct Hall as [| r d devices ds Hr Hrest]; [contradiction |].
  destruct (compute_metrics_run w r d devices ds days tariff) as [Hrun _];
    [constructor; assumption | exact Hdays |].
  eexists. split; [exact Hrun |]. repeat split; reflexivity.
Qed.

Definition kwh_nonnan (x : ref * device) : Prop :=
  isnan (kwh_day (snd x)) = false.

(** [x] uses strictly less, or at most as much, as [t]. *)
Definition uses_less (t x : ref * device) : Prop :=
  (kwh_day (snd x) <? kwh_day (snd t))%float = true.

Definition uses_at_most (t x : ref * device) : Prop :=
  (kwh_day (snd x) <=? kwh_day (snd t))%float = true.

Lemma uses_less_trans a b c :
  kwh_nonnan a -> kwh_nonnan b -> kwh_nonnan c ->
  uses_less b a -> uses_less c b -> uses_less c a.
Proof.
  unfold kwh_nonnan, uses_less. intros Ha Hb Hc.
  rewrite !ltb_frank by assumption. rewrite !Z.ltb_lt. lia.
Qed.

Lemma uses_at_most_less a b c :
  kwh_nonnan a -> kwh_nonnan b -> kwh_nonnan c ->
  uses_at_most b a -> uses_less c b -> uses_less c a.
Proof.
  unfold kwh_nonnan, uses_less, uses_at_most. intros Ha Hb Hc.
  rewrite leb_frank, !ltb_frank by assumption.
  rewrite Z.leb_le, !Z.ltb_lt. lia.
Qed.

Lemma not_less_at_most b x :
  kwh_nonnan b -> kwh_nonnan x ->
  (kwh_day (snd b) <? kwh_day (snd x))%float = false -> uses_at_most b x.
Proof.
  unfold kwh_nonnan, uses_at_most. intros Hb Hx.
  rewrite leb_frank, ltb_frank by assumption.
  rewrite Z.leb_le, Z.ltb_ge. lia.
Qed.

Lemma uses_less_at_most t x :
  kwh_nonnan t -> kwh_nonnan x -> uses_less t x -> uses_at_most t x.
Proof.
  unfold kwh_nonnan, uses_less, uses_at_most. intros Ht Hx.
  rewrite leb_frank, ltb_frank by assumption.
  rewrite Z.leb_le, Z.ltb_lt. lia.
Qed.

Lemma uses_at_most_refl t : kwh_nonnan t -> uses_at_most t t.
Proof.
  unfold kwh_nonnan, uses_at_most. intros Ht.
  rewrite leb_frank by assumption. apply Z.leb_refl.
Qed.

(** The scan keeps the first of the items that no other item exceeds. *)
Lemma max_scan_first rest :
  forall pre best mid,
    Forall kwh_nonnan (pre ++ best :: mid ++ rest) ->
    Forall (uses_less best) pre ->
    Forall (uses_at_most best) mid ->
    exists pre' post',
      pre ++ best :: mid ++ rest = pre' ++ max_scan best rest :: post' /\
      Forall (uses_less (max_scan best rest)) pre' /\
      Forall (uses_at_most (max_scan best rest)) post'.
Proof.
  induction rest as [| x rest IH]; intros pre best mid Hnn Hpre Hmid.
  - exists pre, mid. rewrite app_nil_r. repeat split; assumption.
  - simpl.
    apply Forall_app in Hnn as Hsplit. destruct Hsplit as [Hnpre Hn1].
    apply Forall_cons_iff in Hn1 as [Hnb Hn2].
    apply Forall_app in Hn2 as [Hnmid Hn3].
    apply Forall_cons_iff in Hn3 as [Hnx Hnrest].
    destruct (kwh_day (snd best) <? kwh_day (snd x))%float eqn:Ecmp.
    + (* x exceeds the best so far: everything before it is below it *)
      destruct (IH (pre ++ best :: mid) x []) as (pre' & post' & E & H1 & H2).
      * rewrite <- app_assoc. simpl. exact Hnn.
      * apply Forall_app. split; [| constructor].
        { apply Forall_forall. intros p Hp.
          apply (uses_less_trans p best x); try assumption.
          - apply (proj1 (Forall_forall _ _) Hnpre p Hp).
          - apply (proj1 (Forall_forall _ _) Hpre p Hp). }
        { exact Ecmp. }
        { apply Forall_forall. intros p Hp.
          apply (uses_at_most_less p best x); try assumption.
          - apply (proj1 (Forall_forall _ _) Hnmid p Hp).
          - apply (proj1 (Forall_forall _ _) Hmid p Hp). }
      * constructor.
      * exists pre', post'. split; [| split; assumption].
        rewrite <- E, <- app_assoc. reflexivity.
    + destruct (IH pre best (mid ++ [x])) as (pre' & post' & E & H1 & H2).
      * rewrite <- app_assoc. simpl. exact Hnn.
      * exact Hpre.
      * apply Forall_app. split; [exact Hmid |]. constructor; [| constructor].
        apply not_less_at_most; assumption.
      * exists pre', post'. split; [| split; assumption].
        rewrite <- E, <- app_assoc. reflexivity.
Qed.

(** C3, as the code has it: for a non-empty device list whose daily
    figures are numbers (none is NaN), the top device is the first device in input order
    whose [kwh_day] is the maximum over the list: every device before
    it has a strictly smaller [kwh_day], and no device has a greater
    one. *)
Theorem top_is_first_maximum w devices ds days tariff :
  devices <> [] ->
  Forall2 (points_to w) devices ds ->
  isfinite (of_int days) = true ->
  Forall (fun d => isnan (kwh_day d) = false) ds ->
  exists m t before after,
    compute_metrics devices days tariff w = (Ok m, w) /\
    points_to w (top m) t /\
    combine devices ds = before ++ (top m, t) :: after /\
    Forall (fun x => (kwh_day (snd x) <? kwh_day t)%float = true) before /\
    Forall (fun d => (kwh_day d <=? kwh_day t)%float = true) ds.
Proof.
  intros Hne Hall Hdays Hnn.
  destruct Hall as [| r d devices ds Hr Hrest]; [contradiction |].
  destruct (compute_metrics_run w r d devices ds days tariff) as [Hrun Htop];
    [constructor; assumption | exact Hdays |].
  assert (Hlen : List.length devices = List.length ds)
    by (eapply Forall2_length; eassumption).
  assert (Hitems : Forall kwh_nonnan (combine (r :: devices) (d :: ds))).
  { apply Forall_forall. intros [r' d'] Hin. unfold kwh_nonnan. simpl.
    apply in_combine_r in Hin.
    apply (proj1 (Forall_forall _ _) Hnn d' Hin). }
  destruct (max_scan_first (combine devices ds) [] (r, d) [])
    as (before & after & E & Hbefore & Hafter);
    [exact Hitems | constructor | constructor |].
  set (best := max_scan (r, d) (combine devices ds)) in *.
  exists (mkMetrics (float_sum (map kwh_day (d :: ds)))
                    (float_sum (map kwh_day (d :: ds)) * of_int days)
                    (float_sum (map kwh_day (d :: ds)) * of_int days * tariff)
                    (fst best)),
         (snd best), before, after.
  split; [exact Hrun |]. split; [exact Htop |].
  simpl top. rewrite <- surjective_pairing.
  split; [exact E |]. split; [exact Hbefore |].
  (* every device is at most the top one *)
  assert (Hbest : kwh_nonnan best).
  { simpl in E, Hitems. rewrite E in Hitems.
    apply Forall_app in Hitems as [_ Hb].
    apply Forall_cons_iff in Hb as [Hb _]. exact Hb. }
  assert (Hev : Forall (uses_at_most best) (combine (r :: devices) (d :: ds))).
  { simpl in E, Hitems. simpl combine. rewrite E. rewrite E in Hitems.
    apply Forall_app in Hitems as [Hn1 Hn2].
    apply Forall_cons_iff in Hn2 as [_ Hn2].
    apply Forall_app. split.
    - apply Forall_forall. intros p Hp. apply uses_less_at_most.
      + exact Hbest.
      + apply (proj1 (Forall_forall _ _) Hn1 p Hp).
      + apply (proj1 (Forall_forall _ _) Hbefore p Hp).
    - constructor; [apply uses_at_most_refl; exact Hbest | exact Hafter]. }
  apply Forall_forall. intros x Hx.
  assert (Hl : List.length (r :: devices) = List.length (d :: ds))
    by (simpl; congruence).
  destruct (In_nth_error _ _ Hx) as [i Hi].
  destruct (nth_error (r :: devices) i) as [ri |] eqn:Er.
  - assert (Hin : In (ri, x) (combine (r :: devices) (d :: ds))).
    { apply (nth_error_In _ i). clear - Er Hi.
      revert i Er Hi. generalize (r :: devices) (d :: ds).
      induction l as [| a l IH]; intros [| b l0] [| i] Er Hi;
        try discriminate; simpl in *.
      - injection Er as ->. injection Hi as ->. reflexivity.
      - apply IH; assumption. }
    apply (proj1 (Forall_forall _ _) Hev (ri, x) Hin).
  - apply nth_error_None in Er.
    assert (i < List.length (d :: ds))%nat
      by (apply nth_error_Some; rewrite Hi; discriminate).
    lia.
Qed.

(** ** What a run of the report stage writes *)

(** The world after some more chunks went to the console. *)
Definition out (w : world) (chunks : list str) : world :=
  mkWorld (stdin w) (stdout w ++ chunks) (heap w) (report_file w) (clock w).

(** The chunk one [print] writes. *)
Definition line (args : list str) : str := join [32%N] args ++ [nl].

(** A device as the report stage meets it: the dictionary and the int its
    [watts] truncate to. *)
Definition row_of (w : world) (r : ref) (row : device * Z) : Prop :=
  points_to w r (fst row) /\ int_of_float (watts (fst row)) = IntOk (snd row).

Definition table_lines (rows : list (device * Z)) : list str :=
  [line []; line [BOLD ++ lit "Per-Device Daily Usage" ++ RST]; line [rule];
   line [pad h1 w1; bar; pad h2 w2; bar; pad h3 w3; bar; pad h4 w4; bar;
         pad h5 w5];
   line [rule]]
  ++ map (fun row => line (row_cells (fst row) (snd row))) rows
  ++ [line [rule]].

Definition summary_lines (m : metrics) (t : device) (days : Z)
    (tariff : float) : list str :=
  [line [];
   line [GRN ++ BOLD ++ lit "Summary" ++ RST];
   line [lit "  Total daily consumption      : "
         ++ format_f false 3 (total_kwh_day m) ++ lit " kWh"];
   line [lit "  Billing cycle consumption    : "
         ++ format_f false 3 (total_kwh_month m) ++ lit " kWh (days="
         ++ str_of_int days ++ lit ")"];
   line [lit "  Estimated bill @ ₹" ++ format_f false 2 tariff
         ++ lit "/kWh : " ++ YEL ++ lit "₹"
         ++ format_f true 2 (est_bill m) ++ RST];
   line [lit "  Highest daily consumer       : " ++ name t ++ lit " ("
         ++ format_f false 3 (kwh_day t) ++ lit " kWh/day)"];
   line []].

(** The line of a tip rule: one line when its condition holds, nothing
    otherwise. *)
Definition tip_line (condition : bool) (text : str) : list str :=
  if condition then [line [text]] else [].

Definition tips_lines (m : metrics) (t : device) (ds : list device)
    (tariff : float) : list str :=
  [line [lit "Tips:"]]
  ++ tip_line (float_gt_int (total_kwh_day m) 15) tip1
  ++ tip_line (float_gt_int (hours t) 8 && float_gt_int (watts t) 200)
              (tip2 (name t))
  ++ tip_line (float_gt_int tariff 9) tip3
  ++ tip_line (existsb low_watt_long_running ds) tip4.

Definition report_lines (m : metrics) (t : device)
    (rows : list (device * Z)) (days : Z) (tariff : float) (stamp : str)
    : list str :=
  [lit "Energy Analyzer Report";
   lit "Generated: " ++ stamp;
   [];
   lit "Billing days: " ++ str_of_int days;
   lit "Tariff (₹/kWh): " ++ repr_float tariff;
   [];
   lit "Per-Device Daily Usage:";
   ljust h1 20 ++ lit " " ++ rjust h2 7 ++ lit " " ++ rjust h3 7
     ++ lit " " ++ rjust h4 5 ++ lit " " ++ rjust h5 10]
  ++ map (fun row => file_row_text (fst row) (snd row)) rows
  ++ [[];
      lit "Total daily kWh: " ++ format_f false 3 (total_kwh_day m);
      lit "Monthly kWh   : " ++ format_f false 3 (total_kwh_month m);
      lit "Est. bill (₹) : " ++ format_f false 2 (est_bill m);
      lit "Top device    : " ++ name t ++ lit " ("
        ++ format_f false 3 (kwh_day t) ++ lit " kWh/day)"].

Definition saved_line : str :=
  line [nl :: lit "Report saved to: energy_report.txt"].

Lemma print_run args w : print args w = (Ok tt, out w [line args]).
Proof. reflexivity. Qed.

Lemma out_out w a b : out (out w a) b = out w (a ++ b).
Proof. unfold out. simpl. rewrite <- app_assoc. reflexivity. Qed.

Lemma out_nil w : out w [] = w.
Proof. destruct w. unfold out. simpl. rewrite app_nil_r. reflexivity. Qed.

Lemma bind_step {A B} (c : M A) (k : A -> M B) w a w1 :
  c w = (Ok a, w1) -> bind c k w = k a w1.
Proof. intros H. unfold bind. rewrite H. reflexivity. Qed.

Lemma int_of_floatM_run x z w :
  int_of_float x = IntOk z -> int_of_floatM x w = (Ok z, w).
Proof. unfold int_of_floatM. intros ->. reflexivity. Qed.

(** Runs the step a sequence starts with, in whatever world it meets. *)
Ltac run_print := rewrite (bind_step _ _ _ _ _ (print_run _ _)).

Ltac run_deref H :=
  match goal with
  | |- bind (deref ?r) _ ?W = _ =>
      rewrite (bind_step _ _ W _ _ (deref_run W r _ H))
  end.

Lemma print_row_run w r row :
  row_of w r row ->
  print_row r w = (Ok tt, out w [line (row_cells (fst row) (snd row))]).
Proof.
  intros [Hp Hi]. unfold print_row.
  rewrite (bind_step _ _ _ _ _ (deref_run _ _ _ Hp)).
  rewrite (bind_step _ _ _ _ _ (int_of_floatM_run _ _ _ Hi)).
  apply print_run.
Qed.

Lemma print_rows_run devices :
  forall rows w,
    Forall2 (row_of w) devices rows ->
    forM_ devices print_row w =
    (Ok tt, out w (map (fun row => line (row_cells (fst row) (snd row)))
                       rows)).
Proof.
  induction devices as [| r devices IH]; intros rows w H;
    inversion H as [| ? row ? rows' Hrow Hrest]; subst.
  - simpl. rewrite out_nil. reflexivity.
  - simpl forM_. rewrite (bind_step _ _ _ _ _ (print_row_run _ _ _ Hrow)).
    rewrite (IH rows' (out w _)) by exact Hrest.
    rewrite out_out. reflexivity.
Qed.

Lemma print_table_run w devices rows :
  Forall2 (row_of w) devices rows ->
  print_table devices w = (Ok tt, out w (table_lines rows)).
Proof.
  intros H. unfold print_table.
  repeat (rewrite (bind_step _ _ _ _ _ (print_run _ _))).
  match goal with
  | |- bind _ _ ?W = _ =>
      rewrite (bind_step _ _ _ _ _ (print_rows_run devices rows W H))
  end.
  rewrite print_run. rewrite !out_out. reflexivity.
Qed.

Lemma print_summary_run w m t days tariff :
  points_to w (top m) t ->
  print_summary m days tariff w = (Ok tt, out w (summary_lines m t days tariff)).
Proof.
  intros Ht. unfold print_summary.
  repeat run_print. run_deref Ht. run_print.
  rewrite print_run. rewrite !out_out. reflexivity.
Qed.

Lemma when_print_run b text w :
  when b (print [text]) w = (Ok tt, out w (tip_line b text)).
Proof. destruct b; simpl; [apply print_run | rewrite out_nil; reflexivity]. Qed.

Lemma py_any_run w (p : device -> bool) devices ds :
  Forall2 (points_to w) devices ds ->
  py_any (fun r => d <- deref r ;; ret (p d)) devices w =
  (Ok (existsb p ds), w).
Proof.
  induction 1 as [| r d devices ds Hr _ IH]; [reflexivity |].
  simpl. unfold bind at 1.
  rewrite (bind_step _ _ _ _ _ (deref_run _ _ _ Hr)). cbn [ret].
  destruct (p d); [reflexivity | exact IH].
Qed.

Lemma print_tips_run w m t devices ds tariff :
  points_to w (top m) t ->
  Forall2 (points_to w) devices ds ->
  print_tips m devices tariff w = (Ok tt, out w (tips_lines m t ds tariff)).
Proof.
  intros Ht Hall. unfold print_tips.
  run_print.
  rewrite (bind_step _ _ _ _ _ (when_print_run _ _ _)).
  run_deref Ht.
  rewrite (bind_step _ _ _ _ _ (when_print_run _ _ _)).
  rewrite (bind_step _ _ _ _ _ (when_print_run _ _ _)).
  match goal with
  | |- bind _ _ ?W = _ =>
      rewrite (bind_step _ _ _ _ _
                 (py_any_run W low_watt_long_running devices ds Hall))
  end.
  rewrite when_print_run. rewrite !out_out. reflexivity.
Qed.

Lemma file_rows_run w devices rows :
  Forall2 (row_of w) devices rows ->
  mapM file_row devices w =
  (Ok (map (fun row => file_row_text (fst row) (snd row)) rows), w).
Proof.
  induction 1 as [| r row devices rows [Hp Hi] _ IH]; [reflexivity |].
  simpl. unfold file_row at 1.
  unfold bind at 1. rewrite (bind_step _ _ _ _ _ (deref_run _ _ _ Hp)).
  rewrite (bind_step _ _ _ _ _ (int_of_floatM_run _ _ _ Hi)). cbn [ret].
  unfold bind at 1. rewrite IH. reflexivity.
Qed.

Lemma write_report_run w m t devices rows days tariff :
  points_to w (top m) t ->
  Forall2 (row_of w) devices rows ->
  write_report m devices days tariff w =
  (Ok tt,
   mkWorld (stdin w) (stdout w ++ [saved_line]) (heap w)
           (Some (join [nl] (report_lines m t rows days tariff (clock w))))
           (clock w)).
Proof.
  intros Ht Hall. unfold write_report.
  unfold bind at 1. cbn [now_stamp].
  rewrite (bind_step _ _ _ _ _ (file_rows_run _ _ _ Hall)).
  run_deref Ht. reflexivity.
Qed.

Lemma rows_point_to w devices rows :
  Forall2 (row_of w) devices rows ->
  Forall2 (points_to w) devices (map fst rows).
Proof.
  induction 1 as [| r row devices rows [Hp _] _ IH]; constructor; assumption.
Qed.

(** The whole run: under the conditions that let the stage complete,
    what it prints and what it writes to the report file. *)
Lemma summary_and_report_run w r row devices rows days tariff :
  Forall2 (row_of w) (r :: devices) (row :: rows) ->
  isfinite (of_int days) = true ->
  let ds := map fst (row :: rows) in
  let best := max_scan (r, fst row) (combine devices (map fst rows)) in
  let total := float_sum (map kwh_day ds) in
  let m := mkMetrics total (total * of_int days)
                     (total * of_int days * tariff) (fst best) in
  summary_and_report (r :: devices) days tariff w =
  (Ok tt,
   mkWorld (stdin w)
           (stdout w ++ table_lines (row :: rows)
              ++ summary_lines m (snd best) days tariff
              ++ tips_lines m (snd best) ds tariff ++ [saved_line])
           (heap w)
           (Some (join [nl] (report_lines m (snd best) (row :: rows) days
                                          tariff (clock w))))
           (clock w)).
Proof.
  intros Hrows Hdays ds best total m.
  pose proof (rows_point_to _ _ _ Hrows) as Hall.
  destruct (compute_metrics_run w r (fst row) devices (map fst rows)
                                days tariff Hall Hdays) as [Hm Htop].
  fold best in Htop. unfold summary_and_report.
  rewrite (bind_step _ _ _ _ _ Hm). fold ds total best m.
  rewrite (bind_step _ _ _ _ _ (print_table_run _ _ _ Hrows)).
  match goal with
  | |- bind _ _ ?W = _ =>
      rewrite (bind_step _ _ _ _ _
                 (print_summary_run W m (snd best) days tariff Htop))
  end.
  match goal with
  | |- bind _ _ ?W = _ =>
      rewrite (bind_step _ _ _ _ _
                 (print_tips_run W m (snd best) _ ds tariff Htop Hall))
  end.
  match goal with
  | |- _ ?W = _ =>
      etransitivity;
      [exact (write_report_run W m (snd best) (r :: devices) (row :: rows)
                               days tariff Htop Hrows) |]
  end.
  cbn [out stdin stdout heap report_file clock].
  rewrite <- !app_assoc. reflexivity.
Qed.

(** Rule 4 looks at every device. *)
Lemma some_low_watt_long_running ds :
  existsb low_watt_long_running ds = true <->
  exists d, In d ds /\ float_lt_int (watts d) 80 = true /\
            float_gt_int (hours d) 10 = true.
Proof.
  rewrite existsb_exists. unfold low_watt_long_running.
  split; intros (d & Hd & H); exists d; (split; [exact Hd |]).
  - apply andb_true_iff in H. exact H.
  - apply andb_true_iff. exact H.
Qed.

(** C4, as the code has it: in every complete run (the watts of every
    device have an integer part), the console shows the "Tips:" heading
    followed by the lines of the four rules in their fixed order, each
    rule contributing exactly one line when its own condition holds and
    nothing otherwise: (1) daily total above 15, (2) top device running
    more than 8 hours at more than 200 watts, (3) tariff above 9,
    (4) some device under 80 watts running more than 10 hours, once
    however many devices qualify. The line of a rule depends on its own
    condition only. *)
Theorem tips_rules_are_independent w devices rows days tariff :
  devices <> [] ->
  Forall2 (row_of w) devices rows ->
  isfinite (of_int days) = true ->
  exists m t before (rule4 : bool),
    compute_metrics devices days tariff w = (Ok m, w) /\
    total_kwh_day m = float_sum (map kwh_day (map fst rows)) /\
    points_to w (top m) t /\
    fst (summary_and_report devices days tariff w) = Ok tt /\
    (rule4 = true <->
     exists d, In d (map fst rows) /\ float_lt_int (watts d) 80 = true /\
               float_gt_int (hours d) 10 = true) /\
    stdout (snd (summary_and_report devices days tariff w)) =
      stdout w ++ before
      ++ [line [lit "Tips:"]]
      ++ (if float_gt_int (total_kwh_day m) 15
          then [line [lit "  • Consider staggering heavy loads to reduce peak usage."]]
          else [])
      ++ (if float_gt_int (hours t) 8 && float_gt_int (watts t) 200
          then [line [lit "  • Try reducing " ++ name t
                      ++ lit " hours or enable energy-saver settings."]]
          else [])
      ++ (if float_gt_int tariff 9
          then [line [lit "  • Tariff is relatively high—small savings on daily kWh translate to meaningful ₹ reductions."]]
          else [])
      ++ (if rule4
          then [line [lit "  • Long-running low-watt devices add up—audit always-on equipment."]]
          else [])
      ++ [saved_line].
Proof.
  intros Hne Hrows Hdays.
  destruct Hrows as [| r row devices rows Hrow Hrest]; [contradiction |].
  assert (Hall : Forall2 (row_of w) (r :: devices) (row :: rows))
    by (constructor; assumption).
  pose proof (summary_and_report_run w r row devices rows days tariff
                                     Hall Hdays) as Hrun.
  destruct (compute_metrics_run w r (fst row) devices (map fst rows) days
              tariff (rows_point_to _ _ _ Hall) Hdays) as [Hm Htop].
  cbv zeta in Hrun, Hm, Htop.
  eexists. eexists. eexists (table_lines (row :: rows) ++ summary_lines _ _ _ _).
  exists (existsb low_watt_long_running (map fst (row :: rows))).
  split; [exact Hm |]. split; [reflexivity |]. split; [exact Htop |].
  rewrite Hrun. split; [reflexivity |].
  split; [apply some_low_watt_long_running |].
  cbn [snd stdout]. unfold tips_lines, tip_line.
  rewrite <- !app_assoc. reflexivity.
Qed.

(** ** Widths *)

Lemma len_app a b : len (a ++ b) = len a + len b.
Proof. unfold len. rewrite length_app. lia. Qed.

Lemma len_spaces n : 0 <= n -> len (spaces n) = n.
Proof. intros H. unfold len, spaces. rewrite repeat_length. lia. Qed.

(** A text that fits its column is padded, not cut. *)
Lemma pad_fits t width :
  len t <= width -> pad t width = t ++ spaces (width - len t).
Proof.
  intros H. unfold pad, ljust.
  destruct (len t >? width) eqn:E; [| reflexivity].
  rewrite Z.gtb_ltb in E. apply Z.ltb_lt in E. lia.
Qed.

(** A text too long for its column is cut to one character less than
    the width and closed by an ellipsis. *)
Lemma pad_cuts t width :
  1 <= width < len t ->
  pad t width = firstn (Z.to_nat (width - 1)) t ++ [8230%N].
Proof.
  intros H. unfold pad, slice_to.
  destruct (len t >? width) eqn:E.
  - destruct (width - 1 <? 0) eqn:E1; [apply Z.ltb_lt in E1; lia |].
    reflexivity.
  - rewrite Z.gtb_ltb in E. apply Z.ltb_ge in E. lia.
Qed.

(** Every cell is exactly as wide as its column. *)
Lemma pad_width t width : 1 <= width -> len (pad t width) = width.
Proof.
  intros H. destruct (Z_le_gt_dec (len t) width) as [Hfit | Hlong].
  - rewrite pad_fits by exact Hfit. rewrite len_app, len_spaces; lia.
  - rewrite pad_cuts by lia. rewrite len_app. unfold len at 1.
    rewrite length_firstn. unfold len in *. simpl List.length. lia.
Qed.

Lemma len_rule : len rule = 57.
Proof. reflexivity. Qed.

Lemma len_row a b c d e :
  len (join [32%N] [pad a w1; bar; pad b w2; bar; pad c w3; bar; pad d w4;
                    bar; pad e w5]) = 61.
Proof.
  cbn [join]. rewrite !len_app.
  rewrite !pad_width by (unfold w1, w2, w3, w4, w5; lia).
  reflexivity.
Qed.

(** C10, on the code: the rule lines are 57 characters wide
    ([total_width] counts 8 for the separators), the header and every
    data row 61: five cells of 49 characters in all, four bars and the
    eight spaces [print] puts between its nine arguments. *)
Theorem rule_lines_are_narrower_than_rows d wi :
  len rule = 57 /\
  len (join [32%N] (row_cells d wi)) = 61 /\
  len (join [32%N] [pad h1 w1; bar; pad h2 w2; bar; pad h3 w3; bar;
                    pad h4 w4; bar; pad h5 w5]) = 61 /\
  forall w r,
    points_to w r d -> int_of_float (watts d) = IntOk wi ->
    print_table [r] w =
    (Ok tt, out w ([line []; line [BOLD ++ lit "Per-Device Daily Usage" ++ RST];
                    line [rule];
                    line [pad h1 w1; bar; pad h2 w2; bar; pad h3 w3; bar;
                          pad h4 w4; bar; pad h5 w5];
                    line [rule];
                    line (row_cells d wi);
                    line [rule]])).
Proof.
  split; [apply len_rule |].
  split; [apply len_row |].
  split; [apply len_row |].
  intros w r Hp Hi.
  apply (print_table_run w [r] [(d, wi)]).
  constructor; [split; assumption | constructor].
Qed.

(** ** Rendering of numbers *)

Lemma digit_is_digit d : 0 <= d < 10 -> Literal.is_digit (digit d) = true.
Proof.
  intros H.
  assert (C : d = 0 \/ d = 1 \/ d = 2 \/ d = 3 \/ d = 4 \/ d = 5 \/ d = 6 \/
              d = 7 \/ d = 8 \/ d = 9) by lia.
  repeat (destruct C as [-> | C]; [reflexivity |]). subst d. reflexivity.
Qed.

Lemma low_digits_length p : forall n, List.length (low_digits p n) = p.
Proof.
  induction p as [| p IH]; intros n; simpl; [reflexivity |].
  rewrite length_app, IH. simpl. lia.
Qed.

Lemma low_digits_digits p :
  forall n, Forall (fun c => Literal.is_digit c = true) (low_digits p n).
Proof.
  induction p as [| p IH]; intros n; simpl; [constructor |].
  apply Forall_app. split; [apply IH |].
  constructor; [| constructor].
  apply digit_is_digit. apply Z.mod_pos_bound. lia.
Qed.

Lemma digits_upto_digits fuel :
  forall n, 0 <= n ->
    Forall (fun c => Literal.is_digit c = true) (digits_upto fuel n).
Proof.
  induction fuel as [| fuel IH]; intros n Hn; simpl; [constructor |].
  destruct (n <? 10) eqn:E.
  - apply Z.ltb_lt in E. constructor; [| constructor].
    apply digit_is_digit. lia.
  - apply Forall_app. split.
    + apply IH. apply Z.div_pos; lia.
    + constructor; [| constructor].
      apply digit_is_digit. apply Z.mod_pos_bound. lia.
Qed.

Lemma digits_value_app ds c :
  Literal.digits_value (ds ++ [c]) =
  Literal.digits_value ds * 10 + (Z.of_N c - 48).
Proof. unfold Literal.digits_value. rewrite fold_left_app. reflexivity. Qed.

Lemma digit_value d : 0 <= d -> Z.of_N (digit d) - 48 = d.
Proof. intros H. unfold digit. rewrite Z2N.id by lia. lia. Qed.

(** The digits written for a number are its decimal digits: read back,
    they give the number. *)
Lemma digits_upto_value fuel :
  forall n, 0 <= n < 2 ^ Z.of_nat fuel ->
    Literal.digits_value (digits_upto fuel n) = n.
Proof.
  induction fuel as [| fuel IH]; intros n Hn.
  - simpl in *. assert (n = 0) by lia. subst n. reflexivity.
  - rewrite Nat2Z.inj_succ, Z.pow_succ_r in Hn by lia.
    simpl. destruct (n <? 10) eqn:E.
    + unfold Literal.digits_value. simpl. rewrite digit_value; lia.
    + apply Z.ltb_ge in E. rewrite digits_value_app.
      rewrite IH, digit_value.
      * pose proof (Z.div_mod n 10). lia.
      * apply Z.mod_pos_bound. lia.
      * split; [apply Z.div_pos; lia |].
        apply Z.div_lt_upper_bound; lia.
Qed.

Lemma str_of_nonneg_value n :
  0 <= n -> Literal.digits_value (str_of_nonneg n) = n.
Proof.
  intros Hn. unfold str_of_nonneg. apply digits_upto_value.
  split; [exact Hn |].
  rewrite Nat2Z.inj_succ, Z2Nat.id by apply Z.log2_nonneg.
  destruct (Z.eq_dec n 0) as [-> | Hz]; [reflexivity |].
  apply Z.log2_spec. lia.
Qed.

(** [z] is [x] with its fraction dropped: between zero and [x], and
    less than one away from [x]. *)
Definition truncation (x : float) (z : Z) : Prop :=
  match float_cmp_int x 0 with
  | Some Lt => float_le_int x z = true /\ float_gt_int x (z - 1) = true
  | Some _ => int_le_float z x = true /\ float_lt_int x (z + 1) = true
  | None => False
  end.

Lemma IntOk_inj a b : IntOk a = IntOk b -> a = b.
Proof. intros H. injection H as ->. reflexivity. Qed.

(** Decides every comparison of the goal and closes the cases that the
    hypotheses rule out. *)
Ltac settle_comparisons :=
  repeat match goal with
         | |- context [Z.compare ?a ?b] => destruct (Z.compare_spec a b)
         end;
  first [ split; reflexivity | exfalso; nia ].

Lemma int_of_float_truncates x z :
  int_of_float x = IntOk z -> truncation x z.
Proof.
  unfold int_of_float, truncation, float_le_int, float_gt_int, int_le_float,
    float_lt_int, float_cmp_int.
  destruct (Prim2SF x) as [s | s | | s m e]; try discriminate; intros H;
    apply IntOk_inj in H; subst z.
  - split; reflexivity.
  - destruct (0 <=? e) eqn:Ee.
    + (* an integer already *)
      apply Z.leb_le in Ee.
      assert (Hp : 0 < 2 ^ e) by (apply Z.pow_pos_nonneg; lia).
      set (b := 2 ^ e) in *.
      destruct s; unfold cond_Zopp; settle_comparisons.
    + apply Z.leb_gt in Ee.
      assert (Hp : 0 < 2 ^ (- e)) by (apply Z.pow_pos_nonneg; lia).
      set (b := 2 ^ (- e)) in *.
      pose proof (Z.div_mod (Zpos m) b ltac:(lia)) as Hdm.
      pose proof (Z.mod_pos_bound (Zpos m) b Hp) as Hr.
      set (q := Zpos m / b) in *. set (r := Zpos m mod b) in *.
      destruct s; unfold cond_Zopp; settle_comparisons.
Qed.

(** A finite float printed with [.{p}f], [p > 0], ends in a decimal
    point and exactly [p] digits. *)
Lemma format_f_places grouped p x :
  isfinite x = true ->
  exists whole fraction,
    format_f grouped (S p) x = whole ++ [46%N] ++ fraction /\
    List.length fraction = S p /\
    Forall (fun c => Literal.is_digit c = true) fraction.
Proof.
  unfold isfinite, format_f.
  destruct (Prim2SF x) as [s | s | | s m e]; try discriminate; intros _.
  - eexists (minus_sign s ++ _), (low_digits (S p) 0).
    unfold fixed, fraction. rewrite <- app_assoc.
    split; [reflexivity |].
    split; [apply low_digits_length | apply low_digits_digits].
  - eexists (minus_sign s ++ _), (low_digits (S p) (scaled (S p) m e)).
    unfold fixed, fraction. rewrite <- app_assoc.
    split; [reflexivity |].
    split; [apply low_digits_length | apply low_digits_digits].
Qed.

(** A text without its thousands separators. *)
Definition drop_commas (t : str) : str :=
  filter (fun c => negb (c =? 44)%N) t.

Lemma drop_commas_app a b :
  drop_commas (a ++ b) = drop_commas a ++ drop_commas b.
Proof. apply filter_app. Qed.

Lemma drop_commas_digits ds :
  Forall (fun c => Literal.is_digit c = true) ds -> drop_commas ds = ds.
Proof.
  induction 1 as [| c ds Hc _ IH]; [reflexivity |].
  simpl. rewrite IH.
  destruct (c =? 44)%N eqn:E; [| reflexivity].
  apply N.eqb_eq in E. subst c. discriminate Hc.
Qed.

Lemma drop_commas_rev t : drop_commas (rev t) = rev (drop_commas t).
Proof.
  induction t as [| c t IH]; [reflexivity |].
  simpl rev. rewrite drop_commas_app, IH. simpl.
  destruct (negb (c =? 44)%N); simpl; [reflexivity |].
  rewrite app_nil_r. reflexivity.
Qed.

Lemma drop_commas_group3_rev n :
  forall ds, (List.length ds <= n)%nat ->
    drop_commas (group3_rev ds) = drop_commas ds.
Proof.
  induction n as [| n IH]; intros ds Hlen.
  - destruct ds; [reflexivity | simpl in Hlen; lia].
  - destruct ds as [| a [| b [| c [| d rest]]]]; try reflexivity.
    change (group3_rev (a :: b :: c :: d :: rest))
      with ([a; b; c] ++ 44%N :: group3_rev (d :: rest)).
    rewrite drop_commas_app.
    change (drop_commas (44%N :: group3_rev (d :: rest)))
      with (drop_commas (group3_rev (d :: rest))).
    rewrite IH by (simpl in *; lia).
    rewrite <- drop_commas_app. reflexivity.
Qed.

Lemma drop_commas_group3 ds :
  Forall (fun c => Literal.is_digit c = true) ds ->
  drop_commas (group3 ds) = ds.
Proof.
  intros H. unfold group3.
  rewrite drop_commas_rev, (drop_commas_group3_rev (List.length (rev ds)))
    by reflexivity.
  rewrite drop_commas_rev, rev_involutive. apply drop_commas_digits, H.
Qed.

Lemma scaled_nonneg p m e : 0 <= scaled p m e.
Proof.
  unfold scaled, div_half_even.
  assert (Hn : 0 <= Zpos m * 10 ^ Z.of_nat p)
    by (apply Z.mul_nonneg_nonneg; [lia | apply Z.pow_nonneg; lia]).
  destruct (0 <=? e) eqn:Ee.
  - apply Z.mul_nonneg_nonneg; [exact Hn | apply Z.pow_nonneg; lia].
  - apply Z.leb_gt in Ee.
    assert (Hb : 0 < 2 ^ (- e)) by (apply Z.pow_pos_nonneg; lia).
    pose proof (Z.div_pos _ _ Hn Hb) as Hq.
    destruct (2 * _ ?= _); [destruct (Z.even _) | |]; lia.
Qed.

Lemma drop_commas_fixed p n :
  0 <= n -> drop_commas (fixed true p n) = fixed false p n.
Proof.
  intros Hn. unfold fixed. rewrite drop_commas_app. f_equal.
  - apply drop_commas_group3. apply digits_upto_digits.
    apply Z.div_pos; [exact Hn | apply Z.pow_pos_nonneg; lia].
  - destruct p as [| p]; [reflexivity |]. unfold fraction.
    change (drop_commas (46%N :: low_digits (S p) n))
      with (46%N :: drop_commas (low_digits (S p) n)).
    rewrite drop_commas_digits by apply low_digits_digits. reflexivity.
Qed.

(** The grouped rendering of a float is the plain one with commas put
    between the thousands: the digits and their rounding are the same. *)
Lemma drop_commas_format_f p x :
  drop_commas (format_f true p x) = format_f false p x.
Proof.
  unfold format_f. destruct (Prim2SF x) as [s | s | | s m e].
  - rewrite drop_commas_app, drop_commas_fixed by lia.
    destruct s; reflexivity.
  - destruct s; reflexivity.
  - reflexivity.
  - rewrite drop_commas_app, drop_commas_fixed by apply scaled_nonneg.
    destruct s; reflexivity.
Qed.

(** ** Rows and figures on the two surfaces *)

(** C8, as the code has it: the console cell of a row is [pad] of a
    text and the field of the report file is the same text right
    aligned, where the text of the watts is the int the float truncates
    to (toward zero, not rounded), that of the hours has exactly one
    decimal and that of the daily kWh exactly three. A text that fits
    its column (7, 7 and 10 characters) is shown whole on both; a longer
    one is whole in the file and, on the console, cut to one character
    less than the column and closed by an ellipsis. *)
Theorem rows_render_truncated_watts w r d wi :
  points_to w r d ->
  int_of_float (watts d) = IntOk wi ->
  truncation (watts d) wi /\
  print_row r w =
    (Ok tt, out w [line [pad (name d) 20; bar; pad (str_of_int wi) 7; bar;
                         pad (format_f false 1 (hours d)) 7; bar;
                         pad (str_of_int (qty d)) 5; bar;
                         pad (format_f false 3 (kwh_day d)) 10]]) /\
  file_row r w =
    (Ok (ljust (name d) 20 ++ lit " " ++ rjust (str_of_int wi) 7 ++ lit " "
         ++ rjust (format_f false 1 (hours d)) 7 ++ lit " "
         ++ rjust (str_of_int (qty d)) 5 ++ lit " "
         ++ rjust (format_f false 3 (kwh_day d)) 10), w) /\
  (forall t width, len t <= width ->
     pad t width = t ++ spaces (width - len t) /\
     rjust t width = spaces (width - len t) ++ t) /\
  (forall t width, 1 <= width < len t ->
     pad t width = firstn (Z.to_nat (width - 1)) t ++ [8230%N]) /\
  str_of_int wi = minus_sign (wi <? 0) ++ str_of_nonneg (Z.abs wi) /\
  Literal.digits_value (str_of_nonneg (Z.abs wi)) = Z.abs wi /\
  Forall (fun c => Literal.is_digit c = true) (str_of_nonneg (Z.abs wi)) /\
  (isfinite (hours d) = true ->
   exists whole fraction,
     format_f false 1 (hours d) = whole ++ [46%N] ++ fraction /\
     List.length fraction = 1%nat /\
     Forall (fun c => Literal.is_digit c = true) fraction) /\
  (isfinite (kwh_day d) = true ->
   exists whole fraction,
     format_f false 3 (kwh_day d) = whole ++ [46%N] ++ fraction /\
     List.length fraction = 3%nat /\
     Forall (fun c => Literal.is_digit c = true) fraction).
Proof.
  intros Hp Hi.
  split; [apply int_of_float_truncates, Hi |].
  split; [apply (print_row_run w r (d, wi)); split; assumption |].
  split.
  { unfold file_row. run_deref Hp.
    rewrite (bind_step _ _ _ _ _ (int_of_floatM_run _ _ _ Hi)). reflexivity. }
  split; [intros t width Hfit; split; [apply pad_fits, Hfit | reflexivity] |].
  split; [apply pad_cuts |].
  split; [reflexivity |].
  split; [apply str_of_nonneg_value, Z.abs_nonneg |].
  split; [apply digits_upto_digits, Z.abs_nonneg |].
  split; apply format_f_places.
Qed.

(** C6, as the code has it: in every complete run the report file
    holds the daily total, the cycle total and the top device's daily
    kWh in the very text the console summary shows, the bill in the
    console's text without its thousands separators, and for each device
    a row whose watts, hours and daily kWh are the texts the console
    cells are padded from; a console cell shows its text whole when the
    text fits the column, and a longer text is cut on the console to
    one character less than the column and closed by an ellipsis while
    the file keeps it whole. *)
Theorem report_file_repeats_console_figures w devices rows days tariff :
  devices <> [] ->
  Forall2 (row_of w) devices rows ->
  isfinite (of_int days) = true ->
  exists m t file_lines,
    compute_metrics devices days tariff w = (Ok m, w) /\
    points_to w (top m) t /\
    fst (summary_and_report devices days tariff w) = Ok tt /\
    report_file (snd (summary_and_report devices days tariff w)) =
      Some (join [nl] file_lines) /\
    let console := stdout (snd (summary_and_report devices days tariff w)) in
    In (line [lit "  Total daily consumption      : "
              ++ format_f false 3 (total_kwh_day m) ++ lit " kWh"]) console /\
    In (lit "Total daily kWh: " ++ format_f false 3 (total_kwh_day m))
       file_lines /\
    In (line [lit "  Billing cycle consumption    : "
              ++ format_f false 3 (total_kwh_month m) ++ lit " kWh (days="
              ++ str_of_int days ++ lit ")"]) console /\
    In (lit "Monthly kWh   : " ++ format_f false 3 (total_kwh_month m))
       file_lines /\
    In (line [lit "  Estimated bill @ ₹" ++ format_f false 2 tariff
              ++ lit "/kWh : " ++ YEL ++ lit "₹"
              ++ format_f true 2 (est_bill m) ++ RST]) console /\
    In (lit "Est. bill (₹) : " ++ format_f false 2 (est_bill m)) file_lines /\
    drop_commas (format_f true 2 (est_bill m)) =
      format_f false 2 (est_bill m) /\
    In (line [lit "  Highest daily consumer       : " ++ name t ++ lit " ("
              ++ format_f false 3 (kwh_day t) ++ lit " kWh/day)"]) console /\
    In (lit "Top device    : " ++ name t ++ lit " ("
        ++ format_f false 3 (kwh_day t) ++ lit " kWh/day)") file_lines /\
    (forall d wi, In (d, wi) rows ->
       In (line [pad (name d) 20; bar; pad (str_of_int wi) 7; bar;
                 pad (format_f false 1 (hours d)) 7; bar;
                 pad (str_of_int (qty d)) 5; bar;
                 pad (format_f false 3 (kwh_day d)) 10]) console /\
       In (ljust (name d) 20 ++ lit " " ++ rjust (str_of_int wi) 7 ++ lit " "
           ++ rjust (format_f false 1 (hours d)) 7 ++ lit " "
           ++ rjust (str_of_int (qty d)) 5 ++ lit " "
           ++ rjust (format_f false 3 (kwh_day d)) 10) file_lines) /\
    (forall text width, len text <= width ->
       pad text width = text ++ spaces (width - len text) /\
       rjust text width = spaces (width - len text) ++ text) /\
    (forall text width, 1 <= width < len text ->
       pad text width = firstn (Z.to_nat (width - 1)) text ++ [8230%N] /\
       rjust text width = text /\ ljust text width = text).
Proof.
  intros Hne Hrows Hdays.
  destruct Hrows as [| r row devices rows Hrow Hrest]; [contradiction |].
  assert (Hall : Forall2 (row_of w) (r :: devices) (row :: rows))
    by (constructor; assumption).
  pose proof (summary_and_report_run w r row devices rows days tariff
                                     Hall Hdays) as Hrun.
  destruct (compute_metrics_run w r (fst row) devices (map fst rows) days
              tariff (rows_point_to _ _ _ Hall) Hdays) as [Hm Htop].
  cbv zeta in Hrun, Hm, Htop.
  set (best := max_scan (r, fst row) (combine devices (map fst rows))) in *.
  set (total := float_sum (map kwh_day (map fst (row :: rows)))) in *.
  change (float_sum (map kwh_day (fst row :: map fst rows)))
    with total in Hm.
  set (m := mkMetrics total (total * of_int days)
                      (total * of_int days * tariff) (fst best)) in *.
  exists m, (snd best),
    (report_lines m (snd best) (row :: rows) days tariff (clock w)).
  split; [exact Hm |]. split; [exact Htop |].
  rewrite Hrun. split; [reflexivity |]. split; [reflexivity |].
  cbv zeta. cbn [snd stdout].
  assert (Hsum : forall x before after,
             In x (summary_lines m (snd best) days tariff) ->
             In x (before ++ table_lines (row :: rows)
                     ++ summary_lines m (snd best) days tariff ++ after)).
  { intros x before after Hx.
    apply in_or_app. right. apply in_or_app. right.
    apply in_or_app. left. exact Hx. }
  assert (Htot : forall x head body,
             In x
               [[];
                lit "Total daily kWh: " ++ format_f false 3 (total_kwh_day m);
                lit "Monthly kWh   : "
                  ++ format_f false 3 (total_kwh_month m);
                lit "Est. bill (₹) : " ++ format_f false 2 (est_bill m);
                lit "Top device    : " ++ name (snd best) ++ lit " ("
                  ++ format_f false 3 (kwh_day (snd best))
                  ++ lit " kWh/day)"] ->
             In x (head ++ body
                     ++ [[];
                         lit "Total daily kWh: "
                           ++ format_f false 3 (total_kwh_day m);
                         lit "Monthly kWh   : "
                           ++ format_f false 3 (total_kwh_month m);
                         lit "Est. bill (₹) : "
                           ++ format_f false 2 (est_bill m);
                         lit "Top device    : " ++ name (snd best) ++ lit " ("
                           ++ format_f false 3 (kwh_day (snd best))
                           ++ lit " kWh/day)"])).
  { intros x head body Hx.
    apply in_or_app. right. apply in_or_app. right. exact Hx. }
  unfold report_lines.
  split; [apply Hsum; do 2 right; left; reflexivity |].
  split; [apply Htot; do 1 right; left; reflexivity |].
  split; [apply Hsum; do 3 right; left; reflexivity |].
  split; [apply Htot; do 2 right; left; reflexivity |].
  split; [apply Hsum; do 4 right; left; reflexivity |].
  split; [apply Htot; do 3 right; left; reflexivity |].
  split; [apply drop_commas_format_f |].
  split; [apply Hsum; do 5 right; left; reflexivity |].
  split; [apply Htot; do 4 right; left; reflexivity |].
  split.
  - intros d wi Hin. split.
    + apply in_or_app. right. apply in_or_app. left.
      unfold table_lines. apply in_or_app. right. apply in_or_app. left.
      apply (in_map (fun row => line (row_cells (fst row) (snd row)))
                    _ (d, wi) Hin).
    + apply in_or_app. right. apply in_or_app. left.
      apply (in_map (fun row => file_row_text (fst row) (snd row))
                    _ (d, wi) Hin).
  - split.
    + intros text width Hfit. split; [apply pad_fits, Hfit | reflexivity].
    + intros text width Hlong. split; [apply pad_cuts, Hlong |].
      unfold rjust, ljust, spaces.
      replace (Z.to_nat (width - len text)) with 0%nat by lia.
      split; [reflexivity | apply app_nil_r].
Qed.


(** * Further properties of the code *)

(** ** [pad] *)

(** X1: for a column of at least one character, [pad] returns a text of
    exactly the column's width, whatever the text, and padding a padded
    text again changes nothing. *)
Theorem pad_fills_its_column t width :
  1 <= width ->
  len (pad t width) = width /\ pad (pad t width) width = pad t width.
Proof.
  intros H. pose proof (pad_width t width H) as Hw.
  split; [exact Hw |].
  rewrite (pad_fits (pad t width) width) by lia.
  rewrite Hw, Z.sub_diag. apply app_nil_r.
Qed.

(** X2: a width below one is not honoured: whenever the text is longer
    than such a width, [pad] drops [1 - width] characters from the end of
    the text and appends the ellipsis, so the result is never empty and
    always wider than asked. *)
Theorem pad_overflows_a_width_below_one t width :
  width <= 0 ->
  width < len t ->
  pad t width = firstn (Z.to_nat (len t + width - 1)) t ++ [8230%N] /\
  len (pad t width) = Z.max 0 (len t + width - 1) + 1 /\
  width < len (pad t width).
Proof.
  intros Hw Hlong.
  assert (E : pad t width = firstn (Z.to_nat (len t + width - 1)) t
                            ++ [8230%N]).
  { unfold pad, slice_to.
    destruct (len t >? width) eqn:Egt.
    - destruct (width - 1 <? 0) eqn:Eneg.
      + replace (len t + (width - 1)) with (len t + width - 1) by lia.
        reflexivity.
      + apply Z.ltb_ge in Eneg. lia.
    - rewrite Z.gtb_ltb in Egt. apply Z.ltb_ge in Egt. lia. }
  assert (L : len (pad t width) = Z.max 0 (len t + width - 1) + 1).
  { rewrite E, len_app. unfold len at 1. rewrite length_firstn.
    unfold len in *. simpl List.length. lia. }
  split; [exact E |]. split; [exact L |]. lia.
Qed.


(** ** The validators at the console *)

(** Why a validator turns a line down, with the message it prints: the
    line is blank, is no number, or holds a number below the lower or
    above the upper bound (the lower bound is tested first). *)
Inductive turned_down {V} (parse : str -> option V) (lt gt : V -> Z -> bool)
    (no_number : str) (low high : option Z) : str -> str -> Prop :=
| turned_down_blank l :
    strip l = [] ->
    turned_down parse lt gt no_number low high l (lit "  enter a value")
| turned_down_no_number l :
    strip l <> [] -> parse (strip l) = None ->
    turned_down parse lt gt no_number low high l no_number
| turned_down_low l v b :
    strip l <> [] -> parse (strip l) = Some v ->
    low = Some b -> lt v b = true ->
    turned_down parse lt gt no_number low high l
                (lit "  must be ≥ " ++ str_of_int b)
| turned_down_high l v b :
    strip l <> [] -> parse (strip l) = Some v ->
    below lt low v = false ->
    high = Some b -> gt v b = true ->
    turned_down parse lt gt no_number low high l
                (lit "  must be ≤ " ++ str_of_int b).

(** What a validator writes: the prompt before every line it reads, one
    message after every line it turns down. *)
Definition transcript (prompt : str) (notes : list str) : list str :=
  flat_map (fun note => [prompt; line [note]]) notes ++ [prompt].

(** A conversation at a prompt: the lines turned down with their
    messages, what went to the console, and what is left of the input. *)
Definition conversation {V} (refusal : str -> str -> Prop) (prompt : str)
    (w : world) (r : result V * world) : Prop :=
  exists skipped notes,
    Forall2 refusal skipped notes /\
    stdout (snd r) = stdout w ++ transcript prompt notes /\
    match fst r with
    | Ok _ => exists accepted, stdin w = skipped ++ accepted :: stdin (snd r)
    | Raise _ => stdin w = skipped /\ stdin (snd r) = []
    end.

Lemma conversation_goes_on {V} (refusal : str -> str -> Prop) prompt
    l note ins outs hp file clk (r : result V * world) :
  refusal l note ->
  conversation refusal prompt
    (mkWorld ins ((outs ++ [prompt]) ++ [line [note]]) hp file clk) r ->
  conversation refusal prompt (mkWorld (l :: ins) outs hp file clk) r.
Proof.
  intros Hl (skipped & notes & Hall & Hout & Hin).
  exists (l :: skipped), (note :: notes).
  split; [constructor; assumption |]. split.
  - rewrite Hout. cbn [stdout]. unfold transcript. cbn [flat_map].
    rewrite <- !app_assoc. reflexivity.
  - cbn [stdin] in *. destruct (fst r).
    + destruct Hin as [accepted ->]. exists accepted. reflexivity.
    + destruct Hin as [-> ->]. split; reflexivity.
Qed.

Lemma ask_int_loop_conversation prompt low high :
  forall rounds w,
    (List.length (stdin w) < rounds)%nat ->
    conversation (turned_down py_int Z.ltb Z.gtb (lit "  integers only")
                              low high)
                 prompt w (ask_int_loop rounds prompt low high w).
Proof.
  induction rounds as [| rounds IH]; intros w Hlen; [inversion Hlen |].
  destruct w as [lines outs hp file clk]. simpl in Hlen.
  destruct lines as [| l rest].
  - exists [], []. split; [constructor |]. split; [reflexivity |].
    split; reflexivity.
  - simpl in Hlen. apply PeanoNat.lt_S_n in Hlen.
    cbn [ask_int_loop]. unfold bind at 1.
    cbn [input write print bind stdin stdout heap report_file clock fst snd].
    destruct (strip l) as [| c s] eqn:Es.
    + rewrite print_seq. eapply conversation_goes_on;
        [apply turned_down_blank; exact Es | apply IH; exact Hlen].
    + assert (Hne : strip l <> []) by (rewrite Es; discriminate).
      destruct (py_int (c :: s)) as [v |] eqn:Ep.
      * destruct (below Z.ltb low v) eqn:Elo.
        { destruct low as [b |]; [| discriminate Elo].
          rewrite print_seq. eapply conversation_goes_on;
            [| apply IH; exact Hlen].
          apply (turned_down_low _ _ _ _ _ _ l v b);
            [exact Hne | rewrite Es; exact Ep | reflexivity | exact Elo]. }
        destruct (above Z.gtb high v) eqn:Ehi.
        { destruct high as [b |]; [| discriminate Ehi].
          rewrite print_seq. eapply conversation_goes_on;
            [| apply IH; exact Hlen].
          apply (turned_down_high _ _ _ _ _ _ l v b);
            [exact Hne | rewrite Es; exact Ep | exact Elo | reflexivity
            | exact Ehi]. }
        exists [], []. split; [constructor |]. split; [reflexivity |].
        exists l. reflexivity.
      * rewrite print_seq. eapply conversation_goes_on;
          [| apply IH; exact Hlen].
        apply turned_down_no_number; [exact Hne | rewrite Es; exact Ep].
Qed.

Lemma ask_float_loop_conversation prompt low high :
  forall rounds w,
    (List.length (stdin w) < rounds)%nat ->
    conversation (turned_down py_float float_lt_int float_gt_int
                              (lit "  numbers only") low high)
                 prompt w (ask_float_loop rounds prompt low high w).
Proof.
  induction rounds as [| rounds IH]; intros w Hlen; [inversion Hlen |].
  destruct w as [lines outs hp file clk]. simpl in Hlen.
  destruct lines as [| l rest].
  - exists [], []. split; [constructor |]. split; [reflexivity |].
    split; reflexivity.
  - simpl in Hlen. apply PeanoNat.lt_S_n in Hlen.
    cbn [ask_float_loop]. unfold bind at 1.
    cbn [input write print bind stdin stdout heap report_file clock fst snd].
    destruct (strip l) as [| c s] eqn:Es.
    + rewrite print_seq. eapply conversation_goes_on;
        [apply turned_down_blank; exact Es | apply IH; exact Hlen].
    + assert (Hne : strip l <> []) by (rewrite Es; discriminate).
      destruct (py_float (c :: s)) as [v |] eqn:Ep.
      * destruct (below float_lt_int low v) eqn:Elo.
        { destruct low as [b |]; [| discriminate Elo].
          rewrite print_seq. eapply conversation_goes_on;
            [| apply IH; exact Hlen].
          apply (turned_down_low _ _ _ _ _ _ l v b);
            [exact Hne | rewrite Es; exact Ep | reflexivity | exact Elo]. }
        destruct (above float_gt_int high v) eqn:Ehi.
        { destruct high as [b |]; [| discriminate Ehi].
          rewrite print_seq. eapply conversation_goes_on;
            [| apply IH; exact Hlen].
          apply (turned_down_high _ _ _ _ _ _ l v b);
            [exact Hne | rewrite Es; exact Ep | exact Elo | reflexivity
            | exact Ehi]. }
        exists [], []. split; [constructor |]. split; [reflexivity |].
        exists l. reflexivity.
      * rewrite print_seq. eapply conversation_goes_on;
          [| apply IH; exact Hlen].
        apply turned_down_no_number; [exact Hne | rewrite Es; exact Ep].
Qed.

(** X3: a validator writes its prompt before every line it reads and,
    after every line it turns down, exactly one message that names the
    reason: "enter a value" for a blank line, "integers only" or
    "numbers only" for a text that is no number, "must be ≥ low" for a
    number below the lower bound and "must be ≤ high" for one above
    the upper bound; nothing else goes to the console, and the lines
    read are the first lines of the input, in order. *)
Theorem validators_explain_every_refusal prompt low high w :
  conversation (turned_down py_int Z.ltb Z.gtb (lit "  integers only")
                            low high)
               prompt w (ask_int prompt low high w) /\
  conversation (turned_down py_float float_lt_int float_gt_int
                            (lit "  numbers only") low high)
               prompt w (ask_float prompt low high w).
Proof.
  split.
  - apply ask_int_loop_conversation. apply PeanoNat.Nat.lt_succ_diag_r.
  - apply ask_float_loop_conversation. apply PeanoNat.Nat.lt_succ_diag_r.
Qed.


(** ** What the stages leave alone *)

(** A view of the world that ignores the console, the report file or
    the heap. *)
Definition blind_to_console {X} (view : world -> X) : Prop :=
  forall w ins outs,
    view (mkWorld ins outs (heap w) (report_file w) (clock w)) = view w.

Definition blind_to_file {X} (view : world -> X) : Prop :=
  forall w file,
    view (mkWorld (stdin w) (stdout w) (heap w) file (clock w)) = view w.

Definition blind_to_heap {X} (view : world -> X) : Prop :=
  forall w hp,
    view (mkWorld (stdin w) (stdout w) hp (report_file w) (clock w)) = view w.

Lemma world_eta w :
  mkWorld (stdin w) (stdout w) (heap w) (report_file w) (clock w) = w.
Proof. destruct w. reflexivity. Qed.

Lemma keeps_write {X} (view : world -> X) s :
  blind_to_console view -> keeps view (write s).
Proof. intros H w. apply (H w). Qed.

Lemma keeps_print {X} (view : world -> X) args :
  blind_to_console view -> keeps view (print args).
Proof. apply keeps_write. Qed.

Lemma keeps_input {X} (view : world -> X) prompt :
  blind_to_console view -> keeps view (input prompt).
Proof.
  intros H w. unfold input, bind, write.
  cbn [stdin stdout heap report_file clock].
  destruct (stdin w); cbn [snd]; apply (H w).
Qed.

Lemma keeps_deref {X} (view : world -> X) r : keeps view (deref r).
Proof. intro w. unfold deref. destruct (nth_error (heap w) r); reflexivity. Qed.

Lemma keeps_now {X} (view : world -> X) : keeps view now_stamp.
Proof. intro w. reflexivity. Qed.

Lemma keeps_alloc {X} (view : world -> X) d :
  blind_to_heap view -> keeps view (alloc d).
Proof. intros H w. apply (H w). Qed.

Lemma keeps_write_report_file {X} (view : world -> X) text :
  blind_to_file view -> keeps view (write_report_file text).
Proof. intros H w. apply (H w). Qed.

Lemma keeps_ask_int_loop {X} (view : world -> X) prompt low high rounds :
  blind_to_console view -> keeps view (ask_int_loop rounds prompt low high).
Proof.
  intros H. induction rounds as [| rounds IH]; simpl; [apply keeps_raise |].
  apply keeps_bind; [apply keeps_input, H | intros l].
  pose proof (fun args => keeps_print view args H) as Hp.
  destruct (strip l); [apply keeps_bind; auto |].
  destruct (py_int _); [| apply keeps_bind; auto].
  destruct (below _ _ _); [apply keeps_bind; auto |].
  destruct (above _ _ _); [apply keeps_bind; auto | apply keeps_ret].
Qed.

Lemma keeps_ask_float_loop {X} (view : world -> X) prompt low high rounds :
  blind_to_console view -> keeps view (ask_float_loop rounds prompt low high).
Proof.
  intros H. induction rounds as [| rounds IH]; simpl; [apply keeps_raise |].
  apply keeps_bind; [apply keeps_input, H | intros l].
  pose proof (fun args => keeps_print view args H) as Hp.
  destruct (strip l); [apply keeps_bind; auto |].
  destruct (py_float _); [| apply keeps_bind; auto].
  destruct (below _ _ _); [apply keeps_bind; auto |].
  destruct (above _ _ _); [apply keeps_bind; auto | apply keeps_ret].
Qed.

Lemma keeps_ask_int {X} (view : world -> X) prompt low high :
  blind_to_console view -> keeps view (ask_int prompt low high).
Proof. intros H w. apply keeps_ask_int_loop, H. Qed.

Lemma keeps_ask_float {X} (view : world -> X) prompt low high :
  blind_to_console view -> keeps view (ask_float prompt low high).
Proof. intros H w. apply keeps_ask_float_loop, H. Qed.

(** All of the world but the console. *)
Definition beyond_console (w : world) : list device * option str * str :=
  (heap w, report_file w, clock w).

Lemma beyond_console_blind : blind_to_console beyond_console.
Proof. intros w ins outs. reflexivity. Qed.

(** X4: the validators work at the console only: whatever is typed and
    however they end, the device dictionaries, the report file and the
    clock are as they were. *)
Theorem validators_touch_the_console_only prompt low high w :
  beyond_console (snd (ask_int prompt low high w)) = beyond_console w /\
  beyond_console (snd (ask_float prompt low high w)) = beyond_console w.
Proof.
  split.
  - apply keeps_ask_int, beyond_console_blind.
  - apply keeps_ask_float, beyond_console_blind.
Qed.

(** A float that is neither below [l] nor above a smaller [h] is no
    number. *)
Lemma between_crossed_bounds v l h :
  h < l -> float_lt_int v l = false -> float_gt_int v h = false ->
  isnan v = true.
Proof.
  unfold float_lt_int, float_gt_int, isnan, float_cmp_int.
  intros Hlh. destruct (Prim2SF v) as [s | s | | s m e]; try reflexivity.
  - destruct (Z.compare_spec 0 l), (Z.compare_spec 0 h);
      try discriminate; lia.
  - destruct s; discriminate.
  - destruct (0 <=? e) eqn:Ee.
    + destruct (Z.compare_spec (cond_Zopp s (Zpos m) * 2 ^ e) l),
               (Z.compare_spec (cond_Zopp s (Zpos m) * 2 ^ e) h);
        try discriminate; lia.
    + apply Z.leb_gt in Ee.
      assert (Hp : 0 < 2 ^ (- e)) by (apply Z.pow_pos_nonneg; lia).
      destruct (Z.compare_spec (cond_Zopp s (Zpos m)) (l * 2 ^ (- e))),
               (Z.compare_spec (cond_Zopp s (Zpos m)) (h * 2 ^ (- e)));
        try discriminate; nia.
Qed.

(** X5: with a lower bound above the upper bound no number is in range:
    [ask_int] reads the whole input, turns every line down and ends in
    [EOFError]; [ask_float] can only ever return NaN, which passes both
    of its tests. *)
Theorem crossed_bounds_accept_no_number prompt l h w :
  h < l ->
  fst (ask_int prompt (Some l) (Some h) w) = Raise EOFError /\
  stdin (snd (ask_int prompt (Some l) (Some h) w)) = [] /\
  forall v w', ask_float prompt (Some l) (Some h) w = (Ok v, w') ->
               isnan v = true.
Proof.
  intros Hlh.
  pose proof (ask_int_asked prompt (Some l) (Some h) w) as H.
  split; [| split].
  - inversion H as [skipped x rest v E1 E2 Ha E3 E4 | Hall E3 E4];
      [| reflexivity].
    destruct Ha as (_ & _ & Hl & Hh).
    specialize (Hl l eq_refl). specialize (Hh h eq_refl). lia.
  - inversion H as [skipped x rest v E1 E2 Ha E3 E4 | Hall E3 E4];
      [| reflexivity].
    destruct Ha as (_ & _ & Hl & Hh).
    specialize (Hl l eq_refl). specialize (Hh h eq_refl). lia.
  - intros v w' Hrun.
    destruct (ask_float_range _ _ _ _ _ _ Hrun) as [Hl Hh].
    apply (between_crossed_bounds v l h Hlh); [apply Hl | apply Hh];
      reflexivity.
Qed.


(** ** Stripped text *)

Lemma lstrip_split t :
  exists sp, t = sp ++ lstrip t /\ Forall (fun c => isspace c = true) sp.
Proof.
  induction t as [| c t (sp & E & Hsp)]; [exists []; split; [reflexivity | constructor] |].
  simpl. destruct (isspace c) eqn:Ec.
  - exists (c :: sp). split; [simpl; rewrite <- E; reflexivity |].
    constructor; assumption.
  - exists []. split; [reflexivity | constructor].
Qed.

Lemma lstrip_head t c r : lstrip t = c :: r -> isspace c = false.
Proof.
  induction t as [| x t IH]; simpl; [discriminate |].
  destruct (isspace x) eqn:Ex; [exact IH |].
  intros [= <- _]. exact Ex.
Qed.

Lemma lstrip_id t :
  (forall c r, t = c :: r -> isspace c = false) -> lstrip t = t.
Proof.
  destruct t as [| c r]; [reflexivity |]. intros H. simpl.
  rewrite (H c r eq_refl). reflexivity.
Qed.

(** Stripping a stripped text changes nothing. *)
Lemma strip_strip t : strip (strip t) = strip t.
Proof.
  unfold strip. set (u := lstrip t). set (v := lstrip (rev u)).
  assert (Hv : lstrip (rev v) = rev v).
  { apply lstrip_id. intros c r E.
    destruct (lstrip_split (rev u)) as (sp & Eu & _). fold v in Eu.
    apply (f_equal (@rev char)) in Eu.
    rewrite rev_involutive, rev_app_distr, E in Eu.
    apply (lstrip_head t c (r ++ rev sp)). fold u. rewrite Eu. reflexivity. }
  rewrite Hv, rev_involutive.
  rewrite (lstrip_id v); [reflexivity |].
  intros c r E. apply (lstrip_head (rev u) c r). exact E.
Qed.

Lemma strip_without_spaces t :
  Forall (fun c => isspace c = false) t -> strip t = t.
Proof.
  intros H. unfold strip.
  rewrite (lstrip_id t).
  - rewrite (lstrip_id (rev t)); [apply rev_involutive |].
    intros c r E. apply (proj1 (Forall_forall _ _) (Forall_rev H)).
    rewrite E. left. reflexivity.
  - intros c r ->. apply Forall_inv in H. exact H.
Qed.

Lemma digit_is_no_space c : Literal.is_digit c = true -> isspace c = false.
Proof.
  unfold Literal.is_digit. intros H. apply andb_true_iff in H as [Hlo Hhi].
  apply N.leb_le in Hlo. apply N.leb_le in Hhi.
  assert (C : (c = 48 \/ c = 49 \/ c = 50 \/ c = 51 \/ c = 52 \/ c = 53 \/
               c = 54 \/ c = 55 \/ c = 56 \/ c = 57)%N) by lia.
  repeat (destruct C as [-> | C]; [reflexivity |]). subst c. reflexivity.
Qed.

Lemma str_of_int_without_spaces z :
  Forall (fun c => isspace c = false) (str_of_int z).
Proof.
  unfold str_of_int. apply Forall_app. split.
  - destruct (z <? 0); repeat constructor.
  - eapply Forall_impl; [apply digit_is_no_space |].
    apply digits_upto_digits, Z.abs_nonneg.
Qed.

(** The name a device gets when none is typed: [f"Device{i}"]. *)
Definition default_name (i : Z) : str := lit "Device" ++ str_of_int i.

Lemma default_name_stripped i : strip (default_name i) = default_name i.
Proof.
  apply strip_without_spaces. unfold default_name.
  apply Forall_app. split; [| apply str_of_int_without_spaces].
  change (lit "Device") with [68; 101; 118; 105; 99; 101]%N.
  repeat constructor.
Qed.

Lemma default_name_not_blank i : default_name i <> [].
Proof.
  unfold default_name.
  change (lit "Device") with [68; 101; 118; 105; 99; 101]%N. discriminate.
Qed.


(** ** What [collect_devices] stores *)

Lemma bind_raised {A B} (c : M A) (k : A -> M B) w e w' :
  bind c k w = (Raise e, w') ->
  c w = (Raise e, w') \/
  exists a w1, c w = (Ok a, w1) /\ k a w1 = (Raise e, w').
Proof.
  unfold bind. destruct (c w) as [[a | e1] w1]; intros H.
  - right. exists a, w1. split; [reflexivity | exact H].
  - left. injection H as -> ->. reflexivity.
Qed.

Lemma input_ok prompt w l w1 :
  input prompt w = (Ok l, w1) ->
  stdin w = l :: stdin w1 /\ heap w1 = heap w.
Proof.
  unfold input, bind, write. cbn [stdin stdout heap report_file clock].
  destruct (stdin w) as [| x rest]; [discriminate |].
  intros [= <- <-]. split; reflexivity.
Qed.

Lemma input_raised prompt w e w1 :
  input prompt w = (Raise e, w1) -> e = EOFError /\ stdin w1 = [].
Proof.
  unfold input, bind, write. cbn [stdin stdout heap report_file clock].
  destruct (stdin w) as [| x rest] eqn:E; [| discriminate].
  intros [= <- <-]. split; reflexivity.
Qed.

Lemma asked_ok_reads {V} (accepted : str -> V -> Prop) lines v rest :
  asked accepted lines (Ok v) rest ->
  exists read, lines = read ++ rest /\ (1 <= List.length read)%nat.
Proof.
  intros H. inversion H as [skipped x r v0 E1 E2 Ha E3 E4 |]. subst.
  exists (skipped ++ [x]). rewrite <- app_assoc. split; [reflexivity |].
  rewrite length_app. simpl. lia.
Qed.

Lemma asked_raised {V} (accepted : str -> V -> Prop) lines e rest :
  asked accepted lines (Raise e) rest -> e = EOFError /\ rest = [].
Proof.
  intros H. inversion H as [| Hall E3 E4]. split; reflexivity.
Qed.

Lemma ask_int_reads prompt low high w v w' :
  ask_int prompt low high w = (Ok v, w') ->
  exists read, stdin w = read ++ stdin w' /\ (1 <= List.length read)%nat.
Proof.
  intros E. pose proof (ask_int_asked prompt low high w) as H.
  rewrite E in H. exact (asked_ok_reads _ _ _ _ H).
Qed.

Lemma ask_float_reads prompt low high w v w' :
  ask_float prompt low high w = (Ok v, w') ->
  exists read, stdin w = read ++ stdin w' /\ (1 <= List.length read)%nat.
Proof.
  intros E. pose proof (ask_float_asked prompt low high w) as H.
  rewrite E in H. exact (asked_ok_reads _ _ _ _ H).
Qed.

Lemma ask_int_raised prompt low high w e w' :
  ask_int prompt low high w = (Raise e, w') -> e = EOFError /\ stdin w' = [].
Proof.
  intros E. pose proof (ask_int_asked prompt low high w) as H.
  rewrite E in H. exact (asked_raised _ _ _ _ H).
Qed.

Lemma ask_float_raised prompt low high w e w' :
  ask_float prompt low high w = (Raise e, w') ->
  e = EOFError /\ stdin w' = [].
Proof.
  intros E. pose proof (ask_float_asked prompt low high w) as H.
  rewrite E in H. exact (asked_raised _ _ _ _ H).
Qed.

(** Every quantity the collection accepts converts to a float. *)
Lemma small_int_is_finite q : 1 <= q <= 1000 -> isfinite (of_int q) = true.
Proof.
  intros H.
  assert (A : forallb (fun k => isfinite (of_int (Z.of_nat k))) (seq 1 1000)
              = true) by (vm_compute; reflexivity).
  rewrite forallb_forall in A. specialize (A (Z.to_nat q)).
  rewrite Z2Nat.id in A by lia. apply A. apply in_seq. lia.
Qed.

(** What round [i] of the collection loop leaves in a dictionary, for
    the input lines [typed] still unread when the collection starts. *)
Definition entered (typed : list str) (i : Z) (d : device) : Prop :=
  (name d = default_name i \/
   exists l, In l typed /\ strip l <> [] /\ name d = strip l) /\
  float_lt_int (watts d) 1 = false /\
  float_lt_int (hours d) 0 = false /\
  float_gt_int (hours d) 24 = false /\
  1 <= qty d <= 1000.

Lemma entered_later typed typed' i d :
  (forall l, In l typed -> In l typed') ->
  entered typed i d -> entered typed' i d.
Proof.
  intros Hsub ([Hn | (l & Hl & Hne & Hn)] & Hrest).
  - split; [left; exact Hn | exact Hrest].
  - split; [right; exists l; auto | exact Hrest].
Qed.

Lemma collect_loop_rounds count :
  forall i devices w refs w',
    collect_loop count i devices w = (Ok refs, w') ->
    exists new read,
      heap w' = heap w ++ new /\ List.length new = count /\
      refs = devices ++ seq (List.length (heap w)) count /\
      stdin w = read ++ stdin w' /\ (4 * count <= List.length read)%nat /\
      forall k d, nth_error new k = Some d ->
                  entered (stdin w) (i + Z.of_nat k) d.
Proof.
  induction count as [| count IH]; intros i devices w refs w' Hrun.
  - injection Hrun as <- <-. exists [], [].
    rewrite !app_nil_r.
    do 3 (split; [reflexivity |]). split; [reflexivity |].
    split; [simpl; lia |].
    intros [| k] d; discriminate.
  - simpl in Hrun.
    apply bind_ok in Hrun as (line & w1 & H1 & Hrun).
    apply bind_ok in Hrun as (wt & w2 & H2 & Hrun).
    apply bind_ok in Hrun as (hr & w3 & H3 & Hrun).
    apply bind_ok in Hrun as (q & w4 & H4 & Hrun).
    apply bind_ok in Hrun as (qf & w5 & H5 & Hrun).
    apply bind_ok in Hrun as (d & w6 & H6 & Hrun).
    apply input_ok in H1 as [S1 Hp1].
    pose proof (ask_float_reads _ _ _ _ _ _ H2) as (r2 & S2 & L2).
    pose proof (ask_float_reads _ _ _ _ _ _ H3) as (r3 & S3 & L3).
    pose proof (ask_int_reads _ _ _ _ _ _ H4) as (r4 & S4 & L4).
    pose proof (ask_float_range _ _ _ _ _ _ H2) as [Rw _].
    pose proof (ask_float_range _ _ _ _ _ _ H3) as [Rh1 Rh2].
    pose proof (ask_int_range _ _ _ _ _ _ H4) as [Rq1 Rq2].
    apply (keeps_run heap) in H2; [| apply keeps_heap_ask_float].
    apply (keeps_run heap) in H3; [| apply keeps_heap_ask_float].
    apply (keeps_run heap) in H4; [| apply keeps_heap_ask_int].
    apply float_of_intM_ok in H5 as [-> ->].
    assert (S6 : stdin w6 = stdin w4) by (injection H6 as _ <-; reflexivity).
    apply alloc_ok in H6 as [-> H6].
    assert (Hh : heap w4 = heap w) by congruence.
    rewrite Hh in H6.
    destruct (IH _ _ _ _ _ Hrun) as (new & read & Hheap & Hlen & Hrefs & Hin
                                     & Hread & Hnew).
    exists (mkDevice
              match strip line with
              | [] => lit "Device" ++ str_of_int i
              | c :: s => c :: s
              end wt hr q (wt * hr * of_int q / 1000)%float :: new),
           (line :: r2 ++ r3 ++ r4 ++ read).
    assert (Hall : stdin w = (line :: r2 ++ r3 ++ r4 ++ read) ++ stdin w').
    { rewrite S1, S2, S3, S4, <- S6, Hin. simpl.
      rewrite <- !app_assoc. reflexivity. }
    split; [rewrite Hheap, H6, <- app_assoc; reflexivity |].
    split; [simpl; rewrite Hlen; reflexivity |].
    split.
    { rewrite Hrefs, H6, Hh, length_app, <- app_assoc. simpl.
      rewrite PeanoNat.Nat.add_1_r. reflexivity. }
    split; [exact Hall |].
    split; [simpl; rewrite !length_app; lia |].
    intros [| k] x Hx.
    + injection Hx as <-. rewrite Z.add_0_r. unfold entered. simpl.
      split.
      * destruct (strip line) as [| c s] eqn:Es; [left; reflexivity |].
        right. exists line. rewrite S1, Es.
        repeat split; [left; reflexivity | discriminate].
      * repeat split; [apply Rw | apply Rh1 | apply Rh2 | apply Rq1
                       | apply Rq2]; reflexivity.
    + simpl in Hx. apply Hnew in Hx.
      replace (i + Z.of_nat (S k)) with (i + 1 + Z.of_nat k) by lia.
      revert Hx. apply entered_later. intros l Hl.
      rewrite Hall. rewrite Hin in Hl.
      apply in_or_app. apply in_app_or in Hl as [Hl | Hl].
      * left. right. apply in_or_app. right. apply in_or_app. right.
        apply in_or_app. right. exact Hl.
      * right. exact Hl.
Qed.


Lemma collect_devices_rounds n w refs w' :
  collect_devices n w = (Ok refs, w') ->
  exists new read,
    heap w' = heap w ++ new /\ List.length new = Z.to_nat n /\
    refs = seq (List.length (heap w)) (Z.to_nat n) /\
    stdin w = read ++ stdin w' /\
    (4 * Z.to_nat n <= List.length read)%nat /\
    forall k d, nth_error new k = Some d ->
                entered (stdin w) (1 + Z.of_nat k) d.
Proof.
  intros Hrun. unfold collect_devices in Hrun.
  apply bind_ok in Hrun as ([] & w1 & H1 & Hrun).
  injection H1 as <-.
  exact (collect_loop_rounds _ _ _ _ _ _ Hrun).
Qed.

Lemma nth_error_seq_some start count k r :
  nth_error (seq start count) k = Some r ->
  r = (start + k)%nat /\ (k < count)%nat.
Proof.
  intros H.
  assert (Hk : (k < count)%nat).
  { rewrite <- (length_seq count start). apply nth_error_Some.
    rewrite H. discriminate. }
  split; [| exact Hk].
  rewrite (nth_error_nth' _ 0%nat) in H by (rewrite length_seq; exact Hk).
  rewrite seq_nth in H by exact Hk. congruence.
Qed.

(** The dictionary behind the [k]-th reference the collection returns. *)
Lemma collect_devices_entered n w refs w' k r :
  collect_devices n w = (Ok refs, w') ->
  nth_error refs k = Some r ->
  exists d, nth_error (heap w') r = Some d /\
            entered (stdin w) (1 + Z.of_nat k) d.
Proof.
  intros Hrun Hk.
  destruct (collect_devices_rounds _ _ _ _ Hrun)
    as (new & read & Hheap & Hlen & -> & _ & _ & Hnew).
  apply nth_error_seq_some in Hk as [-> Hk].
  destruct (nth_error new k) as [d |] eqn:Ed.
  - exists d. split; [| apply Hnew, Ed].
    rewrite Hheap, nth_error_app2 by lia.
    replace (List.length (heap w) + k - List.length (heap w))%nat with k
      by lia.
    exact Ed.
  - apply nth_error_None in Ed. lia.
Qed.

(** X6: the list [collect_devices] returns holds [n] dictionaries made by
    this call, one after the other in the order they were entered, and
    no dictionary that existed before the call is touched. *)
Theorem collect_devices_makes_new_dictionaries n w refs w' :
  collect_devices n w = (Ok refs, w') ->
  refs = seq (List.length (heap w)) (Z.to_nat n) /\
  NoDup refs /\
  List.length (heap w') = (List.length (heap w) + Z.to_nat n)%nat /\
  forall r d, nth_error (heap w) r = Some d -> nth_error (heap w') r = Some d.
Proof.
  intros Hrun.
  destruct (collect_devices_rounds _ _ _ _ Hrun)
    as (new & read & Hheap & Hlen & -> & _ & _ & _).
  split; [reflexivity |]. split; [apply seq_NoDup |].
  split; [rewrite Hheap, length_app, Hlen; reflexivity |].
  intros r d Hr. rewrite Hheap, nth_error_app1; [exact Hr |].
  apply nth_error_Some. rewrite Hr. discriminate.
Qed.

(** X7: a collection that returns has read at least four input lines for
    every device (name, watts, hours, quantity; more when a line was
    refused) and leaves the lines after them unread. *)
Theorem collect_devices_reads_four_lines_per_device n w refs w' :
  collect_devices n w = (Ok refs, w') ->
  exists read,
    stdin w = read ++ stdin w' /\
    (4 * List.length refs <= List.length read)%nat.
Proof.
  intros Hrun.
  destruct (collect_devices_rounds _ _ _ _ Hrun)
    as (new & read & _ & _ & -> & Hin & Hread & _).
  exists read. split; [exact Hin |]. rewrite length_seq. exact Hread.
Qed.

(** X8: the fields of every collected device went through the validators
    with the bounds of the collection loop: a quantity from 1 to 1000,
    watts not below 1, hours neither below 0 nor above 24. *)
Theorem collect_devices_stores_validated_fields n w refs w' :
  collect_devices n w = (Ok refs, w') ->
  forall r, In r refs ->
    exists d, nth_error (heap w') r = Some d /\
              1 <= qty d <= 1000 /\
              float_lt_int (watts d) 1 = false /\
              float_lt_int (hours d) 0 = false /\
              float_gt_int (hours d) 24 = false.
Proof.
  intros Hrun r Hr. apply In_nth_error in Hr as (k & Hk).
  destruct (collect_devices_entered _ _ _ _ _ _ Hrun Hk)
    as (d & Hd & _ & Hw & Hh1 & Hh2 & Hq).
  exists d. auto.
Qed.

(** X9: the name of the [k]-th collected device (counting from 1) is
    either [Device<k>], or a line of the input with the surrounding
    white space removed; it is never empty and never starts or ends with
    white space. *)
Theorem collect_devices_names n w refs w' k r :
  collect_devices n w = (Ok refs, w') ->
  nth_error refs k = Some r ->
  exists d, nth_error (heap w') r = Some d /\
            (name d = default_name (Z.of_nat k + 1) \/
             exists l, In l (stdin w) /\ name d = strip l) /\
            name d <> [] /\ strip (name d) = name d.
Proof.
  intros Hrun Hk.
  destruct (collect_devices_entered _ _ _ _ _ _ Hrun Hk)
    as (d & Hd & Hn & _).
  rewrite Z.add_comm in Hn.
  exists d. split; [exact Hd |].
  destruct Hn as [Hn | (l & Hl & Hne & Hn)].
  - split; [left; exact Hn |]. rewrite Hn.
    split; [apply default_name_not_blank | apply default_name_stripped].
  - split; [right; exists l; auto |]. rewrite Hn.
    split; [exact Hne | apply strip_strip].
Qed.

Lemma collect_loop_raised count :
  forall i devices w e w',
    collect_loop count i devices w = (Raise e, w') ->
    e = EOFError /\ stdin w' = [].
Proof.
  induction count as [| count IH]; intros i devices w e w' Hrun;
    [discriminate |].
  simpl in Hrun.
  apply bind_raised in Hrun as [H | (line & w1 & _ & Hrun)];
    [exact (input_raised _ _ _ _ H) |].
  apply bind_raised in Hrun as [H | (wt & w2 & _ & Hrun)];
    [exact (ask_float_raised _ _ _ _ _ _ H) |].
  apply bind_raised in Hrun as [H | (hr & w3 & _ & Hrun)];
    [exact (ask_float_raised _ _ _ _ _ _ H) |].
  apply bind_raised in Hrun as [H | (q & w4 & H4 & Hrun)];
    [exact (ask_int_raised _ _ _ _ _ _ H) |].
  apply ask_int_range in H4 as [Hlo Hhi].
  specialize (Hlo 1 eq_refl). specialize (Hhi 1000 eq_refl).
  apply bind_raised in Hrun as [H | (qf & w5 & _ & Hrun)].
  { unfold float_of_intM in H.
    rewrite small_int_is_finite in H by lia. discriminate. }
  apply bind_raised in Hrun as [H | (d & w6 & _ & Hrun)]; [discriminate |].
  exact (IH _ _ _ _ _ Hrun).
Qed.

(** X10: the only way for [collect_devices] to fail is the end of the
    input: the exception is [EOFError] and no input line is left. *)
Theorem collect_devices_fails_only_at_end_of_input n w e w' :
  collect_devices n w = (Raise e, w') -> e = EOFError /\ stdin w' = [].
Proof.
  intros Hrun. unfold collect_devices in Hrun.
  apply bind_raised in Hrun as [H | ([] & w1 & _ & Hrun)]; [discriminate |].
  exact (collect_loop_raised _ _ _ _ _ _ Hrun).
Qed.


(** ** The top consumer when a figure is no number *)

Lemma ltb_nan_l x y : isnan x = true -> (x <? y)%float = false.
Proof.
  unfold isnan. rewrite ltb_spec. intros H.
  destruct (Prim2SF x); try discriminate H. reflexivity.
Qed.

Lemma ltb_nan_r x y : isnan y = true -> (x <? y)%float = false.
Proof.
  unfold isnan. rewrite ltb_spec. intros H.
  destruct (Prim2SF y); try discriminate H.
  destruct (Prim2SF x); reflexivity.
Qed.

Lemma max_scan_nan_first rest :
  forall best, isnan (kwh_day (snd best)) = true -> max_scan best rest = best.
Proof.
  induction rest as [| x rest IH]; intros best H; [reflexivity |].
  simpl. rewrite (ltb_nan_l _ _ H). apply IH, H.
Qed.

Lemma max_scan_member rest :
  forall best,
    max_scan best rest = best \/
    (In (max_scan best rest) rest /\
     isnan (kwh_day (snd (max_scan best rest))) = false).
Proof.
  induction rest as [| x rest IH]; intros best; [left; reflexivity |].
  simpl. destruct (kwh_day (snd best) <? kwh_day (snd x))%float eqn:E.
  - right. destruct (IH x) as [-> | [Hin Hn]].
    + split; [left; reflexivity |].
      destruct (isnan (kwh_day (snd x))) eqn:En; [| reflexivity].
      rewrite (ltb_nan_r _ _ En) in E. discriminate E.
    + split; [right; exact Hin | exact Hn].
  - destruct (IH best) as [-> | [Hin Hn]]; [left; reflexivity |].
    right. split; [right; exact Hin | exact Hn].
Qed.

(** X11: the top consumer is always one of the devices.  A daily figure
    that is NaN compares false with everything, so the first device is
    the top one whenever its own figure is NaN, whatever the others use,
    and a device further down the list whose figure is NaN never is. *)
Theorem top_when_a_figure_is_no_number w r d devices ds days tariff :
  Forall2 (points_to w) (r :: devices) (d :: ds) ->
  isfinite (of_int days) = true ->
  exists m t,
    compute_metrics (r :: devices) days tariff w = (Ok m, w) /\
    points_to w (top m) t /\
    In (top m, t) (combine (r :: devices) (d :: ds)) /\
    (isnan (kwh_day d) = true -> (top m, t) = (r, d)) /\
    (isnan (kwh_day t) = true -> (top m, t) = (r, d)).
Proof.
  intros Hall Hdays.
  destruct (compute_metrics_run w r d devices ds days tariff Hall Hdays)
    as [Hrun Htop].
  set (best := max_scan (r, d) (combine devices ds)) in *.
  exists (mkMetrics (float_sum (map kwh_day (d :: ds)))
                    (float_sum (map kwh_day (d :: ds)) * of_int days)
                    (float_sum (map kwh_day (d :: ds)) * of_int days
                     * tariff) (fst best)), (snd best).
  split; [exact Hrun |]. split; [exact Htop |].
  cbn [top]. rewrite <- surjective_pairing.
  split; [| split].
  - destruct (max_scan_member (combine devices ds) (r, d)) as [E | [Hin _]].
    + fold best in E. rewrite E. left. reflexivity.
    + right. exact Hin.
  - intros Hn. apply max_scan_nan_first. exact Hn.
  - intros Hn.
    destruct (max_scan_member (combine devices ds) (r, d)) as [E | [_ Hnn]];
      [exact E |].
    fold best in Hnn. rewrite Hnn in Hn. discriminate Hn.
Qed.

(** ** A device whose watts are no finite number *)

(** The exception [int(d["watts"])] raises, if any. *)
Definition watts_error (x : float) : option exn :=
  match int_of_float x with
  | IntOk _ => None
  | IntNaN => Some ValueError
  | IntInf => Some OverflowError
  end.

Lemma bind_stop {A B} (c : M A) (k : A -> M B) w e w1 :
  c w = (Raise e, w1) -> bind c k w = (Raise e, w1).
Proof. intros H. unfold bind. rewrite H. reflexivity. Qed.

Lemma print_row_stop w r d e :
  points_to w r d -> watts_error (watts d) = Some e ->
  print_row r w = (Raise e, w).
Proof.
  intros Hp He. unfold print_row.
  rewrite (bind_step _ _ _ _ _ (deref_run _ _ _ Hp)).
  apply bind_stop. unfold watts_error in He. unfold int_of_floatM.
  destruct (int_of_float (watts d)); [discriminate He | ..];
    injection He as <-; reflexivity.
Qed.

Lemma print_rows_stop shown :
  forall rows w r d e later,
    Forall2 (row_of w) shown rows ->
    points_to w r d -> watts_error (watts d) = Some e ->
    forM_ (shown ++ r :: later) print_row w =
    (Raise e, out w (map (fun row => line (row_cells (fst row) (snd row)))
                         rows)).
Proof.
  induction shown as [| r0 shown IH]; intros rows w r d e later H Hp He;
    inversion H as [| ? row ? rows' Hrow Hrest]; subst.
  - simpl. rewrite out_nil. apply bind_stop.
    exact (print_row_stop _ _ _ _ Hp He).
  - simpl app. simpl forM_.
    rewrite (bind_step _ _ _ _ _ (print_row_run _ _ _ Hrow)).
    rewrite (IH rows' (out w _) r d e later Hrest Hp He).
    rewrite out_out. reflexivity.
Qed.

Lemma compute_metrics_returns w devices ds days tariff :
  devices <> [] ->
  Forall2 (points_to w) devices ds ->
  isfinite (of_int days) = true ->
  exists m, compute_metrics devices days tariff w = (Ok m, w).
Proof.
  intros Hne Hall Hdays.
  destruct Hall as [| r d devices ds Hr Hrest]; [contradiction |].
  destruct (compute_metrics_run w r d devices ds days tariff) as [Hrun _];
    [constructor; assumption | exact Hdays |].
  eexists. exact Hrun.
Qed.

Lemma summary_and_report_stop w shown rows r d e later ds days tariff :
  Forall2 (row_of w) shown rows ->
  points_to w r d ->
  watts_error (watts d) = Some e ->
  Forall2 (points_to w) later ds ->
  isfinite (of_int days) = true ->
  summary_and_report (shown ++ r :: later) days tariff w =
  (Raise e,
   out w ([line []; line [BOLD ++ lit "Per-Device Daily Usage" ++ RST];
           line [rule];
           line [pad h1 w1; bar; pad h2 w2; bar; pad h3 w3; bar; pad h4 w4;
                 bar; pad h5 w5];
           line [rule]]
          ++ map (fun row => line (row_cells (fst row) (snd row))) rows)).
Proof.
  intros Hrows Hp He Hlater Hdays.
  assert (Hall : Forall2 (points_to w) (shown ++ r :: later)
                         (map fst rows ++ d :: ds)).
  { apply Forall2_app; [| constructor; assumption].
    clear -Hrows. induction Hrows as [| x row xs rows' [Hx _] _ IH];
      [constructor | constructor; assumption]. }
  assert (Hne : shown ++ r :: later <> []) by (destruct shown; discriminate).
  destruct (compute_metrics_returns w _ _ days tariff Hne Hall Hdays)
    as [m Hm].
  unfold summary_and_report.
  rewrite (bind_step _ _ _ _ _ Hm).
  apply bind_stop. unfold print_table.
  repeat (rewrite (bind_step _ _ _ _ _ (print_run _ _))).
  match goal with
  | |- bind _ _ ?W = _ =>
      rewrite (bind_stop _ _ W _ _
                 (print_rows_stop shown rows W r d e later Hrows Hp He))
  end.
  rewrite !out_out. reflexivity.
Qed.

(** X12: the report stops at the first device whose watts have no
    integer part.  The heading of the table and the rows of the devices
    before it are on the console; then [int] raises [ValueError] for a
    NaN and [OverflowError] for an infinity, and neither the rest of the
    table, the summary, the tips nor the report file follow. *)
Theorem report_stops_at_watts_without_an_integer
    w shown rows r d e later ds days tariff :
  Forall2 (row_of w) shown rows ->
  points_to w r d ->
  watts_error (watts d) = Some e ->
  Forall2 (points_to w) later ds ->
  isfinite (of_int days) = true ->
  summary_and_report (shown ++ r :: later) days tariff w =
  (Raise e,
   out w ([line []; line [BOLD ++ lit "Per-Device Daily Usage" ++ RST];
           line [rule];
           line [pad h1 w1; bar; pad h2 w2; bar; pad h3 w3; bar; pad h4 w4;
                 bar; pad h5 w5];
           line [rule]]
          ++ map (fun row => line (row_cells (fst row) (snd row))) rows)).
Proof. apply summary_and_report_stop. Qed.


(** ** What the report stage leaves alone *)

(** A view of the world that does not see what is printed. *)
Definition blind_to_output {X} (view : world -> X) : Prop :=
  forall w outs,
    view (mkWorld (stdin w) outs (heap w) (report_file w) (clock w)) = view w.

Lemma keeps_print_out {X} (view : world -> X) args :
  blind_to_output view -> keeps view (print args).
Proof. intros H w. apply (H w). Qed.

Lemma keeps_kwh_of {X} (view : world -> X) r : keeps view (kwh_of r).
Proof.
  unfold kwh_of. apply keeps_bind; [apply keeps_deref | intros d].
  apply keeps_ret.
Qed.

Ltac report_steps :=
  repeat first
    [ solve [auto using keeps_deref, keeps_now, keeps_kwh_of,
               keeps_print_out, keeps_write_report_file with frame]
    | apply keeps_bind; [| intros ?] ].

Lemma keeps_compute_metrics {X} (view : world -> X) devices days tariff :
  keeps view (compute_metrics devices days tariff).
Proof.
  unfold compute_metrics.
  apply keeps_bind; [report_steps | intros ks].
  apply keeps_bind; [| intros month].
  { unfold mul_int. destruct (py_sum float_sum ks); report_steps. }
  apply keeps_bind; [| intros bill].
  { unfold mul_float. destruct month; report_steps. }
  report_steps.
Qed.

Lemma keeps_print_row {X} (view : world -> X) r :
  blind_to_output view -> keeps view (print_row r).
Proof. intros H. unfold print_row. report_steps. Qed.

Lemma keeps_file_row {X} (view : world -> X) r : keeps view (file_row r).
Proof. unfold file_row. report_steps. Qed.

Lemma keeps_print_table {X} (view : world -> X) devices :
  blind_to_output view -> keeps view (print_table devices).
Proof.
  intros H. pose proof (fun r => keeps_print_row view r H).
  unfold print_table. report_steps.
Qed.

Lemma keeps_print_summary {X} (view : world -> X) m days tariff :
  blind_to_output view -> keeps view (print_summary m days tariff).
Proof. intros H. unfold print_summary. report_steps. Qed.

Lemma keeps_print_tips {X} (view : world -> X) m devices tariff :
  blind_to_output view -> keeps view (print_tips m devices tariff).
Proof.
  intros H. unfold print_tips. report_steps.
  apply keeps_py_any. intros r. report_steps.
Qed.

Lemma keeps_write_report {X} (view : world -> X) m devices days tariff :
  blind_to_output view -> blind_to_file view ->
  keeps view (write_report m devices days tariff).
Proof.
  intros H Hf. pose proof (keeps_file_row view).
  unfold write_report. report_steps.
Qed.

Lemma keeps_summary_and_report {X} (view : world -> X) devices days tariff :
  blind_to_output view -> blind_to_file view ->
  keeps view (summary_and_report devices days tariff).
Proof.
  intros H Hf. unfold summary_and_report.
  apply keeps_bind; [apply keeps_compute_metrics | intros m].
  apply keeps_bind; [apply keeps_print_table, H | intros _].
  apply keeps_bind; [apply keeps_print_summary, H | intros _].
  apply keeps_bind; [apply keeps_print_tips, H | intros _].
  apply keeps_write_report; assumption.
Qed.

(** What the report stage can neither read nor change: the input still
    to come and the clock. *)
Definition input_and_clock (w : world) : list str * str :=
  (stdin w, clock w).

(** X13: [summary_and_report] asks nothing: however it ends, the input
    lines still unread are the ones that were unread before, and the
    totals are computed without printing or writing anything. *)
Theorem report_stage_reads_no_input devices days tariff w :
  input_and_clock (snd (summary_and_report devices days tariff w)) =
    input_and_clock w /\
  snd (compute_metrics devices days tariff w) = w.
Proof.
  split.
  - apply keeps_summary_and_report; intros w0 x; reflexivity.
  - apply (keeps_compute_metrics (fun w0 => w0)).
Qed.

(** ** The report file is written last *)

(** A computation that either returns, with the report file written and
    the saved-to line printed last, or raises with the file as it was. *)
Definition saves_or_keeps {A} (c : M A) : Prop :=
  forall w,
    match c w with
    | (Ok _, w') =>
        exists text printed,
          report_file w' = Some text /\ stdout w' = printed ++ [saved_line]
    | (Raise _, w') => report_file w' = report_file w
    end.

Lemma saves_after {A B} (c : M A) (k : A -> M B) :
  keeps report_file c -> (forall a, saves_or_keeps (k a)) ->
  saves_or_keeps (bind c k).
Proof.
  intros Hc Hk w. unfold bind. specialize (Hc w).
  destruct (c w) as [[a | e] w1]; simpl in Hc; [| exact Hc].
  specialize (Hk a w1).
  destruct (k a w1) as [[b | e] w2]; [exact Hk | rewrite Hk; exact Hc].
Qed.

Lemma report_file_blind_to_output : blind_to_output report_file.
Proof. intros w outs. reflexivity. Qed.

Lemma write_report_saves m devices days tariff :
  saves_or_keeps (write_report m devices days tariff).
Proof.
  unfold write_report.
  apply saves_after; [apply keeps_now | intros stamp].
  apply saves_after; [apply keeps_mapM, keeps_file_row | intros rows].
  apply saves_after; [apply keeps_deref | intros t].
  intros w. cbn. eexists. eexists. split; reflexivity.
Qed.

Lemma summary_and_report_saves devices days tariff :
  saves_or_keeps (summary_and_report devices days tariff).
Proof.
  pose proof report_file_blind_to_output as H.
  unfold summary_and_report.
  apply saves_after; [apply keeps_compute_metrics | intros m].
  apply saves_after; [apply keeps_print_table, H | intros _].
  apply saves_after; [apply keeps_print_summary, H | intros _].
  apply saves_after; [apply keeps_print_tips, H | intros _].
  apply write_report_saves.
Qed.

(** A row that was printed had a dictionary behind its reference and
    watts with an integer part. *)
Lemma print_row_ok r w w' :
  print_row r w = (Ok tt, w') -> exists row, row_of w r row.
Proof.
  intros H. unfold print_row in H.
  apply bind_ok in H as (d & w1 & Hd & H).
  apply bind_ok in H as (wi & w2 & Hi & _).
  unfold deref in Hd. destruct (nth_error (heap w) r) as [x |] eqn:Ex;
    [| discriminate Hd].
  injection Hd as -> _.
  unfold int_of_floatM in Hi.
  destruct (int_of_float (watts d)) as [z | |] eqn:Ez; try discriminate Hi.
  exists (d, z). split; [exact Ex | exact Ez].
Qed.

Lemma row_of_same_heap w1 w2 r row :
  heap w1 = heap w2 -> row_of w1 r row -> row_of w2 r row.
Proof. unfold row_of, points_to. intros ->. trivial. Qed.

Lemma print_rows_ok devices :
  forall w w',
    forM_ devices print_row w = (Ok tt, w') ->
    exists rows, Forall2 (row_of w) devices rows.
Proof.
  induction devices as [| r devices IH]; intros w w' H.
  - exists []. constructor.
  - simpl forM_ in H. apply bind_ok in H as ([] & w1 & Hr & H).
    destruct (print_row_ok _ _ _ Hr) as (row & Hrow).
    destruct (IH _ _ H) as (rows & Hrows).
    apply (keeps_run heap) in Hr; [| apply keeps_heap_print_row].
    exists (row :: rows). constructor; [exact Hrow |].
    revert Hrows. apply Forall2_impl. intros a b.
    apply row_of_same_heap, Hr.
Qed.

(** What a returning report stage tells about its arguments. *)
Lemma summary_and_report_ok devices days tariff w w' :
  summary_and_report devices days tariff w = (Ok tt, w') ->
  exists r devs row rows,
    devices = r :: devs /\
    Forall2 (row_of w) (r :: devs) (row :: rows) /\
    isfinite (of_int days) = true.
Proof.
  intros Hrun.
  destruct devices as [| r devs];
    [rewrite summary_and_report_empty in Hrun; discriminate Hrun |].
  unfold summary_and_report in Hrun.
  apply bind_ok in Hrun as (m & w1 & Hm & Hrun).
  apply bind_ok in Hrun as ([] & w2 & Ht & _).
  assert (E1 : w1 = w)
    by exact (keeps_run (fun w0 => w0) _ _ _ _
                        (keeps_compute_metrics _ _ _ _) Hm).
  subst w1.
  unfold print_table in Ht.
  apply bind_ok in Ht as ([] & v1 & P1 & Ht).
  apply bind_ok in Ht as ([] & v2 & P2 & Ht).
  apply bind_ok in Ht as ([] & v3 & P3 & Ht).
  apply bind_ok in Ht as ([] & v4 & P4 & Ht).
  apply bind_ok in Ht as ([] & v5 & P5 & Ht).
  apply bind_ok in Ht as ([] & v6 & Hrows & _).
  apply (keeps_run heap) in P1; [| apply keeps_heap_print].
  apply (keeps_run heap) in P2; [| apply keeps_heap_print].
  apply (keeps_run heap) in P3; [| apply keeps_heap_print].
  apply (keeps_run heap) in P4; [| apply keeps_heap_print].
  apply (keeps_run heap) in P5; [| apply keeps_heap_print].
  destruct (print_rows_ok _ _ _ Hrows) as (rows & Hall).
  assert (Hw : Forall2 (row_of w) (r :: devs) rows).
  { revert Hall. apply Forall2_impl. intros a b.
    apply row_of_same_heap. congruence. }
  inversion Hw as [| ? row ? rows' Hrow Hrest]; subst.
  exists r, devs, row, rows'.
  split; [reflexivity |]. split; [exact Hw |].
  destruct (isfinite (of_int days)) eqn:Ed; [reflexivity |].
  pose proof (mapM_kwh_of_run _ _ _ (rows_point_to _ _ _ Hw)) as Hks.
  unfold compute_metrics in Hm. unfold bind at 1 in Hm. rewrite Hks in Hm.
  cbn [map py_sum mul_int] in Hm.
  unfold bind at 1, bind at 1, float_of_intM in Hm. rewrite Ed in Hm.
  discriminate Hm.
Qed.

(** X14: the report file is written in one piece, after everything that
    can fail: a call that returns has replaced the file, whatever it
    held, by the report of this call (its totals, its top device and a
    row for every device, under the time of the clock) and printed the
    saved-to line as its last line, and a call that raises has left the
    file exactly as it was. *)
Theorem report_file_is_written_last devices days tariff w :
  match summary_and_report devices days tariff w with
  | (Ok _, w') =>
      exists m t rows printed,
        compute_metrics devices days tariff w = (Ok m, w) /\
        points_to w (top m) t /\
        Forall2 (row_of w) devices rows /\
        report_file w' =
          Some (join [nl] (report_lines m t rows days tariff (clock w))) /\
        stdout w' = stdout w ++ printed ++ [saved_line]
  | (Raise _, w') => report_file w' = report_file w
  end.
Proof.
  pose proof (summary_and_report_saves devices days tariff w) as K.
  destruct (summary_and_report devices days tariff w) as [[[] | e] w'] eqn:E;
    [| exact K].
  destruct (summary_and_report_ok _ _ _ _ _ E)
    as (r & devs & row & rows & -> & Hall & Hdays).
  pose proof (summary_and_report_run w r row devs rows days tariff Hall Hdays)
    as Hrun.
  destruct (compute_metrics_run w r (fst row) devs (map fst rows) days
              tariff (rows_point_to _ _ _ Hall) Hdays) as [Hm Htop].
  cbv zeta in Hrun, Hm, Htop.
  set (best := max_scan (r, fst row) (combine devs (map fst rows))) in *.
  set (total := float_sum (map kwh_day (map fst (row :: rows)))) in *.
  change (float_sum (map kwh_day (fst row :: map fst rows)))
    with total in Hm.
  set (m := mkMetrics total (total * of_int days)
                      (total * of_int days * tariff) (fst best)) in *.
  rewrite E in Hrun. apply (f_equal snd) in Hrun. cbn [snd] in Hrun.
  rename Hrun into Hw'.
  exists m, (snd best), (row :: rows),
    (table_lines (row :: rows) ++ summary_lines m (snd best) days tariff
     ++ tips_lines m (snd best) (map fst (row :: rows)) tariff).
  split; [exact Hm |]. split; [exact Htop |]. split; [exact Hall |].
  rewrite Hw'. cbn [report_file stdout].
  split; [reflexivity |].
  rewrite <- !app_assoc. reflexivity.
Qed.


(** ** The whole program *)

Lemma keeps_human_header {X} (view : world -> X) :
  blind_to_console view -> keeps view human_header.
Proof.
  intros H. unfold human_header.
  apply keeps_bind; [apply keeps_print, H | intros _; apply keeps_print, H].
Qed.

Lemma keeps_collect_loop {X} (view : world -> X) count :
  blind_to_console view -> blind_to_heap view ->
  forall i devices, keeps view (collect_loop count i devices).
Proof.
  intros H Hh. induction count as [| count IH]; intros i devices; simpl.
  - apply keeps_ret.
  - apply keeps_bind; [apply keeps_input, H | intros l].
    apply keeps_bind; [apply keeps_ask_float, H | intros wt].
    apply keeps_bind; [apply keeps_ask_float, H | intros hr].
    apply keeps_bind; [apply keeps_ask_int, H | intros q].
    apply keeps_bind; [apply keeps_float_of_intM | intros qf].
    apply keeps_bind; [apply keeps_alloc, Hh | intros d].
    apply IH.
Qed.

Lemma keeps_collect_devices {X} (view : world -> X) n :
  blind_to_console view -> blind_to_heap view ->
  keeps view (collect_devices n).
Proof.
  intros H Hh. unfold collect_devices.
  apply keeps_bind; [apply keeps_print, H | intros _].
  apply keeps_collect_loop; assumption.
Qed.

Lemma report_file_blind_to_console : blind_to_console report_file.
Proof. intros w ins outs. reflexivity. Qed.

Lemma report_file_blind_to_heap : blind_to_heap report_file.
Proof. intros w hp. reflexivity. Qed.

(** The lines of the table a list of valid references gets: all of
    them, or those before the first device whose watts have no integer
    part. *)
Lemma rows_or_stop w devices ds :
  Forall2 (points_to w) devices ds ->
  (exists rows, Forall2 (row_of w) devices rows) \/
  (exists shown rows r d e later (ds' : list device),
     devices = shown ++ r :: later /\
     Forall2 (row_of w) shown rows /\
     points_to w r d /\ watts_error (watts d) = Some e /\
     Forall2 (points_to w) later ds').
Proof.
  induction 1 as [| r d devices ds Hr Hrest IH].
  - left. exists []. constructor.
  - destruct (int_of_float (watts d)) as [z | |] eqn:E.
    + destruct IH as [(rows & Hrows)
                     | (shown & rows & r' & d' & e & later & ds' & -> & Hrows
                        & Hp & He & Hlater)].
      * left. exists ((d, z) :: rows).
        constructor; [split; assumption | exact Hrows].
      * right. exists (r :: shown), ((d, z) :: rows), r', d', e, later, ds'.
        split; [reflexivity |].
        split; [constructor; [split; assumption | exact Hrows] |].
        auto.
    + right. exists [], [], r, d, ValueError, devices, ds.
      unfold watts_error. rewrite E.
      repeat split; [constructor | exact Hr | exact Hrest].
    + right. exists [], [], r, d, OverflowError, devices, ds.
      unfold watts_error. rewrite E.
      repeat split; [constructor | exact Hr | exact Hrest].
Qed.

(** With valid references and a day count that converts, the report
    stage fails for one reason only. *)
Lemma summary_and_report_raised w devices ds days tariff e w' :
  devices <> [] ->
  Forall2 (points_to w) devices ds ->
  isfinite (of_int days) = true ->
  summary_and_report devices days tariff w = (Raise e, w') ->
  exists r d, points_to w r d /\ watts_error (watts d) = Some e.
Proof.
  intros Hne Hall Hdays Hrun.
  destruct (rows_or_stop _ _ _ Hall)
    as [(rows & Hrows)
       | (shown & rows & r & d & e' & later & ds' & -> & Hrows & Hp & He
          & Hlater)].
  - destruct Hrows as [| r row devices rows Hrow Hrest]; [contradiction |].
    rewrite (summary_and_report_run w r row devices rows days tariff) in Hrun
      by (try constructor; assumption).
    discriminate Hrun.
  - rewrite (summary_and_report_stop _ _ _ _ _ _ _ _ _ _ Hrows Hp He Hlater
                                     Hdays) in Hrun.
    injection Hrun as <- _. exists r, d. split; assumption.
Qed.

Lemma fresh_references (new : list device) :
  forall h,
    Forall2 (fun r d => nth_error (h ++ new) r = Some d)
            (seq (List.length h) (List.length new)) new.
Proof.
  induction new as [| d new IH]; intros h; [constructor |].
  simpl. constructor.
  - rewrite nth_error_app2, PeanoNat.Nat.sub_diag; [reflexivity | lia].
  - specialize (IH (h ++ [d])).
    rewrite length_app, PeanoNat.Nat.add_1_r, <- app_assoc in IH.
    exact IH.
Qed.

Lemma day_count_is_finite days : 1 <= days <= 365 -> isfinite (of_int days) = true.
Proof. intros H. apply small_int_is_finite. lia. Qed.


(** X16: [main] fails for two reasons only: the input ends before the
    last answer ([EOFError], nothing left to read), or the watts of a
    collected device have no integer part ([ValueError] for a NaN,
    [OverflowError] for an infinity). *)
Theorem main_fails_for_two_reasons_only w e w' :
  main w = (Raise e, w') ->
  (e = EOFError /\ stdin w' = []) \/
  (exists r d, nth_error (heap w') r = Some d /\
               watts_error (watts d) = Some e).
Proof.
  intros Hrun. unfold main in Hrun.
  apply bind_raised in Hrun as [Hrun | ([] & w0 & _ & Hrun)];
    [discriminate Hrun |].
  apply bind_raised in Hrun as [Hrun | (days & w1 & E1 & Hrun)];
    [left; exact (ask_int_raised _ _ _ _ _ _ Hrun) |].
  apply bind_raised in Hrun as [Hrun | (tariff & w2 & _ & Hrun)];
    [left; exact (ask_float_raised _ _ _ _ _ _ Hrun) |].
  apply bind_raised in Hrun as [Hrun | (n & w3 & E3 & Hrun)];
    [left; exact (ask_int_raised _ _ _ _ _ _ Hrun) |].
  apply bind_raised in Hrun as [Hrun | (devices & w4 & E4 & Hrun)].
  { left. unfold collect_devices in Hrun.
    apply bind_raised in Hrun as [Hrun | ([] & w5 & _ & Hrun)];
      [discriminate Hrun |].
    exact (collect_loop_raised _ _ _ _ _ _ Hrun). }
  apply ask_int_range in E1 as [Hd1 Hd2].
  specialize (Hd1 1 eq_refl). specialize (Hd2 365 eq_refl).
  apply ask_int_range in E3 as [Hn _]. specialize (Hn 1 eq_refl).
  destruct (collect_devices_rounds _ _ _ _ E4)
    as (new & read & Hheap & Hlen & Hrefs & _).
  destruct devices as [| d devices].
  { apply (f_equal (@List.length ref)) in Hrefs.
    rewrite length_seq in Hrefs. simpl in Hrefs. lia. }
  apply bind_raised in Hrun as [Hrun | ([] & w5 & _ & Hrun)];
    [| discriminate Hrun].
  right.
  assert (Hall : Forall2 (points_to w4) (d :: devices) new).
  { rewrite Hrefs, <- Hlen. unfold points_to. rewrite Hheap.
    apply fresh_references. }
  destruct (summary_and_report_raised w4 (d :: devices) new days tariff e w'
              ltac:(discriminate) Hall (day_count_is_finite days
                                          (conj Hd1 Hd2)) Hrun)
    as (r & x & Hp & He).
  exists r, x. split; [| exact He].
  pose proof (keeps_heap_summary_and_report (d :: devices) days tariff w4)
    as K.
  rewrite Hrun in K. simpl in K. rewrite K. exact Hp.
Qed.


(** ** The table of the report file *)

Lemma len_ljust t width : len (ljust t width) = Z.max (len t) width.
Proof.
  unfold ljust. rewrite len_app. unfold len, spaces.
  rewrite repeat_length. lia.
Qed.

Lemma len_rjust t width : len (rjust t width) = Z.max (len t) width.
Proof.
  unfold rjust. rewrite len_app. unfold len, spaces.
  rewrite repeat_length. lia.
Qed.

(** X17: the fields of a row of the report file are filled up to their
    widths (20, 7, 7, 5 and 10) and never cut: a row is as wide as the
    53 characters of the heading above it when every field fits, wider
    otherwise, and it starts with the whole name of the device. *)
Theorem file_rows_are_filled_never_cut d wi :
  len (file_row_text d wi) =
    Z.max (len (name d)) 20 + Z.max (len (str_of_int wi)) 7
    + Z.max (len (format_f false 1 (hours d))) 7
    + Z.max (len (str_of_int (qty d))) 5
    + Z.max (len (format_f false 3 (kwh_day d))) 10 + 4 /\
  len (ljust h1 20 ++ lit " " ++ rjust h2 7 ++ lit " " ++ rjust h3 7
       ++ lit " " ++ rjust h4 5 ++ lit " " ++ rjust h5 10)
    <= len (file_row_text d wi) /\
  firstn (List.length (name d)) (file_row_text d wi) = name d.
Proof.
  assert (E : len (file_row_text d wi) =
    Z.max (len (name d)) 20 + Z.max (len (str_of_int wi)) 7
    + Z.max (len (format_f false 1 (hours d))) 7
    + Z.max (len (str_of_int (qty d))) 5
    + Z.max (len (format_f false 3 (kwh_day d))) 10 + 4).
  { unfold file_row_text. rewrite !len_app, len_ljust, !len_rjust.
    change (len (lit " ")) with 1. lia. }
  split; [exact E |]. split.
  - rewrite E.
    change (len (ljust h1 20 ++ lit " " ++ rjust h2 7 ++ lit " "
                 ++ rjust h3 7 ++ lit " " ++ rjust h4 5 ++ lit " "
                 ++ rjust h5 10)) with 53.
    lia.
  - unfold file_row_text, ljust. rewrite <- app_assoc.
    rewrite firstn_app, PeanoNat.Nat.sub_diag, firstn_all. simpl firstn.
    apply app_nil_r.
Qed.


(** ** The figures a dictionary is made from *)

(** A line a validator turns down. *)
Definition refused {V} (accepted : str -> V -> Prop) (l : str) : Prop :=
  forall v, ~ accepted l v.

Lemma asked_ok_lines {V} (accepted : str -> V -> Prop) lines v rest :
  asked accepted lines (Ok v) rest ->
  exists skipped l,
    lines = skipped ++ l :: rest /\
    Forall (refused accepted) skipped /\ accepted l v.
Proof.
  intros H. inversion H as [skipped x r v0 E1 E2 Ha E3 E4 |]. subst.
  exists skipped, x. split; [reflexivity |]. split; assumption.
Qed.

Lemma ask_int_lines prompt low high w v w' :
  ask_int prompt low high w = (Ok v, w') ->
  exists skipped l,
    stdin w = skipped ++ l :: stdin w' /\
    Forall (refused (accepted_int low high)) skipped /\
    accepted_int low high l v.
Proof.
  intros E. pose proof (ask_int_asked prompt low high w) as H.
  rewrite E in H. exact (asked_ok_lines _ _ _ _ H).
Qed.

Lemma ask_float_lines prompt low high w v w' :
  ask_float prompt low high w = (Ok v, w') ->
  exists skipped l,
    stdin w = skipped ++ l :: stdin w' /\
    Forall (refused (accepted_float low high)) skipped /\
    accepted_float low high l v.
Proof.
  intros E. pose proof (ask_float_asked prompt low high w) as H.
  rewrite E in H. exact (asked_ok_lines _ _ _ _ H).
Qed.

(** Round [i] of the collection loop: the lines it reads from the front
    of [lines], the dictionary [d] it makes from them, and the lines
    [rest] it leaves.  The first line gives the name; the watts, the
    hours and the quantity are the values of the first lines after it
    that the validators accept with the bounds of the loop; the daily
    figure is computed from these three. *)
Inductive entry (i : Z) (lines : list str) (d : device) (rest : list str)
    : Prop :=
| entry_intro name_line sw lw sh lh sq lq :
    lines = name_line :: sw ++ lw :: sh ++ lh :: sq ++ lq :: rest ->
    name d = match strip name_line with
             | [] => default_name i
             | c :: s => c :: s
             end ->
    Forall (refused (accepted_float (Some 1) None)) sw ->
    accepted_float (Some 1) None lw (watts d) ->
    Forall (refused (accepted_float (Some 0) (Some 24))) sh ->
    accepted_float (Some 0) (Some 24) lh (hours d) ->
    Forall (refused (accepted_int (Some 1) (Some 1000))) sq ->
    accepted_int (Some 1) (Some 1000) lq (qty d) ->
    kwh_day d = (watts d * hours d * of_int (qty d) / 1000)%float ->
    entry i lines d rest.

(** The rounds [i], [i + 1], ... one after the other. *)
Inductive entries : Z -> list str -> list device -> list str -> Prop :=
| entries_done i lines : entries i lines [] lines
| entries_next i lines d mid ds rest :
    entry i lines d mid -> entries (i + 1) mid ds rest ->
    entries i lines (d :: ds) rest.

Lemma entries_kwh i lines ds rest :
  entries i lines ds rest ->
  Forall (fun d => kwh_day d
                   = (watts d * hours d * of_int (qty d) / 1000)%float) ds.
Proof.
  induction 1 as [| i lines d mid ds rest Hd _ IH]; constructor;
    [| exact IH].
  destruct Hd. assumption.
Qed.

Lemma collect_loop_entries count :
  forall i devices w refs w',
    collect_loop count i devices w = (Ok refs, w') ->
    exists new,
      heap w' = heap w ++ new /\
      refs = devices ++ seq (List.length (heap w)) (List.length new) /\
      entries i (stdin w) new (stdin w').
Proof.
  induction count as [| count IH]; intros i devices w refs w' Hrun.
  - injection Hrun as <- <-. exists [].
    rewrite !app_nil_r. split; [reflexivity |]. split; [reflexivity |].
    constructor.
  - simpl in Hrun.
    apply bind_ok in Hrun as (line & w1 & H1 & Hrun).
    apply bind_ok in Hrun as (wt & w2 & H2 & Hrun).
    apply bind_ok in Hrun as (hr & w3 & H3 & Hrun).
    apply bind_ok in Hrun as (q & w4 & H4 & Hrun).
    apply bind_ok in Hrun as (qf & w5 & H5 & Hrun).
    apply bind_ok in Hrun as (d & w6 & H6 & Hrun).
    apply input_ok in H1 as [S1 Hp1].
    pose proof (ask_float_lines _ _ _ _ _ _ H2) as (sw & lw & S2 & Fw & Aw).
    pose proof (ask_float_lines _ _ _ _ _ _ H3) as (sh & lh & S3 & Fh & Ah).
    pose proof (ask_int_lines _ _ _ _ _ _ H4) as (sq & lq & S4 & Fq & Aq).
    apply (keeps_run heap) in H2; [| apply keeps_heap_ask_float].
    apply (keeps_run heap) in H3; [| apply keeps_heap_ask_float].
    apply (keeps_run heap) in H4; [| apply keeps_heap_ask_int].
    apply float_of_intM_ok in H5 as [-> ->].
    assert (S6 : stdin w6 = stdin w4) by (injection H6 as _ <-; reflexivity).
    apply alloc_ok in H6 as [-> H6].
    assert (Hh : heap w4 = heap w) by congruence.
    rewrite Hh in H6.
    destruct (IH _ _ _ _ _ Hrun) as (new & Hheap & Hrefs & Hnew).
    exists (mkDevice
              match strip line with
              | [] => lit "Device" ++ str_of_int i
              | c :: s => c :: s
              end wt hr q (wt * hr * of_int q / 1000)%float :: new).
    split; [rewrite Hheap, H6, <- app_assoc; reflexivity |].
    split.
    { rewrite Hrefs, H6, Hh, length_app, <- app_assoc. simpl.
      rewrite PeanoNat.Nat.add_1_r. reflexivity. }
    apply (entries_next _ _ _ (stdin w6)); [| exact Hnew].
    apply (entry_intro _ _ _ _ line sw lw sh lh sq lq);
      try assumption; try reflexivity.
    rewrite S1, S2, S3, S4, S6. reflexivity.
Qed.

Lemma Forall2_in_left {A B} (R : A -> B -> Prop) xs ys x :
  Forall2 R xs ys -> In x xs -> exists y, In y ys /\ R x y.
Proof.
  induction 1 as [| a b xs ys Hab _ IH]; intros Hin; [destruct Hin |].
  destruct Hin as [<- | Hin].
  - exists b. split; [left; reflexivity | exact Hab].
  - destruct (IH Hin) as (y & Hy & Hr). exists y.
    split; [right; exact Hy | exact Hr].
Qed.

(** C1: the dictionaries [collect_devices] returns are made from the
    input: round by round, the watts, the hours and the quantity of a
    device are the values the validators return for the lines typed
    after its name, and its [kwh_day] is [watts * hours * qty / 1000]
    computed from these three values. *)
Theorem collect_devices_kwh n w refs w' :
  collect_devices n w = (Ok refs, w') ->
  exists new,
    heap w' = heap w ++ new /\
    Forall2 (fun r d => nth_error (heap w') r = Some d) refs new /\
    entries 1 (stdin w) new (stdin w') /\
    forall r, In r refs ->
      exists d, nth_error (heap w') r = Some d /\ In d new /\
                kwh_day d = (watts d * hours d * of_int (qty d) / 1000)%float.
Proof.
  intros Hrun. unfold collect_devices in Hrun.
  apply bind_ok in Hrun as ([] & w1 & H1 & Hrun).
  injection H1 as <-.
  destruct (collect_loop_entries _ _ _ _ _ _ Hrun)
    as (new & Hheap & Hrefs & Hnew).
  cbn [stdin heap] in Hheap, Hrefs, Hnew. simpl app in Hrefs.
  assert (Hall : Forall2 (fun r d => nth_error (heap w') r = Some d)
                         refs new).
  { rewrite Hrefs, Hheap. apply fresh_references. }
  exists new. split; [exact Hheap |]. split; [exact Hall |].
  split; [exact Hnew |].
  intros r Hr.
  destruct (Forall2_in_left _ _ _ _ Hall Hr) as (d & Hd & Hp).
  exists d. split; [exact Hp |]. split; [exact Hd |].
  exact (proj1 (Forall_forall _ _) (entries_kwh _ _ _ _ Hnew) d Hd).
Qed.

End Program.

(** * Runs on the sample households *)

Import Literal Scenario.

(** One fan, typed at the keyboard. *)
Lemma collect_devices_kwh_witness :
  collect_devices dec_int dec_float 1 fan_typed =
    (Ok [0%nat], snd (collect_devices dec_int dec_float 1 fan_typed)) /\
  exists new,
    heap (snd (collect_devices dec_int dec_float 1 fan_typed)) =
      heap fan_typed ++ new /\
    Forall2 (fun r d =>
               nth_error
                 (heap (snd (collect_devices dec_int dec_float 1 fan_typed)))
                 r = Some d)
            [0%nat] new /\
    entries dec_int dec_float 1 (stdin fan_typed) new
            (stdin (snd (collect_devices dec_int dec_float 1 fan_typed))) /\
    forall r, In r [0%nat] ->
      exists d,
        nth_error (heap (snd (collect_devices dec_int dec_float 1 fan_typed)))
                  r = Some d /\
        In d new /\
        kwh_day d = (watts d * hours d * of_int (qty d) / 1000)%float.
Proof.
  assert (H : collect_devices dec_int dec_float 1 fan_typed =
              (Ok [0%nat], snd (collect_devices dec_int dec_float 1 fan_typed)))
    by (vm_compute; reflexivity).
  split; [exact H |].
  exact (collect_devices_kwh dec_int dec_float 1 fan_typed [0%nat] _ H).
Defined.

(** The dictionary of that fan: 75 W for 11 hours, twice, are
    1.65 kWh a day (the double nearest to it). *)
Example fan_typed_makes_the_fan :
  heap (snd (collect_devices dec_int dec_float 1 fan_typed)) =
    [mkDevice (lit "Fan") 75 11 2 0x1.a666666666666p+0] /\
  stdin (snd (collect_devices dec_int dec_float 1 fan_typed)) = [].
Proof. split; vm_compute; reflexivity. Qed.

(** Scenario B: an air conditioner and a fridge, 30 days at 10 per kWh. *)
Lemma report_totals_witness :
  [0%nat; 1%nat] <> [] /\
  Forall2 (points_to scenario_b) [0%nat; 1%nat] [ac; fridge] /\
  isfinite (of_int 30) = true /\
  exists m,
    compute_metrics Sum.compensated [0%nat; 1%nat] 30 10 scenario_b = (Ok m, scenario_b) /\
    total_kwh_day m = Sum.compensated (map kwh_day [ac; fridge]) /\
    total_kwh_month m = (total_kwh_day m * of_int 30)%float /\
    est_bill m = (total_kwh_month m * 10)%float.
Proof.
  assert (H1 : [0%nat; 1%nat] <> []) by discriminate.
  assert (H2 : Forall2 (points_to scenario_b) [0%nat; 1%nat] [ac; fridge])
    by (repeat constructor).
  assert (H3 : isfinite (of_int 30) = true) by reflexivity.
  split; [exact H1 |]. split; [exact H2 |]. split; [exact H3 |].
  exact (report_totals Sum.compensated scenario_b [0%nat; 1%nat] [ac; fridge] 30 10 H1 H2 H3).
Defined.

(** A fridge, then an air conditioner and a heater that use the same. *)
Lemma top_is_first_maximum_witness :
  [0%nat; 1%nat; 2%nat] <> [] /\
  Forall2 (points_to tie) [0%nat; 1%nat; 2%nat] [fridge; ac; heater] /\
  isfinite (of_int 30) = true /\
  Forall (fun d => isnan (kwh_day d) = false) [fridge; ac; heater] /\
  (kwh_day ac =? kwh_day heater)%float = true /\
  exists m t before after,
    compute_metrics Sum.compensated [0%nat; 1%nat; 2%nat] 30 8 tie = (Ok m, tie) /\
    points_to tie (top m) t /\
    combine [0%nat; 1%nat; 2%nat] [fridge; ac; heater] =
      before ++ (top m, t) :: after /\
    Forall (fun x => (kwh_day (snd x) <? kwh_day t)%float = true) before /\
    Forall (fun d => (kwh_day d <=? kwh_day t)%float = true)
           [fridge; ac; heater].
Proof.
  assert (H1 : [0%nat; 1%nat; 2%nat] <> []) by discriminate.
  assert (H2 : Forall2 (points_to tie) [0%nat; 1%nat; 2%nat]
                       [fridge; ac; heater]) by (repeat constructor).
  assert (H3 : isfinite (of_int 30) = true) by reflexivity.
  assert (H4 : Forall (fun d => isnan (kwh_day d) = false)
                      [fridge; ac; heater]) by (repeat constructor).
  split; [exact H1 |]. split; [exact H2 |]. split; [exact H3 |].
  split; [exact H4 |]. split; [reflexivity |].
  exact (top_is_first_maximum Sum.compensated tie [0%nat; 1%nat; 2%nat] [fridge; ac; heater]
                              30 8 H1 H2 H3 H4).
Defined.

(** With a tie between the air conditioner and the heater, the one
    entered first is the top device. *)
Example tie_goes_to_the_first :
  fst (compute_metrics Sum.compensated [0%nat; 1%nat; 2%nat] 30 8 tie) =
  Ok (mkMetrics (kwh_day fridge + kwh_day ac + kwh_day heater)
                ((kwh_day fridge + kwh_day ac + kwh_day heater) * 30)
                ((kwh_day fridge + kwh_day ac + kwh_day heater) * 30 * 8)
                1%nat).
Proof. vm_compute. reflexivity. Qed.

(** The tips of scenario B. *)
Lemma tips_rules_are_independent_witness :
  [0%nat; 1%nat] <> [] /\
  Forall2 (row_of scenario_b) [0%nat; 1%nat] [(ac, 2000); (fridge, 150)] /\
  isfinite (of_int 30) = true /\
  exists m t before (rule4 : bool),
    compute_metrics Sum.compensated [0%nat; 1%nat] 30 10 scenario_b =
      (Ok m, scenario_b) /\
    total_kwh_day m =
      Sum.compensated (map kwh_day (map fst [(ac, 2000); (fridge, 150)])) /\
    points_to scenario_b (top m) t /\
    fst (summary_and_report repr1 Sum.compensated [0%nat; 1%nat] 30 10
                            scenario_b) = Ok tt /\
    (rule4 = true <->
     exists d, In d (map fst [(ac, 2000); (fridge, 150)]) /\
               float_lt_int (watts d) 80 = true /\
               float_gt_int (hours d) 10 = true) /\
    stdout (snd (summary_and_report repr1 Sum.compensated [0%nat; 1%nat] 30 10
                                    scenario_b)) =
      stdout scenario_b ++ before
      ++ [line [lit "Tips:"]]
      ++ (if float_gt_int (total_kwh_day m) 15
          then [line [lit "  • Consider staggering heavy loads to reduce peak usage."]]
          else [])
      ++ (if float_gt_int (hours t) 8 && float_gt_int (watts t) 200
          then [line [lit "  • Try reducing " ++ name t
                      ++ lit " hours or enable energy-saver settings."]]
          else [])
      ++ (if float_gt_int 10 9
          then [line [lit "  • Tariff is relatively high—small savings on daily kWh translate to meaningful ₹ reductions."]]
          else [])
      ++ (if rule4
          then [line [lit "  • Long-running low-watt devices add up—audit always-on equipment."]]
          else [])
      ++ [saved_line].
Proof.
  assert (H1 : [0%nat; 1%nat] <> []) by discriminate.
  assert (H2 : Forall2 (row_of scenario_b) [0%nat; 1%nat]
                       [(ac, 2000); (fridge, 150)])
    by (repeat constructor).
  assert (H3 : isfinite (of_int 30) = true) by reflexivity.
  split; [exact H1 |]. split; [exact H2 |]. split; [exact H3 |].
  exact (tips_rules_are_independent repr1 Sum.compensated scenario_b [0%nat; 1%nat]
           [(ac, 2000); (fridge, 150)] 30 10 H1 H2 H3).
Defined.

(** Scenario B of the specification: rules 1 and 3 fire, rules 2 and 4
    do not. *)
Example scenario_b_tips :
  skipn 15 (stdout (snd (summary_and_report repr1 Sum.compensated [0%nat; 1%nat] 30 10
                                            scenario_b))) =
  [line [lit "Tips:"]; line [tip1]; line [tip3]; saved_line].
Proof. vm_compute. reflexivity. Qed.

(** The row of the air conditioner of scenario B. *)
Lemma rows_render_truncated_watts_witness :
  points_to scenario_b 0%nat ac /\
  int_of_float (watts ac) = IntOk 2000 /\
  truncation (watts ac) 2000 /\
  print_row 0%nat scenario_b =
    (Ok tt,
     out scenario_b
         [line [pad (name ac) 20; bar; pad (str_of_int 2000) 7; bar;
                pad (format_f false 1 (hours ac)) 7; bar;
                pad (str_of_int (qty ac)) 5; bar;
                pad (format_f false 3 (kwh_day ac)) 10]]).
Proof.
  assert (H1 : points_to scenario_b 0%nat ac) by reflexivity.
  assert (H2 : int_of_float (watts ac) = IntOk 2000) by reflexivity.
  split; [exact H1 |]. split; [exact H2 |].
  destruct (rows_render_truncated_watts scenario_b 0%nat ac 2000 H1 H2)
    as (Ht & Hp & _).
  split; [exact Ht | exact Hp].
Defined.

(** Truncation, not rounding: 99.75 watts show as 99. *)
Example watts_are_not_rounded :
  int_of_float 99.75 = IntOk 99 /\ int_of_float (-99.75) = IntOk (-99).
Proof. split; reflexivity. Qed.

(** The console and the report file of scenario B. *)
Lemma report_file_repeats_console_figures_witness :
  [0%nat; 1%nat] <> [] /\
  Forall2 (row_of scenario_b) [0%nat; 1%nat] [(ac, 2000); (fridge, 150)] /\
  isfinite (of_int 30) = true /\
  exists m file_lines,
    report_file (snd (summary_and_report repr1 Sum.compensated [0%nat; 1%nat] 30 10
                                         scenario_b)) =
      Some (join [nl] file_lines) /\
    In (line [lit "  Total daily consumption      : "
              ++ format_f false 3 (total_kwh_day m) ++ lit " kWh"])
       (stdout (snd (summary_and_report repr1 Sum.compensated [0%nat; 1%nat] 30 10
                                        scenario_b))) /\
    In (lit "Total daily kWh: " ++ format_f false 3 (total_kwh_day m))
       file_lines /\
    drop_commas (format_f true 2 (est_bill m)) =
      format_f false 2 (est_bill m).
Proof.
  assert (H1 : [0%nat; 1%nat] <> []) by discriminate.
  assert (H2 : Forall2 (row_of scenario_b) [0%nat; 1%nat]
                       [(ac, 2000); (fridge, 150)])
    by (repeat constructor).
  assert (H3 : isfinite (of_int 30) = true) by reflexivity.
  split; [exact H1 |]. split; [exact H2 |]. split; [exact H3 |].
  destruct (report_file_repeats_console_figures repr1 Sum.compensated scenario_b
              [0%nat; 1%nat] [(ac, 2000); (fridge, 150)] 30 10 H1 H2 H3)
    as (m & t & file_lines & _ & _ & _ & Hfile & Hc1 & Hf1 & _ & _ & _ & _
        & Hbill & _).
  exists m, file_lines.
  split; [exact Hfile |]. split; [exact Hc1 |]. split; [exact Hf1 |].
  exact Hbill.
Defined.

(** ** Where the claims as stated fail *)

(** C5 as stated fails: [ask_float] returns NaN for the bounds 0 and 24,
    although 0 <= NaN does not hold, and [EOFError] leaves [ask_int]
    when the input ends. *)
Lemma validators_return_nan_and_raise_eof :
  fst (ask_float dec_float (lit "     Hours per day: ") (Some 0) (Some 24)
                 (home [] ["nan"%string])) = Ok nan /\
  int_le_float 0 nan = false /\
  fst (ask_int dec_int (lit "     Quantity: ") (Some 1) (Some 1000)
               (home [] [])) = Raise EOFError.
Proof. repeat split; vm_compute; reflexivity. Qed.

(** The closed interval at its ends: 24 hours and a quantity of 1000 are
    accepted, 24.01 hours and 1001 are turned down and the next line is
    read. *)
Example boundaries_are_accepted :
  fst (ask_float dec_float (lit "     Hours per day: ") (Some 0) (Some 24)
                 (home [] ["24"%string])) = Ok 24%float /\
  fst (ask_float dec_float (lit "     Hours per day: ") (Some 0) (Some 24)
                 (home [] ["24.01"%string; "0"%string])) = Ok 0%float /\
  fst (ask_int dec_int (lit "     Quantity: ") (Some 1) (Some 1000)
               (home [] ["1000"%string])) = Ok 1000 /\
  fst (ask_int dec_int (lit "     Quantity: ") (Some 1) (Some 1000)
               (home [] ["1001"%string; ""%string; "x"%string; "1"%string]))
    = Ok 1.
Proof. repeat split; vm_compute; reflexivity. Qed.

(** C6 as stated fails: a daily figure of 1200000.000 kWh is written
    whole to the report file and cut to [1200000.0…] on the console. *)
Lemma wide_figure_is_cut_on_console_only :
  fst (summary_and_report repr1 Sum.compensated [0%nat] 30 8 plant_alone) = Ok tt /\
  nth 5 (stdout (snd (summary_and_report repr1 Sum.compensated [0%nat] 30 8 plant_alone))) []
    = lit "Plant                | 50000   | 24.0    | 1000  | 1200000.0…"
      ++ [nl] /\
  report_file (snd (summary_and_report repr1 Sum.compensated [0%nat] 30 8 plant_alone)) =
    Some (join [nl]
            [lit "Energy Analyzer Report";
             lit "Generated: 2026-01-01 09:00:00";
             [];
             lit "Billing days: 30";
             lit "Tariff (₹/kWh): 8.0";
             [];
             lit "Per-Device Daily Usage:";
             lit "Device                 Watts   Hours   Qty    kWh/day";
             lit "Plant                  50000    24.0  1000 1200000.000";
             [];
             lit "Total daily kWh: 1200000.000";
             lit "Monthly kWh   : 36000000.000";
             lit "Est. bill (₹) : 288000000.00";
             lit "Top device    : Plant (1200000.000 kWh/day)"]).
Proof. repeat split; vm_compute; reflexivity. Qed.

(** C8 as stated fails: 12345678.5 watts truncate to 12345678, which the
    report file shows, while the console cell reads [123456…]. *)
Lemma wide_watts_are_cut_on_console :
  int_of_float (watts generator) = IntOk 12345678 /\
  str_of_int 12345678 = lit "12345678" /\
  stdout (snd (print_row 0%nat generator_alone)) =
    [lit "Generator            | 123456… | 1.0     | 1     | 12345.678 "
     ++ [nl]] /\
  fst (file_row 0%nat generator_alone) =
    Ok (lit "Generator            12345678     1.0     1  12345.678").
Proof. repeat split; vm_compute; reflexivity. Qed.

(** C10 on a run: the table of one fan has rules of 57 characters and
    rows of 61 (each chunk ends in a newline). *)
Example fan_table_widths :
  map len (stdout (snd (print_table [0%nat] (home [fan] [])))) =
  [1; 31; 58; 62; 58; 62; 58].
Proof. vm_compute. reflexivity. Qed.

(** ** The conditions of the theorems *)

(** Scenario A of the specification, typed at the keyboard: a fan of
    75 W running 11 hours, twice; 30 days at 8 per kWh. *)
Example scenario_a_from_the_keyboard :
  fst (main dec_int dec_float repr1 Sum.compensated
            (home [] ["30"%string; "8"%string; "1"%string; "Fan"%string;
                      "75"%string; "11"%string; "2"%string])) = Ok Reported /\
  report_file
    (snd (main dec_int dec_float repr1 Sum.compensated
               (home [] ["30"%string; "8"%string; "1"%string; "Fan"%string;
                         "75"%string; "11"%string; "2"%string]))) =
    Some (join [nl]
            [lit "Energy Analyzer Report";
             lit "Generated: 2026-01-01 09:00:00";
             [];
             lit "Billing days: 30";
             lit "Tariff (₹/kWh): 8.0";
             [];
             lit "Per-Device Daily Usage:";
             lit "Device                 Watts   Hours   Qty    kWh/day";
             lit "Fan                       75    11.0     2      1.650";
             [];
             lit "Total daily kWh: 1.650";
             lit "Monthly kWh   : 49.500";
             lit "Est. bill (₹) : 396.00";
             lit "Top device    : Fan (1.650 kWh/day)"]).
Proof. split; vm_compute; reflexivity. Qed.

(** Why the top device is stated for daily figures that are numbers: a
    NaN compares neither below nor above anything, so a first device
    with a NaN figure stays the choice of [max]. *)
Example nan_stays_on_top :
  isnan (kwh_day (appliance "Heater" 2000 nan 1)) = true /\
  fst (py_max kwh_of [0%nat; 1%nat]
              (home [appliance "Heater" 2000 nan 1; ac] [])) = Ok 0%nat.
Proof. split; vm_compute; reflexivity. Qed.

(** Why a complete run is stated for watts that truncate to an int:
    [int] of an infinity raises [OverflowError], here after the header
    of the table and before any row, summary, tip or file. *)
Example infinite_watts_stop_the_table :
  fst (summary_and_report repr1 Sum.compensated [0%nat] 30 8
                          (home [appliance "Sun" infinity 1 1] []))
    = Raise OverflowError /\
  List.length
    (stdout (snd (summary_and_report repr1 Sum.compensated [0%nat] 30 8
                                     (home [appliance "Sun" infinity 1 1] []))))
    = 5%nat /\
  report_file (snd (summary_and_report repr1 Sum.compensated [0%nat] 30 8
                                       (home [appliance "Sun" infinity 1 1] [])))
    = None.
Proof. repeat split; vm_compute; reflexivity. Qed.

(** * Runs for the further properties *)

(** A household with a fridge, and somebody entering two more devices:
    the first without a name and with a refused line for the hours, the
    second with spaces around its name; one line is left unread. *)
Definition two_typed : world :=
  home [fridge] ["  "%string; "60"%string; "abc"%string; "5"%string;
                 "2"%string; " Lamp "%string; "9.5"%string; "2"%string;
                 "1"%string; "left"%string].

(** An input that ends in the middle of the first device. *)
Definition cut_short : world := home [] ["Fan"%string; "75"%string].

(** A heater whose hours were typed as [nan], before an air
    conditioner; a device with infinite watts between two others. *)
Definition heater_nan : device := appliance "Heater" 2000 nan 1.
Definition sun : device := appliance "Sun" infinity 1 1.
Definition nan_first : world := home [heater_nan; ac] [].
Definition sun_between : world := home [fan; sun; ac] [].

(** A whole session in which the watts are typed as [inf]. *)
Definition sun_typed : world :=
  home [] ["30"%string; "8"%string; "1"%string; "Sun"%string; "inf"%string;
           "1"%string; "1"%string].

Lemma pad_fills_its_column_witness :
  1 <= 7 /\
  len (pad (lit "12345678") 7) = 7 /\
  pad (pad (lit "12345678") 7) 7 = pad (lit "12345678") 7.
Proof. split; [lia | apply pad_fills_its_column; lia]. Defined.

Lemma pad_overflows_a_width_below_one_witness :
  -2 <= 0 /\ -2 < len (lit "Television") /\
  pad (lit "Television") (-2) =
    firstn (Z.to_nat (len (lit "Television") + -2 - 1)) (lit "Television")
    ++ [8230%N] /\
  len (pad (lit "Television") (-2)) =
    Z.max 0 (len (lit "Television") + -2 - 1) + 1 /\
  -2 < len (pad (lit "Television") (-2)).
Proof.
  split; [lia |]. split; [reflexivity |].
  apply pad_overflows_a_width_below_one; [lia | reflexivity].
Defined.

Lemma crossed_bounds_accept_no_number_witness :
  1 < 5 /\
  fst (ask_int dec_int (lit "Q: ") (Some 5) (Some 1) cut_short) =
    Raise EOFError /\
  stdin (snd (ask_int dec_int (lit "Q: ") (Some 5) (Some 1) cut_short)) = [] /\
  forall v w',
    ask_float dec_float (lit "Q: ") (Some 5) (Some 1) cut_short = (Ok v, w') ->
    isnan v = true.
Proof.
  split; [lia |].
  apply (crossed_bounds_accept_no_number dec_int dec_float). lia.
Defined.

Lemma collect_devices_makes_new_dictionaries_witness :
  collect_devices dec_int dec_float 2 two_typed =
    (Ok [1%nat; 2%nat], snd (collect_devices dec_int dec_float 2 two_typed)) /\
  [1%nat; 2%nat] = seq (List.length (heap two_typed)) (Z.to_nat 2) /\
  NoDup [1%nat; 2%nat] /\
  List.length (heap (snd (collect_devices dec_int dec_float 2 two_typed))) =
    (List.length (heap two_typed) + Z.to_nat 2)%nat /\
  forall r d,
    nth_error (heap two_typed) r = Some d ->
    nth_error (heap (snd (collect_devices dec_int dec_float 2 two_typed))) r =
      Some d.
Proof.
  assert (H : collect_devices dec_int dec_float 2 two_typed =
              (Ok [1%nat; 2%nat],
               snd (collect_devices dec_int dec_float 2 two_typed)))
    by (vm_compute; reflexivity).
  split; [exact H |].
  exact (collect_devices_makes_new_dictionaries dec_int dec_float 2 two_typed
           _ _ H).
Defined.

Lemma collect_devices_reads_four_lines_per_device_witness :
  collect_devices dec_int dec_float 2 two_typed =
    (Ok [1%nat; 2%nat], snd (collect_devices dec_int dec_float 2 two_typed)) /\
  exists read,
    stdin two_typed =
      read ++ stdin (snd (collect_devices dec_int dec_float 2 two_typed)) /\
    (4 * List.length [1%nat; 2%nat] <= List.length read)%nat.
Proof.
  assert (H : collect_devices dec_int dec_float 2 two_typed =
              (Ok [1%nat; 2%nat],
               snd (collect_devices dec_int dec_float 2 two_typed)))
    by (vm_compute; reflexivity).
  split; [exact H |].
  exact (collect_devices_reads_four_lines_per_device dec_int dec_float 2
           two_typed _ _ H).
Defined.

Lemma collect_devices_stores_validated_fields_witness :
  collect_devices dec_int dec_float 2 two_typed =
    (Ok [1%nat; 2%nat], snd (collect_devices dec_int dec_float 2 two_typed)) /\
  In 2%nat [1%nat; 2%nat] /\
  exists d,
    nth_error (heap (snd (collect_devices dec_int dec_float 2 two_typed)))
              2 = Some d /\
    1 <= qty d <= 1000 /\
    float_lt_int (watts d) 1 = false /\
    float_lt_int (hours d) 0 = false /\
    float_gt_int (hours d) 24 = false.
Proof.
  assert (H : collect_devices dec_int dec_float 2 two_typed =
              (Ok [1%nat; 2%nat],
               snd (collect_devices dec_int dec_float 2 two_typed)))
    by (vm_compute; reflexivity).
  split; [exact H |]. split; [right; left; reflexivity |].
  apply (collect_devices_stores_validated_fields dec_int dec_float 2 two_typed
           _ _ H).
  right. left. reflexivity.
Defined.

Lemma collect_devices_names_witness :
  collect_devices dec_int dec_float 2 two_typed =
    (Ok [1%nat; 2%nat], snd (collect_devices dec_int dec_float 2 two_typed)) /\
  nth_error [1%nat; 2%nat] 0 = Some 1%nat /\
  exists d,
    nth_error (heap (snd (collect_devices dec_int dec_float 2 two_typed)))
              1 = Some d /\
    (name d = default_name (Z.of_nat 0 + 1) \/
     exists l, In l (stdin two_typed) /\ name d = strip l) /\
    name d <> [] /\ strip (name d) = name d.
Proof.
  assert (H : collect_devices dec_int dec_float 2 two_typed =
              (Ok [1%nat; 2%nat],
               snd (collect_devices dec_int dec_float 2 two_typed)))
    by (vm_compute; reflexivity).
  split; [exact H |]. split; [reflexivity |].
  exact (collect_devices_names dec_int dec_float 2 two_typed _ _ 0%nat 1%nat
           H eq_refl).
Defined.

Lemma collect_devices_fails_only_at_end_of_input_witness :
  collect_devices dec_int dec_float 1 cut_short =
    (Raise EOFError, snd (collect_devices dec_int dec_float 1 cut_short)) /\
  EOFError = EOFError /\
  stdin (snd (collect_devices dec_int dec_float 1 cut_short)) = [].
Proof.
  assert (H : collect_devices dec_int dec_float 1 cut_short =
              (Raise EOFError,
               snd (collect_devices dec_int dec_float 1 cut_short)))
    by (vm_compute; reflexivity).
  split; [exact H |].
  exact (collect_devices_fails_only_at_end_of_input dec_int dec_float 1
           cut_short _ _ H).
Defined.

Lemma top_when_a_figure_is_no_number_witness :
  Forall2 (points_to nan_first) [0%nat; 1%nat] [heater_nan; ac] /\
  isfinite (of_int 30) = true /\
  exists m t,
    compute_metrics Sum.compensated [0%nat; 1%nat] 30 8 nan_first = (Ok m, nan_first) /\
    points_to nan_first (top m) t /\
    In (top m, t) (combine [0%nat; 1%nat] [heater_nan; ac]) /\
    (isnan (kwh_day heater_nan) = true -> (top m, t) = (0%nat, heater_nan)) /\
    (isnan (kwh_day t) = true -> (top m, t) = (0%nat, heater_nan)).
Proof.
  assert (H : Forall2 (points_to nan_first) [0%nat; 1%nat] [heater_nan; ac])
    by (repeat constructor).
  split; [exact H |]. split; [reflexivity |].
  exact (top_when_a_figure_is_no_number Sum.compensated nan_first 0%nat heater_nan [1%nat]
           [ac] 30 8 H eq_refl).
Defined.

Lemma report_stops_at_watts_without_an_integer_witness :
  Forall2 (row_of sun_between) [0%nat] [(fan, 75)] /\
  points_to sun_between 1%nat sun /\
  watts_error (watts sun) = Some OverflowError /\
  Forall2 (points_to sun_between) [2%nat] [ac] /\
  isfinite (of_int 30) = true /\
  summary_and_report repr1 Sum.compensated ([0%nat] ++ 1%nat :: [2%nat]) 30 8 sun_between =
  (Raise OverflowError,
   out sun_between
       ([line []; line [BOLD ++ lit "Per-Device Daily Usage" ++ RST];
         line [rule];
         line [pad h1 w1; bar; pad h2 w2; bar; pad h3 w3; bar; pad h4 w4;
               bar; pad h5 w5];
         line [rule]]
        ++ map (fun row => line (row_cells (fst row) (snd row)))
               [(fan, 75)])).
Proof.
  assert (H1 : Forall2 (row_of sun_between) [0%nat] [(fan, 75)])
    by (repeat constructor).
  assert (H2 : Forall2 (points_to sun_between) [2%nat] [ac])
    by (repeat constructor).
  split; [exact H1 |]. split; [reflexivity |]. split; [reflexivity |].
  split; [exact H2 |]. split; [reflexivity |].
  exact (report_stops_at_watts_without_an_integer repr1 Sum.compensated sun_between [0%nat]
           [(fan, 75)] 1%nat sun OverflowError [2%nat] [ac] 30 8 H1 eq_refl
           eq_refl H2 eq_refl).
Defined.

Lemma main_fails_for_two_reasons_only_witness :
  main dec_int dec_float repr1 Sum.compensated sun_typed =
    (Raise OverflowError, snd (main dec_int dec_float repr1 Sum.compensated sun_typed)) /\
  ((OverflowError = EOFError /\
    stdin (snd (main dec_int dec_float repr1 Sum.compensated sun_typed)) = []) \/
   exists r d,
     nth_error (heap (snd (main dec_int dec_float repr1 Sum.compensated sun_typed))) r
       = Some d /\
     watts_error (watts d) = Some OverflowError).
Proof.
  assert (H : main dec_int dec_float repr1 Sum.compensated sun_typed =
              (Raise OverflowError,
               snd (main dec_int dec_float repr1 Sum.compensated sun_typed)))
    by (vm_compute; reflexivity).
  split; [exact H |].
  exact (main_fails_for_two_reasons_only dec_int dec_float repr1 Sum.compensated sun_typed
           _ _ H).
Defined.


(** * Inputs the validators accept and the claims do not expect *)

(** A session in which the hours of the first device are typed as
    [nan]: the validator returns the NaN, the daily figure of the heater
    is NaN, and the heater entered first stays the top device although
    its figure equals no figure of the list, not even itself, while the
    air conditioner uses 16 kWh a day. *)
Definition nan_typed : world :=
  home [] ["Heater"%string; "2000"%string; "nan"%string; "1"%string;
           "AC"%string; "2000"%string; "8"%string; "1"%string].

(** C3 as stated fails on that session. *)
Lemma nan_hours_keep_the_first_device_on_top :
  fst (collect_devices dec_int dec_float 2 nan_typed) = Ok [0%nat; 1%nat] /\
  heap (snd (collect_devices dec_int dec_float 2 nan_typed)) =
    [heater_nan; ac] /\
  option_map top
    (match fst (compute_metrics Sum.compensated [0%nat; 1%nat] 30 8
                  (snd (collect_devices dec_int dec_float 2 nan_typed))) with
     | Ok m => Some m
     | Raise _ => None
     end) = Some 0%nat /\
  kwh_day ac = 16%float /\
  isnan (kwh_day heater_nan) = true /\
  map (fun d => (kwh_day heater_nan =? kwh_day d)%float) [heater_nan; ac] =
    [false; false].
Proof. repeat split; vm_compute; reflexivity. Qed.

(** C4 as stated fails on a session in which the watts are typed as
    [inf]: [int] raises [OverflowError] in the first row of the table,
    and the run ends without the "Tips:" heading. *)
Lemma tips_heading_is_missing_after_infinite_watts :
  fst (main dec_int dec_float repr1 Sum.compensated sun_typed) =
    Raise OverflowError /\
  existsb (str_eqb (line [lit "Tips:"]))
          (stdout (snd (main dec_int dec_float repr1 Sum.compensated
                             sun_typed))) = false /\
  existsb (str_eqb (line [lit "Tips:"]))
          (stdout (snd (summary_and_report repr1 Sum.compensated
                          [0%nat; 1%nat] 30 10 scenario_b))) = true.
Proof. repeat split; vm_compute; reflexivity. Qed.

(** ** The rules of the tips on runs *)

(** A lamp of 60 W that burns 12 hours and a pump of 80 W that runs 10
    hours and a half: the lamp meets rule 4, the pump does not (its
    watts are not below 80), and rule 4 prints its line once. *)
Definition lamp : device := appliance "Lamp" 60 12 1.
Definition pump : device := appliance "Pump" 80 10.5 1.

Example lamp_gets_the_fourth_tip :
  skipn 15 (stdout (snd (summary_and_report repr1 Sum.compensated
                           [0%nat; 1%nat] 30 8 (home [lamp; pump] [])))) =
    [line [lit "Tips:"];
     line [lit "  • Long-running low-watt devices add up—audit always-on equipment."];
     saved_line] /\
  skipn 14 (stdout (snd (summary_and_report repr1 Sum.compensated
                           [0%nat] 30 8 (home [pump] [])))) =
    [line [lit "Tips:"]; saved_line] /\
  skipn 14 (stdout (snd (summary_and_report repr1 Sum.compensated
                           [0%nat] 30 8
                           (home [appliance "Lamp" 60 10 1] [])))) =
    [line [lit "Tips:"]; saved_line].
Proof. split; [| split]; vm_compute; reflexivity. Qed.

(** ** The two summations *)

(** Daily figures of 6.2, 8.56 and 0.24 kWh (the doubles nearest to
    them): added one after the other they give 15.000000000000002, and
    with the rounding errors collected they give 15.  The first total
    is above 15, the second is not: rule 1 of the tips depends on the
    interpreter here. *)
Example the_summations_differ :
  Sum.plain [0x1.8cccccccccccdp+2; 0x1.11eb851eb851fp+3;
             0x1.eb851eb851eb8p-3]%float = 0x1.e000000000001p+3%float /\
  Sum.compensated [0x1.8cccccccccccdp+2; 0x1.11eb851eb851fp+3;
                   0x1.eb851eb851eb8p-3]%float = 15%float /\
  float_gt_int 0x1.e000000000001p+3 15 = true /\
  float_gt_int 15 15 = false.
Proof. split; [| split; [| split]]; vm_compute; reflexivity. Qed.

(** On scenario B both give 19.6 kWh a day. *)
Example the_summations_agree_on_scenario_b :
  Sum.plain (map kwh_day [ac; fridge]) = 0x1.399999999999ap+4%float /\
  Sum.compensated (map kwh_day [ac; fridge]) = 0x1.399999999999ap+4%float.
Proof. split; vm_compute; reflexivity. Qed.

(** ** The dictionaries of a longer session *)

(** The two devices of [two_typed] behind the fridge: the first without
    a name, with the hours read from the line after the refused one,
    the second with its name stripped. *)
Example two_typed_makes_two_devices :
  heap (snd (collect_devices dec_int dec_float 2 two_typed)) =
    [fridge;
     mkDevice (lit "Device1") 60 5 2 0x1.3333333333333p-1;
     mkDevice (lit "Lamp") 9.5 2 1 0x1.374bc6a7ef9dbp-6] /\
  stdin (snd (collect_devices dec_int dec_float 2 two_typed)) = [lit "left"].
Proof. split; vm_compute; reflexivity. Qed.
